(** * Froster: archive registry, packer, manifest, delete and restore paths

    A shallow embedding of the parts of [froster.py] (class [Archiver] and its
    callers) that decide the archive / delete / restore behaviour, and the
    properties of the specification proved or refuted on it.

    Conventions of the embedding:
    - a Python [str] is a [string] (a sequence of 8-bit characters, so [len]
      is [String.length]);
    - a Python [dict] with string keys is a [gmap string _]; a missing key
      read with [d[k]] raises [KeyError];
    - code that may raise returns an [outcome]; code that also mutates the
      filesystem, the registry file or the terminal runs in the state monad
      [M] over [world];
    - external tools (rclone, the object store, the OS account database) are
      oracles collected in records that every function receives. *)

From Stdlib Require Import String Ascii ZArith List Bool Lia Sorted.
From stdpp Require Import base option list gmap strings fin_maps.

Local Open Scope string_scope.

(* ===================================================================== *)
(** ** Python exceptions and results                                      *)
(* ===================================================================== *)

(** The exceptions the modelled code can meet.  [SystemExit] is raised by
    [sys.exit]; it derives from [BaseException], not from [Exception]. *)
Inductive exn :=
  | SystemExit (code : Z)
  | KeyError (key : string)
  | IndexError
  | ValueError
  | TypeError
  | OSError (what : string)
  | ClientError (code : string)
  | OtherError (what : string).

(** [isinstance(e, Exception)]: what an [except Exception] clause catches. *)
Definition is_Exception (e : exn) : bool :=
  match e with
  | SystemExit _ => false
  | _ => true
  end.

Inductive outcome (A : Type) :=
  | Ok (a : A)
  | Raised (e : exn).
Arguments Ok {A} a.
Arguments Raised {A} e.

Definition obind {A B} (x : outcome A) (f : A -> outcome B) : outcome B :=
  match x with
  | Ok a => f a
  | Raised e => Raised e
  end.

(** [d[k]] on a dict. *)
Definition getitem {V} (d : gmap string V) (k : string) : outcome V :=
  match d !! k with
  | Some v => Ok v
  | None => Raised (KeyError k)
  end.

(* ===================================================================== *)
(** ** Python string primitives                                           *)
(* ===================================================================== *)

Module Py.

Definition slash : ascii := "/"%char.

(** The double quote character, for literals that contain one. *)
Definition dquote : string := String (ascii_of_nat 34) EmptyString.

(** [s.startswith(p)] *)
Definition startswith (s p : string) : bool := String.prefix p s.

(** [needle in hay] *)
Fixpoint contains (needle hay : string) : bool :=
  String.prefix needle hay ||
  match hay with
  | EmptyString => false
  | String _ rest => contains needle rest
  end.

(** [s[n:]] for [0 <= n] *)
Fixpoint drop (n : nat) (s : string) : string :=
  match n, s with
  | O, _ => s
  | S _, EmptyString => EmptyString
  | S k, String _ rest => drop k rest
  end.

(** [s[:n]] for [0 <= n] *)
Fixpoint take (n : nat) (s : string) : string :=
  match n, s with
  | O, _ => EmptyString
  | S _, EmptyString => EmptyString
  | S k, String c rest => String c (take k rest)
  end.

(** [s[-n:]] for [0 < n] *)
Definition last_chars (n : nat) (s : string) : string :=
  drop (String.length s - n) s.

(** [s.lstrip(c)] for a one-character [c] *)
Fixpoint lstrip (c : ascii) (s : string) : string :=
  match s with
  | EmptyString => EmptyString
  | String a rest => if Ascii.eqb a c then lstrip c rest else s
  end.

(** [s.rstrip(c)] for a one-character [c] *)
Fixpoint rstrip (c : ascii) (s : string) : string :=
  match s with
  | EmptyString => EmptyString
  | String a rest =>
      match rstrip c rest with
      | EmptyString => if Ascii.eqb a c then EmptyString else String a EmptyString
      | r => String a r
      end
  end.

(** [s.split(c)] for a one-character [c]: never empty, [''.split(c) == ['']] *)
Fixpoint split (c : ascii) (s : string) : list string :=
  match s with
  | EmptyString => [EmptyString]
  | String a rest =>
      if Ascii.eqb a c then EmptyString :: split c rest
      else match split c rest with
           | h :: t => String a h :: t
           | [] => [String a EmptyString]
           end
  end.

(** [s.split(c, 1)]: at most one cut, at the first [c] *)
Fixpoint split1 (c : ascii) (s : string) : list string :=
  match s with
  | EmptyString => [EmptyString]
  | String a rest =>
      if Ascii.eqb a c then [EmptyString; rest]
      else match split1 c rest with
           | h :: t => String a h :: t
           | [] => [String a EmptyString]
           end
  end.

(** [sep.join(parts)] *)
Fixpoint join (sep : string) (parts : list string) : string :=
  match parts with
  | [] => EmptyString
  | [p] => p
  | p :: rest => p ++ sep ++ join sep rest
  end.

(** The scan of [s.replace(old, new)] for a non-empty [old]: left to
    right, non-overlapping; [skip] counts the characters of a match that
    are still to be passed over. *)
Fixpoint replace_scan (old new : string) (skip : nat) (s : string) : string :=
  match s with
  | EmptyString => EmptyString
  | String c rest =>
      match skip with
      | S k => replace_scan old new k rest
      | O =>
          if String.prefix old s
          then new ++ replace_scan old new (String.length old - 1) rest
          else String c (replace_scan old new 0 rest)
      end
  end.

(** With an empty [old], Python puts [new] before every character and at
    the end. *)
Fixpoint replace_empty (new : string) (s : string) : string :=
  match s with
  | EmptyString => new
  | String c rest => new ++ String c (replace_empty new rest)
  end.

(** [s.replace(old, new)] *)
Definition replace (s old new : string) : string :=
  match old with
  | EmptyString => replace_empty new s
  | _ => replace_scan old new 0 s
  end.

(** [os.path.join(a, b)] on POSIX: an absolute [b] discards [a]. *)
Definition os_path_join (a b : string) : string :=
  if startswith b "/" then b
  else if (String.eqb a "") || String.eqb (last_chars 1 a) "/" then a ++ b
  else a ++ "/" ++ b.

(** [pathlib.PurePosixPath(s)]: the root ([""], ["/"] or ["//"]) and the
    names, with empty and ["."] components dropped. *)
Definition path_root (s : string) : string :=
  if startswith s "/" then
    if Nat.eqb (String.length s - String.length (lstrip slash s)) 2 then "//" else "/"
  else "".

Definition path_names (s : string) : list string :=
  List.filter (fun c => negb (String.eqb c "") && negb (String.eqb c "."))
              (split slash s).

(** [str(PurePosixPath)] from root and names *)
Definition path_str (root : string) (names : list string) : string :=
  match root, names with
  | EmptyString, [] => "."
  | _, _ => root ++ join "/" names
  end.

(** The prefixes of [names] of length [k-1], ..., [0], longest first. *)
Fixpoint proper_prefixes (names : list string) (k : nat) : list (list string) :=
  match k with
  | O => []
  | S k' => firstn k' names :: proper_prefixes names k'
  end.

(** [[str(p) for p in Path(s).parents]]: nearest ancestor first. *)
Definition parents (s : string) : list string :=
  let names := path_names s in
  List.map (path_str (path_root s)) (proper_prefixes names (List.length names)).

End Py.

(* ===================================================================== *)
(** ** Archive registry ([froster-archives.json])                         *)
(* ===================================================================== *)

(** One registry entry: a JSON object with string values
    ([local_folder], [archive_folder], [s3_storage_class], [profile],
    [archive_mode], [timestamp], [timestamp_archive], [user], ...). *)
Abbreviation entry := (gmap string string).

(** The state of the registry file as [json.load] sees it. *)
Inductive json_file :=
  | JsonMissing
  | JsonCorrupt
  | JsonDict (data : gmap string entry).

(** The loop [for parent in path.parents] of [archive_json_get_row]. *)
Fixpoint first_recursive_parent (data : gmap string entry) (ps : list string)
  : outcome (option entry) :=
  match ps with
  | [] => Ok None
  | parent :: rest =>
      match data !! parent with
      | None => first_recursive_parent data rest
      | Some e =>
          obind (getitem e "archive_mode") (fun mode =>
            if String.eqb mode "Recursive" then Ok (Some e)
            else first_recursive_parent data rest)
      end
  end.

(** [Archiver.archive_json_get_row].  A registry file that cannot be
    parsed gives [None] (the two lines the source prints then are left
    out). *)
Definition archive_json_get_row (archive_json : json_file) (folder : string)
  : outcome (option entry) :=
  match archive_json with
  | JsonMissing => Ok None
  | JsonCorrupt => Ok None
  | JsonDict data =>
      match data !! folder with
      | Some e => Ok (Some e)
      | None => first_recursive_parent data (Py.parents folder)
      end
  end.

(** [Archiver._is_folder_archived] *)
Definition _is_folder_archived (archive_json : json_file) (folder : string)
  : outcome bool :=
  obind (archive_json_get_row archive_json folder) (fun row =>
    Ok (match row with Some _ => true | None => false end)).

(* ===================================================================== *)
(** ** Hotspots file names                                                *)
(* ===================================================================== *)

(** One element of the list [_get_mount_info] builds from
    [/proc/self/mountinfo] (network file systems only). *)
Record mount_info := {
  mount_source_folder : string;
  mount_point : string;
  fs_type : string;
  mount_source : string
}.

(** [Archiver._get_last_directory] *)
Definition _get_last_directory (path : string) : string :=
  let path := Py.rstrip Py.slash path in
  let path_parts := Py.split Py.slash path in
  List.last path_parts "".

(** One turn of the loop [for mnt in mountlist] of [_get_hotspots_file]. *)
Definition hotspots_file_step (folder : string) (hsfile : string) (mnt : mount_info)
  : string :=
  if Py.startswith folder (mount_point mnt) then
    let traildir := _get_last_directory (mount_point mnt) in
    let hsfile := Py.replace folder (mount_point mnt) "" in
    let hsfile := "@" ++ traildir ++ "+" ++ hsfile in
    if Nat.ltb 255 (String.length hsfile)
    then Py.take 25 hsfile ++ "....." ++ Py.last_chars 225 hsfile
    else hsfile
  else hsfile.

(** [Archiver._get_hotspots_file]; [mountlist] is what [_get_mount_info]
    returned. *)
Definition _get_hotspots_file (mountlist : list mount_info) (folder : string) : string :=
  let hsfile := Py.replace folder "/" "+" ++ ".csv" in
  List.fold_left (hotspots_file_step folder) mountlist hsfile.

(* ===================================================================== *)
(** ** Indexer query                                                      *)
(* ===================================================================== *)

Module Indexer.

(** One line of the tree walker's output, as the query reads it. *)
Record pwalk_row := {
  UID : Z;
  GID : Z;
  st_atime : Z;
  st_mtime : Z;
  pw_fcount : Z;
  pw_dirsum : Z;
  filename : string
}.


(** [WHERE pw_fcount > -1 AND pw_dirsum > 0] *)
Definition sql_where (r : pwalk_row) : bool :=
  (Z.gtb (pw_fcount r) (-1)) && (Z.gtb (pw_dirsum r) 0).

(** [ORDER BY pw_dirsum Desc], as an insertion sort. *)
Fixpoint insert_desc (r : pwalk_row) (sorted : list pwalk_row) : list pwalk_row :=
  match sorted with
  | [] => [r]
  | h :: t =>
      if Z.leb (pw_dirsum h) (pw_dirsum r) then r :: h :: t
      else h :: insert_desc r t
  end.

Definition order_by_dirsum_desc (rows : list pwalk_row) : list pwalk_row :=
  List.fold_right insert_desc [] rows.

(** The rows the query of [_index_locally] selects, in its order.  The
    computed columns ([GiB], [MiBAvg], [TiB]) are floating-point quotients
    of [pw_dirsum] and are left out; [MiBAvg] divides by [pw_fcount]. *)
Definition sql_query (rows : list pwalk_row) : list pwalk_row :=
  order_by_dirsum_desc (List.filter sql_where rows).

End Indexer.

(* ===================================================================== *)
(** ** Glacier restore controller and restore                             *)
(* ===================================================================== *)

(** The reply of [head_object], with the two keys the code reads. *)
Record object_header := {
  StorageClass : option string;
  Restore : option string
}.

(** The object store as the controller uses it.  [paginate bucket prefix]
    is the outcome of the [try] block, which builds the client, the
    paginator and the page iterator and sends no request.  The listing is
    requested when the iterator is first advanced, by [for page in pages]:
    [list_pages bucket prefix] is the pages it yields, or the exception of
    a listing that is refused (a listing that fails after its first page is
    not modelled); a page is its ['Contents'] keys, if it has any. *)
Record s3_client := {
  paginate : string -> string -> outcome unit;
  list_pages : string -> string -> outcome (list (option (list string)));
  head_object : string -> string -> outcome object_header;
  restore_object : string -> string -> Z -> string -> outcome unit
}.

Definition glacier_classes : list string := ["GLACIER"; "DEEP_ARCHIVE"].

Definition ongoing_request (flag : string) : string :=
  "ongoing-request=" ++ Py.dquote ++ flag ++ Py.dquote.

(** The four lists the controller fills. *)
Record key_lists := {
  triggered_keys : list string;
  restoring_keys : list string;
  restored_keys : list string;
  not_glacier_keys : list string
}.

(** The body of [for obj in page['Contents']] for one key. *)
Definition glacier_visit_key (s3 : s3_client) (bucket prefix : string)
    (keep_days : Z) (ret_opt : string) (recursive : bool)
    (acc : key_lists) (object_key : string) : outcome key_lists :=
  let remaining_path := Py.drop (String.length prefix) object_key in
  if Py.contains "/" remaining_path && negb recursive then Ok acc
  else
    obind (head_object s3 bucket object_key) (fun header =>
      match StorageClass header with
      | None => Ok acc
      | Some sc =>
          if negb (existsb (String.eqb sc) glacier_classes) then
            Ok {| triggered_keys := triggered_keys acc;
                  restoring_keys := restoring_keys acc;
                  restored_keys := restored_keys acc;
                  not_glacier_keys := not_glacier_keys acc ++ [object_key] |}
          else if match Restore header with
                  | Some r => Py.contains (ongoing_request "true") r
                  | None => false
                  end then
            Ok {| triggered_keys := triggered_keys acc;
                  restoring_keys := restoring_keys acc ++ [object_key];
                  restored_keys := restored_keys acc;
                  not_glacier_keys := not_glacier_keys acc |}
          else if match Restore header with
                  | Some r => Py.contains (ongoing_request "false") r
                  | None => false
                  end then
            Ok {| triggered_keys := triggered_keys acc;
                  restoring_keys := restoring_keys acc;
                  restored_keys := restored_keys acc ++ [object_key];
                  not_glacier_keys := not_glacier_keys acc |}
          else
            match restore_object s3 bucket object_key keep_days ret_opt with
            | Ok _ =>
                Ok {| triggered_keys := triggered_keys acc ++ [object_key];
                      restoring_keys := restoring_keys acc;
                      restored_keys := restored_keys acc;
                      not_glacier_keys := not_glacier_keys acc |}
            | Raised (ClientError code) =>
                if String.eqb code "RestoreAlreadyInProgress" then
                  Ok {| triggered_keys := triggered_keys acc;
                        restoring_keys := restoring_keys acc ++ [object_key];
                        restored_keys := restored_keys acc;
                        not_glacier_keys := not_glacier_keys acc |}
                else Ok acc
            | Raised _ => Ok acc   (* the bare [except:] *)
            end
      end).

Fixpoint glacier_visit_keys (s3 : s3_client) (bucket prefix : string)
    (keep_days : Z) (ret_opt : string) (recursive : bool)
    (acc : key_lists) (keys : list string) : outcome key_lists :=
  match keys with
  | [] => Ok acc
  | k :: rest =>
      obind (glacier_visit_key s3 bucket prefix keep_days ret_opt recursive acc k)
            (fun acc' =>
               glacier_visit_keys s3 bucket prefix keep_days ret_opt recursive acc' rest)
  end.

(** [for page in pages]: a page without ['Contents'] is passed over. *)
Fixpoint glacier_visit_pages (s3 : s3_client) (bucket prefix : string)
    (keep_days : Z) (ret_opt : string) (recursive : bool)
    (acc : key_lists) (pages : list (option (list string))) : outcome key_lists :=
  match pages with
  | [] => Ok acc
  | None :: rest =>
      glacier_visit_pages s3 bucket prefix keep_days ret_opt recursive acc rest
  | Some keys :: rest =>
      obind (glacier_visit_keys s3 bucket prefix keep_days ret_opt recursive acc keys)
            (fun acc' =>
               glacier_visit_pages s3 bucket prefix keep_days ret_opt recursive acc' rest)
  end.

(** [Archiver._glacier_restore].  The returned Python tuple is the list of
    its components; what the function prints is left out.  The [except]
    clause covers the [try] block only: the loop over the pages, where the
    listing is requested, comes after it. *)
Definition _glacier_restore (s3 : s3_client) (bucket prefix : string)
    (keep_days : Z) (ret_opt : string) (recursive : bool)
  : outcome (list (list string)) :=
  match paginate s3 bucket prefix with
  | Raised (ClientError _) => Ok [[]; []; []]
  | Raised e => Raised e
  | Ok _ =>
      obind (list_pages s3 bucket prefix) (fun pages =>
        obind (glacier_visit_pages s3 bucket prefix keep_days ret_opt recursive
                 {| triggered_keys := []; restoring_keys := [];
                    restored_keys := []; not_glacier_keys := [] |} pages)
              (fun l => Ok [triggered_keys l; restoring_keys l;
                            restored_keys l; not_glacier_keys l]))
  end.

(** [a, b, c, d = t]: a tuple of any other length raises [ValueError]. *)
Definition unpack4 {A} (t : list A) : outcome (A * A * A * A) :=
  match t with
  | [a; b; c; d] => Ok (a, b, c, d)
  | _ => Raised ValueError
  end.

(** [Archiver.archive_get_bucket_info]: bucket, prefix, recursive, glacier. *)
Definition archive_get_bucket_info (archive_json : json_file) (folder : string)
  : outcome (option string * option string * bool * bool) :=
  obind (archive_json_get_row archive_json folder) (fun rowdict =>
    match rowdict with
    | None => Ok (None, None, false, false)
    | Some rowdict =>
        let recursive :=
          match rowdict !! "archive_mode" with
          | Some mode => String.eqb mode "Recursive"
          | None => false
          end in
        obind (getitem rowdict "s3_storage_class") (fun s3_storage_class =>
          let glacier :=
            existsb (String.eqb s3_storage_class) ["DEEP_ARCHIVE"; "GLACIER"] in
          obind (getitem rowdict "archive_folder") (fun archive_folder =>
            match Py.split1 Py.slash archive_folder with
            | sps0 :: sps1 :: _ =>
                Ok (Some (Py.replace sps0 ":s3:" ""), Some (sps1 ++ "/"),
                    recursive, glacier)
            | _ => Raised IndexError
            end))
    end).

(** The command-line switches [restore] reads. *)
Record restore_args := {
  days : Z;
  retrieveopt : string;
  nodownload : bool
}.

(** What [restore] returns: [False] or an integer. *)
Inductive restore_result :=
  | RetFalse
  | RetInt (n : Z).

(** [Archiver.restore].  After [rclone.copy] the code subscripts its result,
    a [bool], which raises [TypeError]; what the copy did to the local tree
    and what the function prints lie outside this function's model. *)
Definition restore (archive_json : json_file) (s3 : s3_client) (args : restore_args)
    (folder : string) (recursive : bool) : outcome restore_result :=
  obind (archive_json_get_row archive_json folder) (fun rowdict =>
    match rowdict with
    | None => Ok RetFalse
    | Some rowdict =>
        let recursive :=
          match rowdict !! "archive_mode" with
          | Some mode => if String.eqb mode "Recursive" then true else recursive
          | None => recursive
          end in
        obind (getitem rowdict "local_folder") (fun local_folder =>
          if negb (String.eqb folder local_folder) && negb recursive then Ok RetFalse
          else
            let tail :=
              if negb (String.eqb folder local_folder)
              then Py.replace folder local_folder "" else "" in
            obind (getitem rowdict "archive_folder") (fun archive_folder =>
              let source := archive_folder ++ tail ++ "/" in
              let target := folder in
              obind (archive_get_bucket_info archive_json target)
                (fun '(buc, pre, recur, isglacier) =>
                   let after_glacier :=
                     if nodownload args then Ok (RetInt (-1))
                     else Raised TypeError in
                   if isglacier then
                     obind (_glacier_restore s3 (default "" buc) (default "" pre)
                              (days args) (retrieveopt args) recur)
                       (fun t =>
                          obind (unpack4 t) (fun '(trig, rest, done, notg) =>
                            if Nat.ltb 0 (List.length trig) || Nat.ltb 0 (List.length rest)
                            then Ok (RetInt (Z.of_nat (List.length trig + List.length rest)))
                            else after_glacier))
                   else after_glacier)))
    end).

(* ===================================================================== *)
(** ** Local filesystem, registry file and terminal                       *)
(* ===================================================================== *)

(** What a directory entry is.  Broken links, FIFOs, sockets and devices
    are not modelled. *)
Inductive kind :=
  | Regular
  | Directory
  | LinkToFile
  | LinkToDir.

(** The fields of [os.lstat] that the code reads. *)
Record stat := {
  st_size : Z;
  st_mtime : Z;
  st_atime : Z;
  st_uid : Z;
  st_gid : Z;
  st_mode : Z
}.

(** One line of [Froster.allfiles.csv] below the header: File, Size(bytes),
    Date-Modified, Date-Accessed, Owner, Group, Permissions, Tarred.  The
    two dates are kept as the timestamps they are formatted from and the
    permissions as the mode [oct] prints. *)
Record csv_row := {
  row_file : string;
  row_size : Z;
  row_mtime : Z;
  row_atime : Z;
  row_owner : string;
  row_group : string;
  row_permissions : Z;
  row_tarred : string
}.

(** The lines of [Where-did-the-files-go.txt] that carry data, in the
    order they are written. *)
Inductive readme_line :=
  | ArchiveLocation (s3_dest : string)
  | ArchiveProfile (profile : string)
  | ArchiverUser (user : string)
  | ArchiverEmail (email : string)
  | RestoreCommand (folder : string)
  | DeletionDate (date : string)
  | FirstFilesDeleted (files : list string).

(** A directory entry with its contents.  A [Blob] is opaque data known by
    its MD5 digest; the other contents are the files froster writes.  The
    contents of a [Directory] entry are not used. *)
Inductive file :=
  | File (name : string) (k : kind) (st : stat) (data : content)
with content :=
  | Blob (digest : string)
  | HashFile (lines : list (string * string))
  | CsvFile (rows : list csv_row)
  | TarFile (members : list file)
  | ReadmeFile (text : list readme_line).

Definition fname (f : file) : string := let 'File n _ _ _ := f in n.
Definition fkind (f : file) : kind := let 'File _ k _ _ := f in k.
Definition fstat (f : file) : stat := let 'File _ _ st _ := f in st.
Definition fdata (f : file) : content := let 'File _ _ _ d := f in d.

Definition is_dir_kind (k : kind) : bool :=
  match k with
  | Directory | LinkToDir => true
  | Regular | LinkToFile => false
  end.

(** What froster prints, by step; the wording is in the source. *)
Inductive message :=
  | MsgAlreadyArchived (folder : string)
  | MsgHashfileExists (folder : string)
  | MsgEmptySkipping (folder : string)
  | MsgArchiving (folder : string)
  | MsgGeneratingCatalog (is_tar : bool)
  | MsgGeneratingChecksums
  | MsgChecksumDoubleCheckFailed
  | MsgUploadingFiles
  | MsgUploadingCatalog
  | MsgVerifyingChecksums
  | MsgDone
  | MsgFailed
  | MsgArchivingCompleted (folder s3_dest : string)
  | MsgDeleting (folder : string)
  | MsgNotArchived (folder : string)
  | MsgNoHashfile (folder : string)
  | MsgDeletingFiles
  | MsgDeletingCompleted (folder s3_dest : string) (total : nat)
  | MsgResetting (root : string)
  | MsgNothingToReset (root : string)
  | MsgUntarring
  | MsgRemoving (file : string) (removed : bool)
  | MsgResetDone (root : string)
  | MsgRecursiveCollision
  | MsgPermissions
  | MsgJsonCorrupt.

(** What the outside sees, in order: printed lines, [print_error] reports,
    rclone runs (environment, command line, whether the return code was 0)
    and batch jobs handed to Slurm. *)
Inductive event :=
  | Said (m : message)
  | ErrorReported (e : exn)
  | RcloneRan (envrn : gmap string string) (command : list string) (ok : bool)
  | SlurmSubmitted (folders : list string).

(** The state froster works on: for each directory path the entries it
    holds, the registry file, and the events so far. *)
Record world := {
  fs : gmap string (list file);
  archive_json_file : json_file;
  terminal : list event
}.

Definition set_fs (m : gmap string (list file)) (w : world) : world :=
  {| fs := m; archive_json_file := archive_json_file w; terminal := terminal w |}.

Definition set_archive_json_file (j : json_file) (w : world) : world :=
  {| fs := fs w; archive_json_file := j; terminal := terminal w |}.

Definition emit (e : event) (w : world) : world :=
  {| fs := fs w; archive_json_file := archive_json_file w;
     terminal := (terminal w ++ [e])%list |}.

(** [cfg] *)
Record config := {
  bucket_name : string;
  archive_dir : string;
  storage_class : string;
  aws_profile : string;
  aws_region : string;
  email : string;
  is_nih : bool
}.

(** [args] *)
Record cli_args := {
  args_recursive : bool;
  args_notar : bool;
  args_force : bool;
  args_noslurm : bool;
  args_nih : bool;
  args_debug : bool;
  args_cores : Z
}.

(** The [Archiver] object. *)
Record archiver := {
  args : cli_args;
  cfg : config;
  thresholdKB : Z
}.

(** What lies outside the program: the rclone binary, the operating
    system and the user at the terminal. *)
Record tools := {
  (** whether [subprocess.run(command, env=envrn)] returns code 0 *)
  rclone_run : world -> gmap string string -> list string -> bool;
  (** MD5 of the bytes of a file froster wrote *)
  md5_rendered : content -> string;
  (** [os.lstat] of a file just written, or of a link just made, at the
      path *)
  new_stat : world -> string -> content -> stat;
  (** [os.geteuid() == 0] *)
  is_root : bool;
  (** [pwd.getpwuid], [grp.getgrgid] *)
  user_name : Z -> string;
  group_name : Z -> string;
  (** [os.access(path, R_OK) and os.access(path, W_OK)] *)
  access_rw : world -> string -> bool;
  (** [os.path.realpath(os.path.expanduser(path).rstrip('/'))] *)
  clean_path : string -> string;
  (** [datetime.datetime.now()] as text *)
  now : world -> string;
  (** [getpass.getuser()] *)
  getuser : string;
  (** [shutil.which('sbatch')], [os.getenv('SLURM_JOB_ID')] *)
  which_sbatch : bool;
  slurm_job_id : bool;
  (** the row the user picks in the grants table *)
  nih_selection : list string
}.

Definition smallfiles_tar_filename : string := "Froster.smallfiles.tar".
Definition allfiles_csv_filename : string := "Froster.allfiles.csv".
Definition md5sum_filename : string := ".froster.md5sum".
Definition md5sum_restored_filename : string := ".froster-restored.md5sum".
Definition where_did_the_files_go_filename : string := "Where-did-the-files-go.txt".

Definition dirmetafiles : list string :=
  [allfiles_csv_filename; smallfiles_tar_filename; md5sum_filename;
   md5sum_restored_filename; where_did_the_files_go_filename].

(* ===================================================================== *)
(** ** The monad of froster's procedures                                  *)
(* ===================================================================== *)

Definition M (A : Type) : Type := world -> outcome A * world.

Definition ret {A} (a : A) : M A := fun w => (Ok a, w).

Definition raise {A} (e : exn) : M A := fun w => (Raised e, w).

Definition bind {A B} (m : M A) (k : A -> M B) : M B :=
  fun w =>
    match m w with
    | (Ok a, w') => k a w'
    | (Raised e, w') => (Raised e, w')
    end.

Definition get : M world := fun w => (Ok w, w).

Definition lift {A} (o : outcome A) : M A := fun w => (o, w).

Declare Scope froster_scope.
Delimit Scope froster_scope with froster.
Notation "x <- m ;; k" := (bind m (fun x => k))
  (at level 100, m at next level, right associativity) : froster_scope.
Notation "m ;; k" := (bind m (fun _ => k))
  (at level 100, right associativity) : froster_scope.
Local Open Scope froster_scope.

(** [print(...)] *)
Definition say (m : message) : M unit := fun w => (Ok tt, emit (Said m) w).

(** [sys.exit(code)] *)
Definition sys_exit {A} (code : Z) : M A := raise (SystemExit code).

(** [print_error()] inside an [except] clause *)
Definition print_error (e : exn) : M unit := fun w => (Ok tt, emit (ErrorReported e) w).

(** What an [except Exception] clause makes of the run of its [try] block:
    a [SystemExit] passes through. *)
Definition caught {A} (handler : exn -> M A) (run : outcome A * world)
  : outcome A * world :=
  match run with
  | (Ok a, w') => (Ok a, w')
  | (Raised e, w') => if is_Exception e then handler e w' else (Raised e, w')
  end.

(** [try: body / except Exception: handler] *)
Definition try_except {A} (body : M A) (handler : exn -> M A) : M A :=
  fun w => caught handler (body w).

Fixpoint for_each {A} (l : list A) (body : A -> M unit) : M unit :=
  match l with
  | [] => ret tt
  | x :: rest => body x ;; for_each rest body
  end.

(* ===================================================================== *)
(** ** Operating-system calls                                             *)
(* ===================================================================== *)

Definition find_file (name : string) (l : list file) : option file :=
  List.find (fun f => String.eqb (fname f) name) l.

(** The entry at [os.path.join(folder, name)], if any. *)
Definition lookup_path (w : world) (folder name : string) : option file :=
  match fs w !! folder with
  | Some l => find_file name l
  | None => None
  end.

(** [os.path.exists(os.path.join(folder, name))] *)
Definition os_path_exists (w : world) (folder name : string) : bool :=
  match lookup_path w folder name with
  | Some _ => true
  | None => false
  end.

(** [os.path.isfile(os.path.join(folder, name))] *)
Definition os_path_isfile (w : world) (folder name : string) : bool :=
  match lookup_path w folder name with
  | Some f => negb (is_dir_kind (fkind f))
  | None => false
  end.

(** [os.lstat(os.path.join(folder, name))] *)
Definition os_lstat (folder name : string) : M file :=
  fun w =>
    match lookup_path w folder name with
    | Some f => (Ok f, w)
    | None => (Raised (OSError "FileNotFoundError"), w)
    end.

(** [os.remove(os.path.join(folder, name))] *)
Definition os_remove (folder name : string) : M unit :=
  fun w =>
    match fs w !! folder with
    | None => (Raised (OSError "FileNotFoundError"), w)
    | Some l =>
        match find_file name l with
        | None => (Raised (OSError "FileNotFoundError"), w)
        | Some f =>
            match fkind f with
            | Directory => (Raised (OSError "IsADirectoryError"), w)
            | _ =>
                (Ok tt,
                 set_fs (<[folder :=
                             List.filter (fun g => negb (String.eqb (fname g) name)) l]>
                           (fs w)) w)
            end
        end
    end.

(** Size in bytes of a hash file: each line is the digest, two spaces, the
    name and a newline. *)
Definition hash_file_size (lines : list (string * string)) : Z :=
  List.fold_right
    (fun line acc =>
       (Z.of_nat (String.length (fst line)) + 2
        + Z.of_nat (String.length (snd line)) + 1 + acc)%Z)
    0%Z lines.

(** [os.lstat] of a file just written with [data]. *)
Definition written_stat (t : tools) (w : world) (folder name : string) (data : content)
  : stat :=
  let st := new_stat t w (Py.os_path_join folder name) data in
  match data with
  | HashFile lines =>
      {| st_size := hash_file_size lines; st_mtime := st_mtime st;
         st_atime := st_atime st; st_uid := st_uid st; st_gid := st_gid st;
         st_mode := st_mode st |}
  | _ => st
  end.

(** [with open(os.path.join(folder, name), 'w') as f: ...] leaving [data]
    in the file: an existing file (or the target of a link) is replaced in
    place, a new one is listed last. *)
Definition write_file (t : tools) (folder name : string) (data : content) : M unit :=
  fun w =>
    match fs w !! folder with
    | None => (Raised (OSError "FileNotFoundError"), w)
    | Some l =>
        match find_file name l with
        | Some f =>
            if is_dir_kind (fkind f) then (Raised (OSError "IsADirectoryError"), w)
            else
              (Ok tt,
               set_fs (<[folder :=
                           List.map (fun g =>
                                       if String.eqb (fname g) name
                                       then File name (fkind g)
                                              (written_stat t w folder name data) data
                                       else g) l]> (fs w)) w)
        | None =>
            (Ok tt,
             set_fs (<[folder :=
                         (l ++ [File name Regular
                                  (written_stat t w folder name data) data])%list]>
                       (fs w)) w)
        end
    end.

(** The names [os.walk] puts in [files] and in [dirs]. *)
Definition walk_files (l : list file) : list string :=
  List.map fname (List.filter (fun f => negb (is_dir_kind (fkind f))) l).

Definition walk_dirs (l : list file) : list string :=
  List.map fname (List.filter (fun f => is_dir_kind (fkind f)) l).

(** The first triple [_walker(top)] yields, without its [root]: the
    [dirs] (with [.snapshot] taken out) and the [files] of [top].  Nothing
    is yielded for a directory that cannot be listed. *)
Definition _walker_first (w : world) (top : string)
  : option (list string * list string) :=
  match fs w !! top with
  | Some l =>
      Some (List.filter (fun d => negb (String.eqb d ".snapshot")) (walk_dirs l),
            walk_files l)
  | None => None
  end.

(** The roots [os.walk(top, topdown=True)] yields: [top], then the walk of
    each real sub-directory whose name is not in [skip] (links to
    directories are not followed).  [fuel] bounds the depth. *)
Fixpoint walk_roots (m : gmap string (list file)) (skip : list string)
    (fuel : nat) (top : string) : list string :=
  match fuel with
  | O => []
  | S fuel' =>
      match m !! top with
      | None => []
      | Some l =>
          top ::
          List.flat_map
            (fun f =>
               match fkind f with
               | Directory =>
                   if existsb (String.eqb (fname f)) skip then []
                   else walk_roots m skip fuel' (Py.os_path_join top (fname f))
               | _ => []
               end) l
      end
  end.

(** The roots of [self._walker(top)].  The procedures that run between two
    yields create and remove files only, never directories, so the roots
    can be listed beforehand; along a descent every directory is another
    key of [fs], so their number bounds the depth. *)
Definition _walker_roots (w : world) (top : string) : list string :=
  walk_roots (fs w) [".snapshot"] (size (fs w)) top.

(* ===================================================================== *)
(** ** Rclone                                                             *)
(* ===================================================================== *)

(** [Rclone.__init__]: the environment of the rclone runs. *)
Definition Rclone_envrn (c : config) : gmap string string :=
  list_to_map
    [("RCLONE_S3_ENV_AUTH", "true");
     ("RCLONE_S3_PROVIDER", "AWS");
     ("RCLONE_S3_PROFILE", aws_profile c);
     ("RCLONE_S3_REGION", aws_region c);
     ("RCLONE_S3_LOCATION_CONSTRAINT", aws_region c);
     ("RCLONE_S3_STORAGE_CLASS", storage_class c)].

(** [Rclone._add_opt] without a value *)
Definition _add_opt (cmd : list string) (option : string) : list string :=
  if existsb (String.eqb option) cmd then cmd else (cmd ++ [option])%list.

(** The options [_run_rclone_command] adds to every command line. *)
Definition rclone_argv (command : list string) : list string :=
  let command := _add_opt command "--verbose" in
  let command := _add_opt command "--use-json-log" in
  let command := _add_opt command "--progress" in
  command.

(** [Rclone._run_rclone_command]: true exactly when the return code is 0. *)
Definition _run_rclone_command (t : tools) (envrn : gmap string string)
    (command : list string) : M bool :=
  fun w =>
    let command := rclone_argv command in
    let ok := rclone_run t w envrn command in
    (Ok ok, emit (RcloneRan envrn command ok) w).

(** [Rclone.copy(src, dst, *args)] *)
Definition rclone_copy (t : tools) (envrn : gmap string string)
    (src dst : string) (opts : list string) : M bool :=
  _run_rclone_command t envrn (["rclone"; "copy"] ++ opts ++ [src; dst])%list.

(** [Rclone.checksum(md5file, dst, *args)] *)
Definition rclone_checksum (t : tools) (envrn : gmap string string)
    (md5file dst : string) (opts : list string) : M bool :=
  _run_rclone_command t envrn (["rclone"; "checksum"] ++ opts ++ ["md5"; md5file; dst])%list.

(* ===================================================================== *)
(** ** Manifest and catalog generation                                    *)
(* ===================================================================== *)

Fixpoint map_m {A B} (f : A -> M B) (l : list A) : M (list B) :=
  match l with
  | [] => ret []
  | x :: rest => y <- f x ;; ys <- map_m f rest ;; ret (y :: ys)
  end.

Fixpoint fold_m {A S} (f : S -> A -> M S) (l : list A) (s : S) : M S :=
  match l with
  | [] => ret s
  | x :: rest => s' <- f s x ;; fold_m f rest s'
  end.

(** [Archiver.md5sum(os.path.join(folder, name))] *)
Definition md5sum (t : tools) (folder name : string) : M string :=
  f <- os_lstat folder name ;;
  ret (match fdata f with
       | Blob digest => digest
       | written => md5_rendered t written
       end).

(** The test under [# Skip froster files] in [_gen_md5sums]. *)
Definition is_hashed (w : world) (directory hash_file file : string) : bool :=
  os_path_isfile w directory file
  && negb (String.eqb file hash_file)
  && negb (String.eqb file where_did_the_files_go_filename)
  && negb (String.eqb file md5sum_filename)
  && negb (String.eqb file md5sum_restored_filename).

(** [Archiver._gen_md5sums].  The lines are written in the order the files
    are submitted (the source writes them as the worker threads finish).
    When the walk yields nothing the function falls off its end and
    returns [None], which its callers read as false. *)
Definition _gen_md5sums (t : tools) (directory hash_file : string) : M bool :=
  try_except
    (w <- get ;;
     match _walker_first w directory with
     | None => ret false
     | Some (_, files) =>
         write_file t directory hash_file (HashFile []) ;;
         w1 <- get ;;
         lines <- map_m (fun file => md5 <- md5sum t directory file ;; ret (md5, file))
                        (List.filter (is_hashed w1 directory hash_file) files) ;;
         write_file t directory hash_file (HashFile lines) ;;
         if Z.eqb (hash_file_size lines) 0
         then os_remove directory hash_file ;; ret false
         else ret true
     end)
    (fun e => print_error e ;; ret false).

(** What the loop of [_gen_allfiles_and_tar] has built so far. *)
Record pack_state := {
  tar_members : list file;
  csv_rows : list csv_row;
  didtar : bool
}.

(** The body of [for file in files] in [_gen_allfiles_and_tar].  The test
    [file_path == csv_path] compares two paths in the same directory, that
    is, the two names. *)
Definition pack_file (t : tools) (directory : string) (smallsize : Z) (is_tar : bool)
    (acc : pack_state) (file : string) : M pack_state :=
  if String.eqb file allfiles_csv_filename then ret acc
  else
    f <- os_lstat directory file ;;
    let st := fstat f in
    let size := st_size st in
    let row := fun tarred =>
      {| row_file := file; row_size := size;
         row_mtime := st_mtime st; row_atime := st_atime st;
         row_owner := user_name t (st_uid st); row_group := group_name t (st_gid st);
         row_permissions := st_mode st; row_tarred := tarred |} in
    if is_tar && Z.ltb size (smallsize * 1024) then
      os_remove directory file ;;
      ret {| tar_members := (tar_members acc ++ [File file (fkind f) st (fdata f)])%list;
             csv_rows := (csv_rows acc ++ [row "Yes"])%list;
             didtar := true |}
    else
      ret {| tar_members := tar_members acc;
             csv_rows := (csv_rows acc ++ [row "No"])%list;
             didtar := didtar acc |}.

(** [Archiver._gen_allfiles_and_tar].  The tar and the catalog are opened
    before the loop and hold their final contents when the [with] block
    closes them; when the loop raises, the model leaves both as they were
    opened, without the members and rows written up to then. *)
Definition _gen_allfiles_and_tar (a : archiver) (t : tools) (directory : string)
    (smallsize : Z) (is_tar : bool) : M bool :=
  try_except
    (w <- get ;;
     if os_path_exists w directory smallfiles_tar_filename then ret true
     else
       match _walker_first w directory with
       | None => ret true
       | Some (_, files) =>
           write_file t directory smallfiles_tar_filename (TarFile []) ;;
           write_file t directory allfiles_csv_filename (CsvFile []) ;;
           st <- fold_m (pack_file t directory smallsize is_tar) files
                   {| tar_members := []; csv_rows := []; didtar := false |} ;;
           write_file t directory smallfiles_tar_filename (TarFile (tar_members st)) ;;
           write_file t directory allfiles_csv_filename (CsvFile (csv_rows st)) ;;
           (if negb (didtar st) then os_remove directory smallfiles_tar_filename
            else ret tt) ;;
           ret true
       end)
    (fun e => (if args_debug (args a) then print_error e else ret tt) ;; ret false).

(* ===================================================================== *)
(** ** Reset                                                              *)
(* ===================================================================== *)

(** [os.lstat] of a member that [tarfile] has extracted at [root].  The
    archive holds the size, the modification time, the mode and the owner
    of a member, not its access time.  A regular file gets the member's
    mode and its modification time, also as access time ([os.utime] is
    called with the modification time twice); a link is made anew and
    keeps the times and the mode of its making.  The owner and the group are
    set to the member's only when the program runs as the superuser;
    otherwise they are those of a file made at the path. *)
Definition extracted_stat (t : tools) (w : world) (root : string) (m : file) : stat :=
  let made := new_stat t w (Py.os_path_join root (fname m)) (fdata m) in
  let st := fstat m in
  let regular := match fkind m with Regular => true | _ => false end in
  {| st_size := st_size st;
     st_mtime := if regular then st_mtime st else st_mtime made;
     st_atime := if regular then st_mtime st else st_atime made;
     st_uid := if is_root t then st_uid st else st_uid made;
     st_gid := if is_root t then st_gid st else st_gid made;
     st_mode := if regular then st_mode st else st_mode made |}.

(** The entry a member leaves behind when it is extracted at [root]. *)
Definition extracted (t : tools) (w : world) (root : string) (m : file) : file :=
  File (fname m) (fkind m) (extracted_stat t w root m) (fdata m).

(** One member of [tar.extractall(path=root)]: written over a file of the
    same name, or added. *)
Definition extract_member (t : tools) (root : string) (m : file) : M unit :=
  fun w =>
    match fs w !! root with
    | None => (Raised (OSError "FileNotFoundError"), w)
    | Some l =>
        match find_file (fname m) l with
        | Some f =>
            match fkind f with
            | Directory => (Raised (OSError "IsADirectoryError"), w)
            | _ =>
                (Ok tt,
                 set_fs (<[root :=
                             List.map (fun g =>
                                         if String.eqb (fname g) (fname m)
                                         then extracted t w root m else g) l]>
                           (fs w)) w)
            end
        | None =>
            (Ok tt, set_fs (<[root := (l ++ [extracted t w root m])%list]> (fs w)) w)
        end
    end.

(** The body of the loop of [reset_folder] for one [root]. *)
Definition reset_root (t : tools) (root : string) : M unit :=
  try_except
    (say (MsgResetting root) ;;
     w <- get ;;
     archived <- lift (_is_folder_archived (archive_json_file w)
                         (Py.rstrip Py.slash root)) ;;
     if archived then say (MsgNothingToReset root)
     else
       (if os_path_exists w root smallfiles_tar_filename then
          say MsgUntarring ;;
          f <- os_lstat root smallfiles_tar_filename ;;
          match fkind f, fdata f with
          | Directory, _ => raise (OSError "IsADirectoryError")
          | _, TarFile members =>
              for_each members (extract_member t root) ;; say MsgDone
          | _, _ => raise (OSError "ReadError")
          end
        else ret tt) ;;
       for_each dirmetafiles
         (fun file =>
            w' <- get ;;
            if os_path_exists w' root file
            then os_remove root file ;; say (MsgRemoving file true)
            else say (MsgRemoving file false)) ;;
       say (MsgResetDone root))
    (fun e => print_error e).

(** [Archiver.reset_folder] *)
Definition reset_folder (t : tools) (directory : string) (recursive : bool) : M unit :=
  w <- get ;;
  let roots := _walker_roots w directory in
  for_each (if recursive then roots else firstn 1 roots) (reset_root t).

(* ===================================================================== *)
(** ** Archive                                                            *)
(* ===================================================================== *)

(** [Archiver._archive_json_add_entry] *)
Definition _archive_json_add_entry (key : string) (value : entry) : M unit :=
  fun w =>
    match archive_json_file w with
    | JsonCorrupt => (Ok tt, emit (Said MsgJsonCorrupt) w)
    | JsonMissing => (Ok tt, set_archive_json_file (JsonDict (<[key := value]> ∅)) w)
    | JsonDict data => (Ok tt, set_archive_json_file (JsonDict (<[key := value]> data)) w)
    end.

(** [l[i]] on a list *)
Definition item (l : list string) (i : nat) : outcome string :=
  match nth_error l i with
  | Some x => Ok x
  | None => Raised IndexError
  end.

(** The destination [s3_dest] of [archive_locally]. *)
Definition archive_s3_dest (c : config) (folder_to_archive : string) : string :=
  Py.os_path_join (Py.os_path_join (":s3:" ++ bucket_name c) (archive_dir c))
                  (Py.lstrip Py.slash folder_to_archive).

(** The options of both [rclone.copy] calls of [archive_locally]. *)
Definition archive_copy_opts : list string :=
  ["--max-depth"; "1"; "--links";
   "--exclude"; md5sum_filename;
   "--exclude"; md5sum_restored_filename;
   "--exclude"; allfiles_csv_filename;
   "--exclude"; where_did_the_files_go_filename].

(** The dictionary [new_entry] of [archive_locally]. *)
Definition new_entry (a : archiver) (t : tools) (w : world)
    (folder_to_archive s3_dest : string) (is_recursive : bool) (nih : list string)
  : outcome entry :=
  let timestamp := now t w in
  let archive_mode := if is_recursive then "Recursive" else "Single" in
  let e : entry :=
    list_to_map
      [("local_folder", folder_to_archive);
       ("archive_folder", s3_dest);
       ("s3_storage_class", storage_class (cfg a));
       ("profile", aws_profile (cfg a));
       ("archive_mode", archive_mode);
       ("timestamp", timestamp);
       ("timestamp_archive", timestamp);
       ("user", getuser t)] in
  match nih with
  | [] => Ok e
  | _ =>
      obind (item nih 0) (fun project =>
        obind (item nih 6) (fun url =>
          obind (item nih 3) (fun pi =>
            Ok (<["nih_project_pi" := pi]>
                  (<["nih_project_url" := url]>
                     (<["nih_project" := project]> e))))))
  end.

(** [Archiver.archive_locally] *)
Definition archive_locally (a : archiver) (t : tools) (folder_to_archive : string)
    (is_recursive : bool) (nih : list string) (is_subfolder is_tar is_force : bool)
  : M unit :=
  try_except
    (let s3_dest := archive_s3_dest (cfg a) folder_to_archive in
     w <- get ;;
     let froster_md5sum_exists := os_path_isfile w folder_to_archive ".froster.md5sum" in
     folder_already_archived <-
       lift (_is_folder_archived (archive_json_file w)
               (Py.rstrip Py.slash folder_to_archive)) ;;
     if folder_already_archived then
       say (MsgAlreadyArchived folder_to_archive) ;; sys_exit 0
     else
       (if froster_md5sum_exists then
          if is_force then reset_folder t folder_to_archive false
          else say (MsgHashfileExists folder_to_archive) ;; sys_exit 1
        else ret tt) ;;
       w <- get ;;
       match fs w !! folder_to_archive with
       | None => raise (OSError "FileNotFoundError")
       | Some [] => say (MsgEmptySkipping folder_to_archive)
       | Some _ =>
           say (MsgArchiving folder_to_archive) ;;
           say (MsgGeneratingCatalog is_tar) ;;
           generated <- _gen_allfiles_and_tar a t folder_to_archive (thresholdKB a) is_tar ;;
           if negb generated then say MsgFailed
           else
             say MsgDone ;;
             say MsgGeneratingChecksums ;;
             summed <- _gen_md5sums t folder_to_archive md5sum_filename ;;
             if negb summed then say MsgFailed ;; say MsgChecksumDoubleCheckFailed
             else
               say MsgDone ;;
               let hashfile := Py.os_path_join folder_to_archive md5sum_filename in
               let envrn := Rclone_envrn (cfg a) in
               say MsgUploadingFiles ;;
               copied <- rclone_copy t envrn folder_to_archive s3_dest archive_copy_opts ;;
               if negb copied then say MsgFailed
               else
                 say MsgDone ;;
                 let allfiles_source :=
                   Py.os_path_join folder_to_archive allfiles_csv_filename in
                 say MsgUploadingCatalog ;;
                 let envrn := <["RCLONE_S3_STORAGE_CLASS" := "INTELLIGENT_TIERING"]> envrn in
                 copied <- rclone_copy t envrn allfiles_source s3_dest archive_copy_opts ;;
                 let envrn := <["RCLONE_S3_STORAGE_CLASS" := storage_class (cfg a)]> envrn in
                 if negb copied then say MsgFailed
                 else
                   say MsgDone ;;
                   say MsgVerifyingChecksums ;;
                   verified <- rclone_checksum t envrn hashfile s3_dest ["--max-depth"; "1"] ;;
                   if negb verified then say MsgFailed
                   else
                     say MsgDone ;;
                     (if negb is_subfolder then
                        w <- get ;;
                        e <- lift (new_entry a t w folder_to_archive s3_dest
                                     is_recursive nih) ;;
                        _archive_json_add_entry (Py.rstrip Py.slash folder_to_archive) e
                      else ret tt) ;;
                     say (MsgArchivingCompleted folder_to_archive s3_dest)
       end)
    (fun e => print_error e).

(** [posixpath.commonpath([a, b])] *)
Fixpoint common_prefix (x y : list string) : list string :=
  match x, y with
  | c :: x', d :: y' => if String.eqb c d then c :: common_prefix x' y' else []
  | _, _ => []
  end.

Definition commonpath (a b : string) : outcome string :=
  let isabs := fun p => Py.startswith p "/" in
  if negb (Bool.eqb (isabs a) (isabs b)) then Raised ValueError
  else Ok ((if isabs a then "/" else "")
           ++ Py.join "/" (common_prefix (Py.path_names a) (Py.path_names b))).

(** The test on one pair in [_is_recursive_collision]; an exception sets
    the flag as well. *)
Definition collide (a b : string) : bool :=
  match commonpath a b with
  | Ok c => String.eqb c a || String.eqb c b
  | Raised _ => true
  end.

(** [Archiver._is_recursive_collision] *)
Fixpoint _is_recursive_collision (folders : list string) : bool :=
  match folders with
  | [] => false
  | f :: rest => existsb (collide f) rest || _is_recursive_collision rest
  end.

(** [Archiver._check_path_permissions] *)
Definition _check_path_permissions (t : tools) (w : world) (path : string) : bool :=
  if String.eqb path "" then true else access_rw t w path.

(** The checks of [_is_correct_files_folders_permissions] on one folder
    that is a directory. *)
Definition folder_permissions (t : tools) (w : world) (is_recursive : bool)
    (folder : string) : bool :=
  if is_recursive then
    forallb
      (fun root =>
         _check_path_permissions t w root
         && forallb (fun n => _check_path_permissions t w (Py.os_path_join root n))
                    (List.map fname (default [] (fs w !! root))))
      (walk_roots (fs w) [] (size (fs w)) folder)
  else
    forallb
      (fun f =>
         if os_path_isfile w folder f
         then _check_path_permissions t w (Py.os_path_join folder f)
         else true)
      (List.map fname (default [] (fs w !! folder))).

(** [Archiver._is_correct_files_folders_permissions]: a folder that is not
    a directory ends the process. *)
Fixpoint _is_correct_files_folders_permissions (t : tools) (folders : list string)
    (is_recursive : bool) : M bool :=
  match folders with
  | [] => ret true
  | folder :: rest =>
      w <- get ;;
      match fs w !! folder with
      | None => sys_exit 1
      | Some _ =>
          others <- _is_correct_files_folders_permissions t rest is_recursive ;;
          ret (folder_permissions t w is_recursive folder && others)
      end
  end.

(** [Archiver._archive_slurm]: the batch is handed to the scheduler. *)
Definition _archive_slurm (folders : list string) : M unit :=
  fun w => (Ok tt, emit (SlurmSubmitted folders) w).

(** The loop [for folder in folders] of [archive]. *)
Definition archive_folders (a : archiver) (t : tools) (folders : list string)
    (is_recursive : bool) (nih : list string) (is_tar is_force : bool) : M unit :=
  for_each folders
    (fun folder =>
       if is_recursive then
         w <- get ;;
         for_each (_walker_roots w folder)
           (fun root =>
              let is_subfolder := negb (String.eqb folder root) in
              archive_locally a t root is_recursive nih is_subfolder is_tar is_force)
       else
         archive_locally a t folder is_recursive nih false is_tar is_force).

(** [Archiver.archive] *)
Definition archive (a : archiver) (t : tools) (folders : list string) : M unit :=
  let folders := List.map (clean_path t) folders in
  let is_recursive := args_recursive (args a) in
  let is_nih := is_nih (cfg a) || args_nih (args a) in
  let is_slurm := which_sbatch t && negb (args_noslurm (args a)) && negb (slurm_job_id t) in
  let is_tar := negb (args_notar (args a)) in
  let is_force := args_force (args a) in
  (if is_recursive && _is_recursive_collision folders
   then say MsgRecursiveCollision ;; sys_exit 1
   else ret tt) ;;
  permitted <- _is_correct_files_folders_permissions t folders is_recursive ;;
  (if negb permitted then say MsgPermissions ;; sys_exit 1 else ret tt) ;;
  let nih := if is_nih then nih_selection t else [] in
  if is_slurm then _archive_slurm folders
  else archive_folders a t folders is_recursive nih is_tar is_force.

(* ===================================================================== *)
(** ** Delete                                                             *)
(* ===================================================================== *)

(** The hash file [delete_locally] verifies against: the archive manifest,
    else the restored manifest. *)
Definition delete_hashfile (w : world) (folder_to_delete : string) : option string :=
  if os_path_exists w folder_to_delete md5sum_filename
  then Some (Py.os_path_join folder_to_delete md5sum_filename)
  else if os_path_exists w folder_to_delete md5sum_restored_filename
  then Some (Py.os_path_join folder_to_delete md5sum_restored_filename)
  else None.

(** The test of the loop [for file in files] of [delete_locally]. *)
Definition is_kept_by_delete (file : string) : bool :=
  String.eqb file md5sum_filename
  || String.eqb file md5sum_restored_filename
  || String.eqb file allfiles_csv_filename
  || String.eqb file where_did_the_files_go_filename.

(** The body of the loop [for file in files] of [delete_locally]. *)
Definition delete_file (root : string) (deleted_files : list string) (file : string)
  : M (list string) :=
  if is_kept_by_delete file then ret deleted_files
  else os_remove root file ;; ret (deleted_files ++ [file])%list.

(** [Archiver.delete_locally].  The read-me is opened before the profile
    and the user are read from the entry, so a missing key leaves the lines
    written up to then. *)
Definition delete_locally (a : archiver) (t : tools) (folder_to_delete : string) : M unit :=
  say (MsgDeleting folder_to_delete) ;;
  w <- get ;;
  archived_folder_info <- lift (archive_json_get_row (archive_json_file w) folder_to_delete) ;;
  match archived_folder_info with
  | None => say (MsgNotArchived folder_to_delete)
  | Some archived_folder_info =>
      try_except
        (match delete_hashfile w folder_to_delete with
         | None => say (MsgNoHashfile folder_to_delete)
         | Some hashfile =>
             local_folder <- lift (getitem archived_folder_info "local_folder") ;;
             let subfolder_path := Py.replace folder_to_delete local_folder "" in
             archive_folder <- lift (getitem archived_folder_info "archive_folder") ;;
             let s3_dest := archive_folder ++ subfolder_path in
             say MsgVerifyingChecksums ;;
             verified <- rclone_checksum t (Rclone_envrn (cfg a)) hashfile s3_dest
                           ["--max-depth"; "1"] ;;
             if negb verified then ret tt
             else
               say MsgDone ;;
               w1 <- get ;;
               deleted_files <-
                 match _walker_first w1 folder_to_delete with
                 | None => ret []
                 | Some (_, files) =>
                     say MsgDeletingFiles ;;
                     deleted <- fold_m (delete_file folder_to_delete) files [] ;;
                     say MsgDone ;;
                     ret deleted
                 end ;;
               let readme := where_did_the_files_go_filename in
               write_file t folder_to_delete readme (ReadmeFile [ArchiveLocation s3_dest]) ;;
               profile <- lift (getitem archived_folder_info "profile") ;;
               write_file t folder_to_delete readme
                 (ReadmeFile [ArchiveLocation s3_dest; ArchiveProfile profile]) ;;
               user <- lift (getitem archived_folder_info "user") ;;
               w2 <- get ;;
               write_file t folder_to_delete readme
                 (ReadmeFile
                    [ArchiveLocation s3_dest; ArchiveProfile profile; ArchiverUser user;
                     ArchiverEmail (email (cfg a)); RestoreCommand folder_to_delete;
                     DeletionDate (now t w2);
                     FirstFilesDeleted (firstn 10 deleted_files)]) ;;
               say (MsgDeletingCompleted folder_to_delete s3_dest
                      (List.length deleted_files))
         end)
        (fun e => print_error e)
  end.

(** [Archiver.delete] *)
Definition delete (a : archiver) (t : tools) (folders : list string) : M unit :=
  let folders := List.map (clean_path t) folders in
  let is_recursive := args_recursive (args a) in
  (if is_recursive && _is_recursive_collision folders
   then say MsgRecursiveCollision ;; sys_exit 1
   else ret tt) ;;
  permitted <- _is_correct_files_folders_permissions t folders is_recursive ;;
  (if negb permitted then say MsgPermissions ;; sys_exit 1 else ret tt) ;;
  for_each folders
    (fun folder =>
       if is_recursive then
         w <- get ;;
         for_each (_walker_roots w folder) (delete_locally a t)
       else delete_locally a t folder).

(* ===================================================================== *)
(** ** Vocabulary of the statements                                       *)
(* ===================================================================== *)

(** [m] never ends the process: whatever it raises is an [Exception]. *)
Definition safe {A} (m : M A) : Prop :=
  forall w e w', m w = (Raised e, w') -> is_Exception e = true.

(** [m] always returns. *)
Definition returns {A} (m : M A) : Prop :=
  forall w, exists a w', m w = (Ok a, w').

(** Every run of [m] takes a state to one related to it by [R]. *)
Definition respects {A} (R : world -> world -> Prop) (m : M A) : Prop :=
  forall w, R w (snd (m w)).

(** The terminal only grows. *)
Definition terminal_grows (w w' : world) : Prop :=
  exists new, terminal w' = (terminal w ++ new)%list.

(** If [folder] held an entry called [name], it still holds one. *)
Definition still_there (folder name : string) (w w' : world) : Prop :=
  os_path_exists w folder name = true -> os_path_exists w' folder name = true.

(** The members of the small-files tar of [directory], none without it. *)
Definition tar_contents (w : world) (directory : string) : list file :=
  match lookup_path w directory smallfiles_tar_filename with
  | Some f => match fdata f with TarFile members => members | _ => [] end
  | None => []
  end.

(** The rows of the catalog of [directory]. *)
Definition catalog_rows (w : world) (directory : string) : list csv_row :=
  match lookup_path w directory allfiles_csv_filename with
  | Some f => match fdata f with CsvFile rows => rows | _ => [] end
  | None => []
  end.

(** The lines of the hash file [hash_file] of [directory]. *)
Definition manifest_lines (w : world) (directory hash_file : string)
  : list (string * string) :=
  match lookup_path w directory hash_file with
  | Some f => match fdata f with HashFile lines => lines | _ => [] end
  | None => []
  end.

(** The command line of the verification run of [delete_locally]. *)
Definition checksum_command (hashfile s3_dest : string) : list string :=
  rclone_argv (["rclone"; "checksum"] ++ ["--max-depth"; "1"]
               ++ ["md5"; hashfile; s3_dest])%list.

(** The command line of a copy run of [archive_locally]. *)
Definition copy_command (src dst : string) : list string :=
  rclone_argv (["rclone"; "copy"] ++ archive_copy_opts ++ [src; dst])%list.

(** The packing test of [_gen_allfiles_and_tar] on an entry. *)
Definition is_small (smallsize : Z) (is_tar : bool) (f : file) : bool :=
  is_tar && Z.ltb (st_size (fstat f)) (smallsize * 1024).

(** The catalog row of an entry, with its [Tarred] flag. *)
Definition catalog_row (t : tools) (f : file) (tarred : string) : csv_row :=
  {| row_file := fname f; row_size := st_size (fstat f);
     row_mtime := st_mtime (fstat f); row_atime := st_atime (fstat f);
     row_owner := user_name t (st_uid (fstat f));
     row_group := group_name t (st_gid (fstat f));
     row_permissions := st_mode (fstat f); row_tarred := tarred |}.

(** The entries of the listing [l0] that the loop of
    [_gen_allfiles_and_tar] packs when it goes through [files], and the
    rows it writes. *)
Definition packed_of (smallsize : Z) (is_tar : bool) (l0 : list file)
    (files : list string) : list file :=
  List.flat_map
    (fun n =>
       if String.eqb n allfiles_csv_filename then []
       else match find_file n l0 with
            | Some f => if is_small smallsize is_tar f then [f] else []
            | None => []
            end) files.

Definition rows_of (t : tools) (smallsize : Z) (is_tar : bool) (l0 : list file)
    (files : list string) : list csv_row :=
  List.flat_map
    (fun n =>
       if String.eqb n allfiles_csv_filename then []
       else match find_file n l0 with
            | Some f =>
                [catalog_row t f (if is_small smallsize is_tar f then "Yes" else "No")]
            | None => []
            end) files.

(* ===================================================================== *)
(** ** Sample inputs                                                      *)
(* ===================================================================== *)

(** An entry as [archive_locally] writes it. *)
Definition sample_entry (local_folder archive_mode : string) : entry :=
  list_to_map
    [("local_folder", local_folder);
     ("archive_folder", ":s3:bucket/archive" ++ local_folder);
     ("s3_storage_class", "DEEP_ARCHIVE");
     ("profile", "default");
     ("archive_mode", archive_mode);
     ("timestamp", "2024-05-01T10:00:00");
     ("timestamp_archive", "2024-05-01T10:00:00");
     ("user", "alice")].

(** [/data/x] archived recursively, its child [/data/x/y] archived on its
    own in single mode. *)
Definition sample_registry : gmap string entry :=
  list_to_map
    [("/data/x", sample_entry "/data/x" "Recursive");
     ("/data/x/y", sample_entry "/data/x/y" "Single")].

(** What the walker reports of a tree: a directory with three files, an
    empty directory and a file. *)
Definition walker_output : list Indexer.pwalk_row :=
  [ {| Indexer.UID := 1000; Indexer.GID := 1000;
       Indexer.st_atime := 1700000000; Indexer.st_mtime := 1700000000;
       Indexer.pw_fcount := 3; Indexer.pw_dirsum := 3145828;
       Indexer.filename := "/data/x" |};
    {| Indexer.UID := 1000; Indexer.GID := 1000;
       Indexer.st_atime := 1700000000; Indexer.st_mtime := 1700000000;
       Indexer.pw_fcount := 0; Indexer.pw_dirsum := 0;
       Indexer.filename := "/data/x/empty" |};
    {| Indexer.UID := 1000; Indexer.GID := 1000;
       Indexer.st_atime := 1700000000; Indexer.st_mtime := 1700000000;
       Indexer.pw_fcount := -1; Indexer.pw_dirsum := 0;
       Indexer.filename := "/data/x/a.bin" |} ].

Fixpoint repeat_char (c : ascii) (n : nat) : string :=
  match n with
  | O => EmptyString
  | S k => String c (repeat_char c k)
  end.

(** A folder on a local disk two levels deep, each name 200 characters
    long: a path of 402 characters. *)
Definition long_local_folder : string :=
  "/" ++ repeat_char "a"%char 200 ++ "/" ++ repeat_char "b"%char 200.

(** An object store that refuses to list the bucket. *)
Definition denied_s3 : s3_client :=
  {| paginate := fun _ _ => Ok tt;
     list_pages := fun _ _ => Raised (ClientError "AccessDenied");
     head_object := fun _ _ => Raised (ClientError "AccessDenied");
     restore_object := fun _ _ _ _ => Raised (ClientError "AccessDenied") |}.

Definition sample_restore_args : restore_args :=
  {| days := 30; retrieveopt := "Bulk"; nodownload := false |}.

Definition sample_stat (size : Z) : stat :=
  {| st_size := size; st_mtime := 1700000000; st_atime := 1700000000;
     st_uid := 1000; st_gid := 1000; st_mode := 33188 |}.

(** Tools whose rclone succeeds exactly on the command lines [rclone_ok]
    accepts. *)
Definition sample_tools (rclone_ok : list string -> bool) : tools :=
  {| rclone_run := fun _ _ command => rclone_ok command;
     md5_rendered := fun _ => "0123456789abcdef0123456789abcdef";
     new_stat := fun _ _ _ => sample_stat 512;
     is_root := false;
     user_name := fun _ => "alice";
     group_name := fun _ => "lab";
     access_rw := fun _ _ => true;
     clean_path := fun p => Py.rstrip Py.slash p;
     now := fun _ => "2024-05-01T10:00:00";
     getuser := "alice";
     which_sbatch := false;
     slurm_job_id := false;
     nih_selection := [] |}.

Definition sample_config : config :=
  {| bucket_name := "bucket"; archive_dir := "archive";
     storage_class := "DEEP_ARCHIVE"; aws_profile := "default";
     aws_region := "us-west-2"; email := "alice@example.org"; is_nih := false |}.

Definition sample_args : cli_args :=
  {| args_recursive := false; args_notar := false; args_force := false;
     args_noslurm := true; args_nih := false; args_debug := false; args_cores := 4 |}.

Definition sample_archiver : archiver :=
  {| args := sample_args; cfg := sample_config; thresholdKB := 1024 |}.

Definition a_bin : file :=
  File "a.bin" Regular (sample_stat 2097152) (Blob "11111111111111111111111111111111").
Definition small_txt : file :=
  File "small.txt" Regular (sample_stat 100) (Blob "22222222222222222222222222222222").
Definition exact_bin : file :=
  File "exact.bin" Regular (sample_stat 1048576) (Blob "33333333333333333333333333333333").
Definition b_bin : file :=
  File "b.bin" Regular (sample_stat 5000000) (Blob "44444444444444444444444444444444").

(** Two folders never archived: [/data/x] holds a 2 MiB file, a 100-byte
    file and a file of exactly 1024 KiB; [/data/y] holds one large file. *)
Definition fresh_world : world :=
  {| fs := list_to_map [("/data/x", [a_bin; small_txt; exact_bin]); ("/data/y", [b_bin])];
     archive_json_file := JsonMissing;
     terminal := [] |}.

(** [/data/x] after a successful single archive with packing. *)
Definition archived_world : world :=
  snd (archive_locally sample_archiver (sample_tools (fun _ => true))
         "/data/x" false [] false true false fresh_world).

(** [/data/x] still carries the manifest of an earlier attempt. *)
Definition prepared_world : world :=
  {| fs := list_to_map
             [("/data/x",
               [a_bin; small_txt;
                File ".froster.md5sum" Regular (sample_stat 47)
                  (HashFile [("11111111111111111111111111111111", "a.bin")])]);
              ("/data/y", [b_bin])];
     archive_json_file := JsonMissing;
     terminal := [] |}.

(** [/data/x] still carries the small-files tar of an earlier attempt, and
    no catalog. *)
Definition tar_left_world : world :=
  {| fs := list_to_map
             [("/data/x",
               [a_bin;
                File "Froster.smallfiles.tar" Regular (sample_stat 10240)
                  (TarFile [small_txt])])];
     archive_json_file := JsonMissing;
     terminal := [] |}.

(** The empty catalog an earlier attempt left behind. *)
Definition stale_catalog : file :=
  File "Froster.allfiles.csv" Regular (sample_stat 0) (CsvFile []).

(** A folder that holds that catalog next to two files, and no tar. *)
Definition catalog_left_world : world :=
  {| fs := list_to_map [("/data/x", [a_bin; small_txt; stale_catalog])];
     archive_json_file := JsonMissing;
     terminal := [] |}.

(** An rclone that fails on every checksum run and succeeds otherwise. *)
Definition checksum_refused (command : list string) : bool :=
  match command with
  | _ :: "checksum" :: _ => false
  | _ => true
  end.

(** [/data/x] of [fresh_world] once the catalog is written and the small
    file packed. *)
Definition cataloged_world : world :=
  snd (_gen_allfiles_and_tar sample_archiver (sample_tools (fun _ => true))
         "/data/x" 1024 true fresh_world).

Definition directory_entry (name : string) : file :=
  File name Directory (sample_stat 4096) (Blob "").

(** The tree [/data/x/y/z/f] with a snapshot directory at the top. *)
Definition tree_world : world :=
  {| fs := list_to_map
             [("/data/x", [a_bin; directory_entry "y"; directory_entry ".snapshot"]);
              ("/data/x/y", [b_bin; directory_entry "z"]);
              ("/data/x/y/z", [small_txt]);
              ("/data/x/.snapshot", [exact_bin])];
     archive_json_file := JsonMissing;
     terminal := [] |}.

Definition recursive_archiver : archiver :=
  {| args := {| args_recursive := true; args_notar := false; args_force := false;
                args_noslurm := true; args_nih := false; args_debug := false;
                args_cores := 4 |};
     cfg := sample_config; thresholdKB := 1024 |}.

(** That tree next to a second folder, nothing archived. *)
Definition two_trees_world : world :=
  set_fs (<["/data/y" := [b_bin]]> (fs tree_world)) tree_world.

(** That tree with its top archived in single mode. *)
Definition single_tree_world : world :=
  set_archive_json_file
    (JsonDict (list_to_map [("/data/x", sample_entry "/data/x" "Single")]))
    tree_world.

(** A small file of another user, last read long after it was written. *)
Definition old_txt : file :=
  File "old.txt" Regular
    {| st_size := 100; st_mtime := 1600000000; st_atime := 1690000000;
       st_uid := 2000; st_gid := 2000; st_mode := 33188 |}
    (Blob "55555555555555555555555555555555").

(** A folder that holds that file next to a large one. *)
Definition shared_world : world :=
  {| fs := list_to_map [("/data/s", [a_bin; old_txt])];
     archive_json_file := JsonMissing;
     terminal := [] |}.

(* ===================================================================== *)
(** * Vocabulary of the properties                                        *)
(* ===================================================================== *)

(** The entry stored under [folder] itself, if the registry can be read. *)
Definition direct_entry (archive_json : json_file) (folder : string) : option entry :=
  match archive_json with
  | JsonDict data => data !! folder
  | _ => None
  end.

(** Whether the [Restore] field of a header carries [ongoing-request] with
    the given flag. *)
Definition says_ongoing (h : object_header) (flag : string) : bool :=
  match Restore h with
  | Some r => Py.contains (ongoing_request flag) r
  | None => false
  end.

(** The key passes the sub-folder test of the controller. *)
Definition key_is_visited (prefix : string) (recursive : bool) (object_key : string) : bool :=
  negb (Py.contains "/" (Py.drop (String.length prefix) object_key) && negb recursive).

(** What the controller has established about a key when it puts it on
    one of its four lists. *)
Inductive key_report := Triggered | Restoring | Restored | NotGlacier.

#[global] Instance key_report_eq_dec : EqDecision key_report.
Proof. solve_decision. Defined.

(** The list of the controller that holds the keys of one report. *)
Definition reported (r : key_report) (l : key_lists) : list string :=
  match r with
  | Triggered => triggered_keys l
  | Restoring => restoring_keys l
  | Restored => restored_keys l
  | NotGlacier => not_glacier_keys l
  end.

(** What the object store says of a key that carries the report [r]. *)
Definition report_is_right (s3 : s3_client) (bucket prefix : string) (keep_days : Z)
    (ret_opt : string) (recursive : bool) (r : key_report) (object_key : string) : Prop :=
  key_is_visited prefix recursive object_key = true
  /\ exists h sc,
       head_object s3 bucket object_key = Ok h
       /\ StorageClass h = Some sc
       /\ match r with
          | NotGlacier => sc ∉ glacier_classes
          | Restoring =>
              sc ∈ glacier_classes
              /\ (says_ongoing h "true" = true
                  \/ restore_object s3 bucket object_key keep_days ret_opt
                     = Raised (ClientError "RestoreAlreadyInProgress"))
          | Restored =>
              sc ∈ glacier_classes
              /\ says_ongoing h "true" = false /\ says_ongoing h "false" = true
          | Triggered =>
              sc ∈ glacier_classes
              /\ says_ongoing h "true" = false /\ says_ongoing h "false" = false
              /\ restore_object s3 bucket object_key keep_days ret_opt = Ok tt
          end.

(** Every key on a list is one of [among] and carries the right report. *)
Definition lists_are_right (s3 : s3_client) (bucket prefix : string) (keep_days : Z)
    (ret_opt : string) (recursive : bool) (among : string -> Prop) (l : key_lists) : Prop :=
  forall r k,
    k ∈ reported r l ->
    among k /\ report_is_right s3 bucket prefix keep_days ret_opt recursive r k.

(** [m] leaves the directories and the registry as they are. *)
Definition quiet {A} (m : M A) : Prop :=
  forall w, fs (snd (m w)) = fs w
            /\ archive_json_file (snd (m w)) = archive_json_file w.

(** The registry file is as it was. *)
Definition same_registry (w w' : world) : Prop :=
  archive_json_file w' = archive_json_file w.

(** Every directory other than [folder] lists what it listed. *)
Definition same_elsewhere (folder : string) (w w' : world) : Prop :=
  forall other, other <> folder -> fs w' !! other = fs w !! other.

(** Every directory that is not one of [folders] lists what it listed. *)
Definition same_outside (folders : list string) (w w' : world) : Prop :=
  forall other, other ∉ folders -> fs w' !! other = fs w !! other.

(** The entries stored under keys that are not in [keys] are as they
    were. *)
Definition same_entries_outside (keys : list string) (w w' : world) : Prop :=
  forall k, k ∉ keys ->
    direct_entry (archive_json_file w') k = direct_entry (archive_json_file w) k.

(** What held of the entry [name] of [folder], or of its absence, still
    holds. *)
Definition keeps (Q : option file -> Prop) (folder name : string) (w w' : world) : Prop :=
  Q (lookup_path w folder name) -> Q (lookup_path w' folder name).

(** Absent, or a file and not a directory. *)
Definition file_or_absent (o : option file) : Prop :=
  forall f, o = Some f -> is_dir_kind (fkind f) = false.

(** Absent, or a tar archive in a file. *)
Definition tar_or_absent (o : option file) : Prop :=
  forall f, o = Some f ->
    is_dir_kind (fkind f) = false /\ exists members, fdata f = TarFile members.

(** A directory that was listed is still listed. *)
Definition still_listed (folder : string) (w w' : world) : Prop :=
  is_Some (fs w !! folder) -> is_Some (fs w' !! folder).

(** [f'] is what extracting the member [m] leaves: the name, the kind,
    the contents and the size of [m] and, for a regular file, its mode and
    its modification time, which is the access time as well. *)
Definition extracted_from (m f' : file) : Prop :=
  fname f' = fname m /\ fkind f' = fkind m /\ fdata f' = fdata m
  /\ st_size (fstat f') = st_size (fstat m)
  /\ (fkind m = Regular ->
      st_mode (fstat f') = st_mode (fstat m)
      /\ st_mtime (fstat f') = st_mtime (fstat m)
      /\ st_atime (fstat f') = st_mtime (fstat m)).

(** The digest [md5sum] returns for an entry. *)
Definition digest_of (t : tools) (f : file) : string :=
  match fdata f with
  | Blob digest => digest
  | written => md5_rendered t written
  end.

(** The entries of a listing that [_gen_md5sums] puts in [hash_file]. *)
Definition is_listed (hash_file : string) (f : file) : bool :=
  negb (is_dir_kind (fkind f))
  && negb (String.eqb (fname f) hash_file)
  && negb (String.eqb (fname f) where_did_the_files_go_filename)
  && negb (String.eqb (fname f) md5sum_filename)
  && negb (String.eqb (fname f) md5sum_restored_filename).

(** The lines of the manifest of a listing, in the order of the listing. *)
Definition manifest_of (t : tools) (hash_file : string) (l : list file)
  : list (string * string) :=
  List.map (fun f => (digest_of t f, fname f)) (List.filter (is_listed hash_file) l).

(** An object store that holds the five objects of the archive of
    [/data/x]: one in Deep Archive never asked for, one being retrieved,
    one retrieved, the catalog in Intelligent-Tiering and one object of a
    sub-folder. *)
Definition sample_header (object_key : string) : object_header :=
  if String.eqb object_key "archive/data/x/a.bin" then
    {| StorageClass := Some "DEEP_ARCHIVE"; Restore := None |}
  else if String.eqb object_key "archive/data/x/exact.bin" then
    {| StorageClass := Some "DEEP_ARCHIVE"; Restore := Some (ongoing_request "true") |}
  else if String.eqb object_key "archive/data/x/Froster.smallfiles.tar" then
    {| StorageClass := Some "GLACIER";
       Restore := Some (ongoing_request "false" ++ ", expiry-date=Fri, 21 Dec 2029") |}
  else
    {| StorageClass := Some "INTELLIGENT_TIERING"; Restore := None |}.

Definition sample_s3 : s3_client :=
  {| paginate := fun _ _ => Ok tt;
     list_pages := fun _ _ =>
       Ok [Some ["archive/data/x/a.bin"; "archive/data/x/exact.bin"];
           None;
           Some ["archive/data/x/Froster.smallfiles.tar";
                 "archive/data/x/Froster.allfiles.csv";
                 "archive/data/x/y/b.bin"]];
     head_object := fun _ object_key => Ok (sample_header object_key);
     restore_object := fun _ _ _ _ => Ok tt |}.

(** A file system mounted from a file server. *)
Definition lab_mount : mount_info :=
  {| mount_source_folder := "/export/lab"; mount_point := "/mnt/lab";
     fs_type := "nfs4"; mount_source := "filer:/export/lab" |}.

(** A folder that holds a sub-folder and the manifest of an earlier run,
    and no file. *)
Definition only_subfolder_world : world :=
  {| fs := list_to_map
             [("/data/x",
               [directory_entry "y";
                File ".froster.md5sum" Regular (sample_stat 47)
                  (HashFile [("11111111111111111111111111111111", "a.bin")])]);
              ("/data/x/y", [b_bin])];
     archive_json_file := JsonMissing;
     terminal := [] |}.

(** The tree of [tree_world] with the registry of [sample_registry]. *)
Definition archived_tree_world : world :=
  set_archive_json_file (JsonDict sample_registry) tree_world.

(* ===================================================================== *)
(** * Theorems                                                            *)
(* ===================================================================== *)

Example parents_abs : Py.parents "/data/x/y" = ["/data/x"; "/data"; "/"].
Proof. reflexivity. Qed.

Example parents_rel : Py.parents "a/./b//c/" = ["a/b"; "a"; "."].
Proof. reflexivity. Qed.

Example replace_ex : Py.replace "/mnt/a/mnt/b" "/mnt" "" = "/a/b".
Proof. reflexivity. Qed.

Example replace_empty_ex : Py.replace "ab" "" "-" = "-a-b-".
Proof. reflexivity. Qed.

Example rstrip_ex : Py.rstrip Py.slash "/a/b//" = "/a/b".
Proof. reflexivity. Qed.

Example join_ex : Py.os_path_join ":s3:bucket" "archive" = ":s3:bucket/archive".
Proof. reflexivity. Qed.

Example walker_roots_skip_snapshot :
  _walker_roots tree_world "/data/x" = ["/data/x"; "/data/x/y"; "/data/x/y/z"].
Proof. vm_compute. reflexivity. Qed.

(** A recursive archive registers the root only, in Recursive mode, and
    the lookup of a descendant finds that entry. *)
Example recursive_archive_registers_root :
  let w' := snd (archive recursive_archiver (sample_tools (fun _ => true))
                   ["/data/x/"] tree_world) in
  match archive_json_file w' with
  | JsonDict data =>
      List.map fst (map_to_list data) = ["/data/x"]
      /\ (data !! "/data/x") ≫= (fun e => e !! "archive_mode") = Some "Recursive"
      /\ archive_json_get_row (archive_json_file w') "/data/x/y/z"
         = Ok (data !! "/data/x")
      /\ archive_json_get_row (archive_json_file w') "/unrelated" = Ok None
  | _ => False
  end.
Proof. vm_compute. repeat split. Qed.

(* --------------------------------------------------------------------- *)
(** ** Registry lookup                                                    *)
(* --------------------------------------------------------------------- *)

Lemma first_recursive_parent_skip (data : gmap string entry) (near rest : list string) :
  (forall B e, B ∈ near -> data !! B = Some e ->
     exists m, e !! "archive_mode" = Some m /\ m <> "Recursive") ->
  first_recursive_parent data (near ++ rest) = first_recursive_parent data rest.
Proof.
  induction near as [|B near IH]; intros Hnear; [reflexivity|].
  cbn [app first_recursive_parent].
  destruct (data !! B) as [e|] eqn:HB.
  - destruct (Hnear B e) as (m & Hm & Hne); [left | exact HB |].
    unfold getitem. rewrite Hm. cbn [obind].
    apply String.eqb_neq in Hne. rewrite Hne.
    apply IH. intros B' e' Hin. apply Hnear. now right.
  - apply IH. intros B' e' Hin. apply Hnear. now right.
Qed.

Lemma first_recursive_parent_found (data : gmap string entry) (ps : list string)
    (e : entry) :
  first_recursive_parent data ps = Ok (Some e) ->
  exists B, B ∈ ps /\ data !! B = Some e /\ e !! "archive_mode" = Some "Recursive".
Proof.
  induction ps as [|B ps IH]; cbn [first_recursive_parent]; [discriminate|].
  destruct (data !! B) as [eB|] eqn:HB.
  - unfold getitem. destruct (eB !! "archive_mode") as [m|] eqn:Hm; cbn [obind];
      [|discriminate].
    destruct (String.eqb m "Recursive") eqn:Hrec.
    + intros [= <-]. apply String.eqb_eq in Hrec. subst m.
      exists B. split; [left | easy].
    + intros H. destruct (IH H) as (B' & Hin & HB'). exists B'. split; [now right | easy].
  - intros H. destruct (IH H) as (B' & Hin & HB'). exists B'. split; [now right | easy].
Qed.

Lemma first_recursive_parent_stops (data : gmap string entry) (near rest : list string)
    (r : option entry) :
  first_recursive_parent data (near ++ rest) = Ok r ->
  (forall B e, B ∈ near -> data !! B = Some e ->
     exists m, e !! "archive_mode" = Some m /\ m <> "Recursive")
  \/ (exists B e, B ∈ near /\ data !! B = Some e /\ r = Some e).
Proof.
  induction near as [|B near IH]; cbn [app first_recursive_parent].
  - intros _. left. intros B e Hin. inversion Hin.
  - destruct (data !! B) as [eB|] eqn:HB.
    + unfold getitem. destruct (eB !! "archive_mode") as [m|] eqn:Hm; cbn [obind];
        [|discriminate].
      destruct (String.eqb m "Recursive") eqn:Hrec.
      * intros [= <-]. right. exists B, eB. split; [left | easy].
      * intros H. destruct (IH H) as [Hall | (B' & e' & Hin & HB' & Hr)].
        -- left. intros B' e' Hin HB'. apply elem_of_cons in Hin as [-> | Hin].
           ++ rewrite HB in HB'. injection HB' as <-. exists m. split; [easy|].
              now apply String.eqb_neq.
           ++ now apply (Hall B' e').
        -- right. exists B', e'. split; [now right | easy].
    + intros H. destruct (IH H) as [Hall | (B' & e' & Hin & HB' & Hr)].
      * left. intros B' e' Hin HB'. apply elem_of_cons in Hin as [-> | Hin].
        -- congruence.
        -- now apply (Hall B' e').
      * right. exists B', e'. split; [now right | easy].
Qed.

(** C2 (as stated, refuted).  With [/data/x] marked Recursive and the
    intermediate ancestor [/data/x/y] marked Single, the lookup of
    [/data/x/y/z] still returns the entry of [/data/x]: a Single entry on
    the way does not block the coverage of a higher Recursive ancestor. *)
Lemma single_ancestor_does_not_block :
  ~ (archive_json_get_row (JsonDict sample_registry) "/data/x/y/z"
       = Ok (Some (sample_entry "/data/x" "Recursive"))
     <-> ~ exists B e, B ∈ ["/data/x/y"] /\ sample_registry !! B = Some e
                       /\ e !! "archive_mode" = Some "Single").
Proof.
  intros [Hblocked _]. apply Hblocked.
  - vm_compute. reflexivity.
  - exists "/data/x/y", (sample_entry "/data/x/y" "Single").
    split; [left|]. split; vm_compute; reflexivity.
Qed.

(** C2 (amended).  For a path [P] without a direct entry and an ancestor
    [A] marked Recursive, in a registry keyed by [local_folder]: the lookup
    returns the entry of [A] if and only if every ancestor nearer to [P]
    than [A] either has no entry or has one whose [archive_mode] is present
    and is not Recursive, that is, [A] is the nearest Recursive ancestor. *)
Theorem archive_json_get_row_nearest_recursive
    (data : gmap string entry) (P A : string) (eA : entry) (near far : list string) :
  data !! P = None ->
  Py.parents P = (near ++ A :: far)%list ->
  A ∉ near ->
  data !! A = Some eA ->
  eA !! "archive_mode" = Some "Recursive" ->
  map_Forall (fun k (e : entry) => e !! "local_folder" = Some k) data ->
  archive_json_get_row (JsonDict data) P = Ok (Some eA)
  <-> (forall B e, B ∈ near -> data !! B = Some e ->
         exists m, e !! "archive_mode" = Some m /\ m <> "Recursive").
Proof.
  intros HP Hparents HA HeA Hmode Hkeyed.
  cbn [archive_json_get_row]. rewrite HP, Hparents. split.
  - intros Hget.
    destruct (first_recursive_parent_stops data near (A :: far) _ Hget)
      as [Hall | (B & e & Hin & HB & [= <-])]; [exact Hall|].
    exfalso. apply HA.
    pose proof (Hkeyed _ _ HB) as H1. pose proof (Hkeyed _ _ HeA) as H2.
    cbn in H1, H2. rewrite H1 in H2. injection H2 as <-. exact Hin.
  - intros Hall. rewrite (first_recursive_parent_skip data near (A :: far) Hall).
    cbn [first_recursive_parent]. rewrite HeA. unfold getitem. rewrite Hmode.
    reflexivity.
Qed.

Lemma archive_json_get_row_nearest_recursive_witness :
  archive_json_get_row (JsonDict sample_registry) "/data/x/y/z"
    = Ok (Some (sample_entry "/data/x" "Recursive"))
  <-> (forall B e, B ∈ ["/data/x/y"] -> sample_registry !! B = Some e ->
         exists m, e !! "archive_mode" = Some m /\ m <> "Recursive").
Proof.
  apply (archive_json_get_row_nearest_recursive sample_registry
           "/data/x/y/z" "/data/x" (sample_entry "/data/x" "Recursive")
           ["/data/x/y"] ["/data"; "/"]).
  - vm_compute. reflexivity.
  - vm_compute. reflexivity.
  - apply not_elem_of_cons. split; [discriminate | apply not_elem_of_nil].
  - vm_compute. reflexivity.
  - vm_compute. reflexivity.
  - refine (bool_decide_unpack _ _). vm_compute. exact I.
Defined.

(* --------------------------------------------------------------------- *)
(** ** Indexer query                                                      *)
(* --------------------------------------------------------------------- *)

Lemma insert_desc_elem (r x : Indexer.pwalk_row) (l : list Indexer.pwalk_row) :
  x ∈ Indexer.insert_desc r l <-> x = r \/ x ∈ l.
Proof.
  induction l as [|h t IH]; cbn [Indexer.insert_desc].
  - rewrite list_elem_of_singleton. split; [now left | intros [H | H]; [easy | inversion H]].
  - destruct (Z.leb (Indexer.pw_dirsum h) (Indexer.pw_dirsum r)).
    + now rewrite elem_of_cons.
    + rewrite !elem_of_cons, IH. tauto.
Qed.


(** The rows come out by decreasing byte sum. *)
Lemma insert_desc_sorted (r : Indexer.pwalk_row) (l : list Indexer.pwalk_row) :
  StronglySorted (fun x y => (Indexer.pw_dirsum y <= Indexer.pw_dirsum x)%Z) l ->
  StronglySorted (fun x y => (Indexer.pw_dirsum y <= Indexer.pw_dirsum x)%Z)
    (Indexer.insert_desc r l).
Proof.
  induction l as [|h t IH]; intros Hsorted; cbn [Indexer.insert_desc].
  - repeat constructor.
  - apply StronglySorted_inv in Hsorted as [Ht Hh].
    destruct (Z.leb (Indexer.pw_dirsum h) (Indexer.pw_dirsum r)) eqn:Hle.
    + apply Z.leb_le in Hle. constructor; [now constructor|].
      constructor; [exact Hle|]. eapply Forall_impl; [exact Hh|].
      cbn. intros y Hy. lia.
    + apply Z.leb_gt in Hle. constructor; [now apply IH|].
      apply Forall_forall. intros y Hy.
      apply insert_desc_elem in Hy as [-> | Hy]; [lia|].
      rewrite Forall_forall in Hh. now apply Hh.
Qed.

(** X22.  The rows the query of [_index_locally] returns are in
    descending order of their byte sums, whatever rows it is given. *)
Lemma sql_query_sorted (rows : list Indexer.pwalk_row) :
  StronglySorted (fun x y => (Indexer.pw_dirsum y <= Indexer.pw_dirsum x)%Z)
    (Indexer.sql_query rows).
Proof.
  unfold Indexer.sql_query, Indexer.order_by_dirsum_desc.
  induction (List.filter Indexer.sql_where rows) as [|h t IH]; cbn [fold_right].
  - constructor.
  - now apply insert_desc_sorted.
Qed.




Example walker_output_query :
  List.map Indexer.filename (Indexer.sql_query walker_output) = ["/data/x"].
Proof. reflexivity. Qed.

(* --------------------------------------------------------------------- *)
(** ** Hotspots file names                                                *)
(* --------------------------------------------------------------------- *)

Lemma string_length_app (s t : string) :
  String.length (s ++ t) = String.length s + String.length t.
Proof. induction s as [|c s IH]; simpl; [reflexivity | now rewrite IH]. Qed.

Lemma length_take (n : nat) (s : string) :
  String.length (Py.take n s) = Nat.min n (String.length s).
Proof.
  revert s. induction n as [|n IH]; intros [|c s]; cbn; try reflexivity.
  now rewrite IH.
Qed.

Lemma length_drop (n : nat) (s : string) :
  String.length (Py.drop n s) = String.length s - n.
Proof.
  revert s. induction n as [|n IH]; intros [|c s]; cbn; try reflexivity.
  apply IH.
Qed.

(** A long name is cut to its first 25 and last 225 characters around the
    five-dot marker: 255 characters. *)
Lemma elided_length (s : string) :
  255 < String.length s ->
  String.length (Py.take 25 s ++ "....." ++ Py.last_chars 225 s) = 255.
Proof.
  intros Hlen. unfold Py.last_chars.
  rewrite !string_length_app, length_take, length_drop. cbn [String.length]. lia.
Qed.

Lemma hotspots_file_step_bound (folder hsfile : string) (mnt : mount_info) :
  Py.startswith folder (mount_point mnt) = true ->
  String.length (hotspots_file_step folder hsfile mnt) <= 255.
Proof.
  intros Hmnt. unfold hotspots_file_step. rewrite Hmnt.
  destruct (Nat.ltb 255 _) eqn:Hlong.
  - apply Nat.ltb_lt in Hlong. rewrite (elided_length _ Hlong). lia.
  - apply Nat.ltb_ge in Hlong. exact Hlong.
Qed.

(** X18.  Under a detected network mount the encoded
    hotspots file name has at most 255 characters. *)
Lemma hotspots_file_bound_under_mount (mountlist : list mount_info) (folder : string) :
  Exists (fun mnt => Py.startswith folder (mount_point mnt) = true) mountlist ->
  String.length (_get_hotspots_file mountlist folder) <= 255.
Proof.
  unfold _get_hotspots_file. generalize (Py.replace folder "/" "+" ++ ".csv").
  induction mountlist as [|mnt l IH] using rev_ind; intros hs Hex.
  - inversion Hex.
  - rewrite fold_left_app. cbn [fold_left].
    destruct (Py.startswith folder (mount_point mnt)) eqn:Hmnt.
    + now apply hotspots_file_step_bound.
    + unfold hotspots_file_step at 1. rewrite Hmnt. apply IH.
      apply Exists_app in Hex as [Hex | Hex]; [exact Hex|].
      inversion Hex as [? ? Hhd | ? ? Htl]; subst; [congruence | inversion Htl].
Qed.

Lemma replace_slash_length (s : string) :
  String.length (Py.replace s "/" "+") = String.length s.
Proof.
  unfold Py.replace. induction s as [|c s IH]; [reflexivity|].
  cbn [Py.replace_scan String.prefix String.length Nat.sub].
  assert (Hempty : String.prefix "" s = true) by now destruct s.
  destruct (Ascii.ascii_dec "/"%char c) as [_|_]; rewrite ?Hempty;
    simpl; f_equal; exact IH.
Qed.

(** Without a matching mount the name is four characters longer than the
    path. *)
Lemma hotspots_file_no_mount_length (folder : string) :
  String.length (_get_hotspots_file [] folder) = String.length folder + 4.
Proof.
  unfold _get_hotspots_file. cbn [fold_left].
  now rewrite string_length_app, replace_slash_length.
Qed.

(** C8 (the code falls short of it).  The elision sits inside the branch
    of a matching mount point.  For a folder under no detected network
    mount the name is the path with its separators replaced plus [.csv],
    four characters longer than the path: every path of more than 251
    characters gives a name of more than 255. *)
Theorem hotspots_file_outside_mounts_exceeds_bound
    (mountlist : list mount_info) (folder : string) :
  Forall (fun mnt => Py.startswith folder (mount_point mnt) = false) mountlist ->
  251 < String.length folder ->
  _get_hotspots_file mountlist folder = Py.replace folder "/" "+" ++ ".csv"
  /\ 255 < String.length (_get_hotspots_file mountlist folder).
Proof.
  intros Hnone Hlong.
  assert (Hname : _get_hotspots_file mountlist folder
                  = Py.replace folder "/" "+" ++ ".csv").
  { unfold _get_hotspots_file. generalize (Py.replace folder "/" "+" ++ ".csv").
    induction Hnone as [|mnt l Hmnt _ IH]; intros hs; [reflexivity|].
    cbn [fold_left]. unfold hotspots_file_step at 2. rewrite Hmnt. apply IH. }
  split; [exact Hname|].
  rewrite Hname, string_length_app, replace_slash_length. cbn [String.length]. lia.
Qed.

Lemma hotspots_file_outside_mounts_exceeds_bound_witness :
  _get_hotspots_file [lab_mount] long_local_folder
  = Py.replace long_local_folder "/" "+" ++ ".csv"
  /\ 255 < String.length (_get_hotspots_file [lab_mount] long_local_folder).
Proof.
  apply (hotspots_file_outside_mounts_exceeds_bound [lab_mount] long_local_folder).
  - repeat constructor.
  - vm_compute. lia.
Defined.

Example long_local_folder_name :
  String.length long_local_folder = 402
  /\ String.length (_get_hotspots_file [lab_mount] long_local_folder) = 406.
Proof. split; vm_compute; reflexivity. Qed.

(* --------------------------------------------------------------------- *)
(** ** Glacier restore controller                                         *)
(* --------------------------------------------------------------------- *)

(** Whatever [_glacier_restore] returns after its [try] block has four
    components. *)
Lemma glacier_restore_listed_arity (s3 : s3_client) (bucket prefix : string)
    (keep_days : Z) (ret_opt : string) (recursive : bool) (t : list (list string)) :
  (forall code, paginate s3 bucket prefix <> Raised (ClientError code)) ->
  _glacier_restore s3 bucket prefix keep_days ret_opt recursive = Ok t ->
  List.length t = 4.
Proof.
  intros Hbuilt. unfold _glacier_restore.
  destruct (paginate s3 bucket prefix) as [[] | e] eqn:Hpaginate.
  - destruct (list_pages s3 bucket prefix) as [pages | e]; cbn [obind]; [|discriminate].
    destruct (glacier_visit_pages _ _ _ _ _ _ _ _) as [l | e]; cbn [obind];
      [intros [= <-]; reflexivity | discriminate].
  - destruct e; try discriminate. now destruct (Hbuilt code).
Qed.

(** How [restore] goes on from a row of a glacier class. *)
Lemma restore_glacier_entry
    (archive_json : json_file) (s3 : s3_client) (args : restore_args)
    (folder : string) (recursive : bool) (row : entry)
    (buc pre : string) (recur : bool) :
  archive_json_get_row archive_json folder = Ok (Some row) ->
  row !! "local_folder" = Some folder ->
  archive_get_bucket_info archive_json folder = Ok (Some buc, Some pre, recur, true) ->
  restore archive_json s3 args folder recursive
  = obind (_glacier_restore s3 buc pre (days args) (retrieveopt args) recur)
      (fun t =>
         obind (unpack4 t) (fun '(trig, rest, done, notg) =>
           if Nat.ltb 0 (List.length trig) || Nat.ltb 0 (List.length rest)
           then Ok (RetInt (Z.of_nat (List.length trig + List.length rest)))
           else if nodownload args then Ok (RetInt (-1)) else Raised TypeError)).
Proof.
  intros Hrow Hlocal Hinfo.
  unfold restore. rewrite Hrow. cbn [obind].
  unfold getitem at 1. rewrite Hlocal. cbn [obind].
  rewrite String.eqb_refl. cbn [negb andb].
  assert (Harch : exists af, row !! "archive_folder" = Some af).
  { unfold archive_get_bucket_info in Hinfo. rewrite Hrow in Hinfo.
    cbn [obind] in Hinfo. unfold getitem in Hinfo.
    destruct (row !! "s3_storage_class"); cbn [obind] in Hinfo; [|discriminate].
    destruct (row !! "archive_folder") as [af|]; [now exists af | discriminate]. }
  destruct Harch as [af Haf]. unfold getitem. rewrite Haf. cbn [obind].
  rewrite Hinfo. cbn [obind default from_option]. unfold id. reflexivity.
Qed.

(** The handler of the [try] block returns three lists, which [restore]
    cannot unpack: when building the client, the paginator or the page
    iterator raises a client error, [restore] ends in [ValueError]. *)
Lemma glacier_restore_handler_tuple_breaks_restore
    (archive_json : json_file) (s3 : s3_client) (args : restore_args)
    (folder : string) (recursive : bool) (row : entry)
    (buc pre : string) (recur : bool) (code : string) :
  archive_json_get_row archive_json folder = Ok (Some row) ->
  row !! "local_folder" = Some folder ->
  archive_get_bucket_info archive_json folder = Ok (Some buc, Some pre, recur, true) ->
  paginate s3 buc pre = Raised (ClientError code) ->
  _glacier_restore s3 buc pre (days args) (retrieveopt args) recur = Ok [[]; []; []]
  /\ restore archive_json s3 args folder recursive = Raised ValueError.
Proof.
  intros Hrow Hlocal Hinfo Hbuilt.
  assert (Hthree : _glacier_restore s3 buc pre (days args) (retrieveopt args) recur
                   = Ok [[]; []; []]).
  { unfold _glacier_restore. now rewrite Hbuilt. }
  split; [exact Hthree|].
  rewrite (restore_glacier_entry _ _ _ _ _ _ _ _ _ Hrow Hlocal Hinfo), Hthree.
  reflexivity.
Qed.



Example archived_world_files :
  List.map fname (default [] (fs archived_world !! "/data/x"))
  = ["a.bin"; "exact.bin"; "Froster.smallfiles.tar"; "Froster.allfiles.csv";
     ".froster.md5sum"].
Proof. vm_compute. reflexivity. Qed.

Example archived_world_manifest :
  List.map snd (manifest_lines archived_world "/data/x" md5sum_filename)
  = ["a.bin"; "exact.bin"; "Froster.smallfiles.tar"; "Froster.allfiles.csv"].
Proof. vm_compute. reflexivity. Qed.

Example archived_world_registered :
  archive_json_get_row (archive_json_file archived_world) "/data/x"
  = obind (new_entry sample_archiver (sample_tools (fun _ => true)) fresh_world
             "/data/x" ":s3:bucket/archive/data/x" false [])
          (fun e => Ok (Some e)).
Proof. vm_compute. reflexivity. Qed.

(* --------------------------------------------------------------------- *)
(** ** Delete                                                             *)
(* --------------------------------------------------------------------- *)

(** C1.  For a folder with a registry entry and a local manifest, when the
    rclone checksum run on that manifest does not return code 0,
    [delete_locally] returns with every directory and the registry as they
    were: no file is removed and no placeholder is written. *)
Theorem delete_locally_failed_verification_changes_nothing
    (a : archiver) (t : tools) (folder_to_delete : string) (w : world)
    (info : entry) (hashfile : string) :
  archive_json_get_row (archive_json_file w) folder_to_delete = Ok (Some info) ->
  delete_hashfile w folder_to_delete = Some hashfile ->
  (forall w' s3_dest,
     rclone_run t w' (Rclone_envrn (cfg a)) (checksum_command hashfile s3_dest) = false) ->
  exists w',
    delete_locally a t folder_to_delete w = (Ok tt, w')
    /\ fs w' = fs w
    /\ archive_json_file w' = archive_json_file w
    /\ forall name, lookup_path w' folder_to_delete name
                    = lookup_path w folder_to_delete name.
Proof.
  intros Hrow Hhash Hfail.
  unfold delete_locally, bind, say, get, lift. cbn [archive_json_file emit].
  rewrite Hrow. unfold try_except, caught.
  replace (delete_hashfile (emit (Said (MsgDeleting folder_to_delete)) w) folder_to_delete)
    with (Some hashfile) by (rewrite <- Hhash; reflexivity).
  unfold getitem.
  destruct (info !! "local_folder") as [local_folder|]; cbn [is_Exception];
    [|eexists; split; [reflexivity | repeat split]].
  destruct (info !! "archive_folder") as [archive_folder|]; cbn [is_Exception];
    [|eexists; split; [reflexivity | repeat split]].
  unfold rclone_checksum, _run_rclone_command.
  fold (checksum_command hashfile (archive_folder ++ Py.replace folder_to_delete local_folder "")).
  rewrite Hfail. cbn [negb ret].
  eexists; split; [reflexivity | repeat split].
Qed.

Lemma delete_locally_failed_verification_changes_nothing_witness :
  exists w',
    delete_locally sample_archiver (sample_tools checksum_refused) "/data/x" archived_world
    = (Ok tt, w')
    /\ fs w' = fs archived_world
    /\ archive_json_file w' = archive_json_file archived_world
    /\ forall name, lookup_path w' "/data/x" name = lookup_path archived_world "/data/x" name.
Proof.
  eapply (delete_locally_failed_verification_changes_nothing
            sample_archiver (sample_tools checksum_refused) "/data/x" archived_world).
  - vm_compute. reflexivity.
  - vm_compute. reflexivity.
  - intros w' s3_dest. unfold checksum_command, rclone_argv, _add_opt.
    repeat destruct (existsb _ _); reflexivity.
Defined.

(* --------------------------------------------------------------------- *)
(** ** What the procedures can raise                                      *)
(* --------------------------------------------------------------------- *)

Lemma first_recursive_parent_raises (data : gmap string entry) (ps : list string)
    (e : exn) :
  first_recursive_parent data ps = Raised e -> is_Exception e = true.
Proof.
  induction ps as [|p ps IH]; cbn [first_recursive_parent]; [discriminate|].
  destruct (data !! p) as [row|]; [|exact IH].
  unfold getitem. destruct (row !! "archive_mode") as [mode|]; cbn [obind].
  - destruct (String.eqb mode "Recursive"); [discriminate | exact IH].
  - now intros [= <-].
Qed.

Lemma archive_json_get_row_raises (j : json_file) (folder : string) (e : exn) :
  archive_json_get_row j folder = Raised e -> is_Exception e = true.
Proof.
  destruct j as [| |data]; cbn [archive_json_get_row]; try discriminate.
  destruct (data !! folder); [discriminate | apply first_recursive_parent_raises].
Qed.

Lemma is_folder_archived_raises (j : json_file) (folder : string) (e : exn) :
  _is_folder_archived j folder = Raised e -> is_Exception e = true.
Proof.
  unfold _is_folder_archived.
  destruct (archive_json_get_row j folder) as [row|e'] eqn:Hrow; cbn [obind];
    [discriminate|].
  intros [= <-]. now apply archive_json_get_row_raises in Hrow.
Qed.

Lemma getitem_raises {V} (d : gmap string V) (k : string) (e : exn) :
  getitem d k = Raised e -> is_Exception e = true.
Proof. unfold getitem. destruct (d !! k); [discriminate | now intros [= <-]]. Qed.

Lemma new_entry_raises (a : archiver) (t : tools) (w : world)
    (folder s3_dest : string) (is_recursive : bool) (nih : list string) (e : exn) :
  new_entry a t w folder s3_dest is_recursive nih = Raised e -> is_Exception e = true.
Proof.
  unfold new_entry, item. destruct nih as [|n0 nih]; [discriminate|].
  repeat (match goal with
          | |- context [nth_error ?l ?i] => destruct (nth_error l i)
          end; cbn [obind]);
    first [discriminate | now intros [= <-]].
Qed.

Lemma safe_ret {A} (a : A) : safe (ret a).
Proof. intros w e w'. discriminate. Qed.

Lemma safe_raise {A} (e : exn) : is_Exception e = true -> safe (@raise A e).
Proof. intros He w e' w' [= <- _]. exact He. Qed.

Lemma safe_lift {A} (o : outcome A) :
  (forall e, o = Raised e -> is_Exception e = true) -> safe (lift o).
Proof. intros Ho w e w' [= -> _]. now apply Ho. Qed.

Lemma safe_bind {A B} (m : M A) (k : A -> M B) :
  safe m -> (forall a, safe (k a)) -> safe (bind m k).
Proof.
  intros Hm Hk w e w'. unfold bind.
  destruct (m w) as [[a|e1] w1] eqn:Hmw.
  - apply Hk.
  - intros [= <- _]. exact (Hm _ _ _ Hmw).
Qed.

Lemma safe_try_except {A} (body : M A) (handler : exn -> M A) :
  safe body -> (forall e, safe (handler e)) -> safe (try_except body handler).
Proof.
  intros Hbody Hhandler w e w'. unfold try_except, caught.
  destruct (body w) as [[a|e1] w1] eqn:Hbw; [discriminate|].
  rewrite (Hbody _ _ _ Hbw). apply Hhandler.
Qed.

Lemma safe_fold_m {A B} (f : B -> A -> M B) (l : list A) (s : B) :
  (forall s x, safe (f s x)) -> safe (fold_m f l s).
Proof.
  intros Hf. revert s. induction l as [|x l IH]; intros s; cbn [fold_m].
  - intros w e w'. discriminate.
  - apply safe_bind; [apply Hf | exact IH].
Qed.


Lemma safe_get : safe get.
Proof. intros w e w'. discriminate. Qed.

Lemma safe_say (m : message) : safe (say m).
Proof. intros w e w'. discriminate. Qed.

Lemma safe_print_error (e : exn) : safe (print_error e).
Proof. intros w e' w'. discriminate. Qed.

Lemma safe_for_each {A} (l : list A) (body : A -> M unit) :
  (forall x, safe (body x)) -> safe (for_each l body).
Proof.
  intros Hbody. induction l as [|x l IH]; cbn [for_each].
  - apply safe_ret.
  - apply safe_bind; [apply Hbody | intros _; exact IH].
Qed.

Lemma safe_map_m {A B} (f : A -> M B) (l : list A) :
  (forall x, safe (f x)) -> safe (map_m f l).
Proof.
  intros Hf. induction l as [|x l IH]; cbn [map_m].
  - apply safe_ret.
  - apply safe_bind; [apply Hf | intros y].
    apply safe_bind; [exact IH | intros ys; apply safe_ret].
Qed.

Lemma safe_os_lstat (folder name : string) : safe (os_lstat folder name).
Proof.
  intros w e w'. unfold os_lstat.
  destruct (lookup_path w folder name); [discriminate | now intros [= <- _]].
Qed.

Lemma safe_os_remove (folder name : string) : safe (os_remove folder name).
Proof.
  intros w e w'. unfold os_remove.
  destruct (fs w !! folder) as [l|]; [|now intros [= <- _]].
  destruct (find_file name l) as [f|]; [|now intros [= <- _]].
  destruct (fkind f); first [discriminate | now intros [= <- _]].
Qed.

Lemma safe_write_file (t : tools) (folder name : string) (data : content) :
  safe (write_file t folder name data).
Proof.
  intros w e w'. unfold write_file.
  destruct (fs w !! folder) as [l|]; [|now intros [= <- _]].
  destruct (find_file name l) as [f|]; [|discriminate].
  destruct (is_dir_kind (fkind f)); [now intros [= <- _] | discriminate].
Qed.

Lemma safe_extract_member (t : tools) (root : string) (m : file) :
  safe (extract_member t root m).
Proof.
  intros w e w'. unfold extract_member.
  destruct (fs w !! root) as [l|]; [|now intros [= <- _]].
  destruct (find_file (fname m) l) as [f|]; [|discriminate].
  destruct (fkind f); first [discriminate | now intros [= <- _]].
Qed.

Lemma safe_run_rclone_command (t : tools) (envrn : gmap string string)
    (command : list string) : safe (_run_rclone_command t envrn command).
Proof. intros w e w'. discriminate. Qed.

Lemma safe_archive_json_add_entry (key : string) (value : entry) :
  safe (_archive_json_add_entry key value).
Proof.
  intros w e w'. unfold _archive_json_add_entry.
  destruct (archive_json_file w); discriminate.
Qed.

(** One step of a proof that a procedure is [safe]. *)
Ltac safe_step :=
  first
    [ apply safe_ret | apply safe_get | apply safe_say | apply safe_print_error
    | apply safe_os_lstat | apply safe_os_remove | apply safe_write_file
    | apply safe_extract_member | apply safe_run_rclone_command
    | apply safe_archive_json_add_entry
    | apply safe_raise; reflexivity
    | apply safe_lift; intros ?;
      first [ apply is_folder_archived_raises | apply archive_json_get_row_raises
            | apply getitem_raises | apply new_entry_raises ]
    | apply safe_bind; [|intros ?]
    | apply safe_try_except; [|intros ?]
    | apply safe_for_each; intros ?
    | apply safe_map_m; intros ?
    | apply safe_fold_m; intros ? ?
    | match goal with
      | |- safe (if ?c then _ else _) => destruct c
      | |- safe (match ?x with _ => _ end) => destruct x
      end ].

Lemma safe_md5sum (t : tools) (folder name : string) : safe (md5sum t folder name).
Proof. unfold md5sum. repeat safe_step. Qed.

Lemma safe_gen_md5sums (t : tools) (directory hash_file : string) :
  safe (_gen_md5sums t directory hash_file).
Proof. unfold _gen_md5sums. repeat safe_step. Qed.

Lemma safe_pack_file (t : tools) (directory : string) (smallsize : Z) (is_tar : bool)
    (acc : pack_state) (file : string) :
  safe (pack_file t directory smallsize is_tar acc file).
Proof. unfold pack_file. repeat safe_step. Qed.

Lemma safe_gen_allfiles_and_tar (a : archiver) (t : tools) (directory : string)
    (smallsize : Z) (is_tar : bool) :
  safe (_gen_allfiles_and_tar a t directory smallsize is_tar).
Proof. unfold _gen_allfiles_and_tar. repeat safe_step. apply safe_pack_file. Qed.

Lemma safe_reset_root (t : tools) (root : string) : safe (reset_root t root).
Proof. unfold reset_root. repeat safe_step. Qed.

Lemma safe_reset_folder (t : tools) (directory : string) (recursive : bool) :
  safe (reset_folder t directory recursive).
Proof. unfold reset_folder. repeat safe_step. Qed.

Lemma returns_try_except {A} (body : M A) (handler : exn -> M A) :
  safe body -> (forall e, returns (handler e)) -> returns (try_except body handler).
Proof.
  intros Hbody Hhandler w. unfold try_except, caught.
  destruct (body w) as [[a|e] w1] eqn:Hrun.
  - now exists a, w1.
  - rewrite (Hbody _ _ _ Hrun). apply Hhandler.
Qed.

Lemma returns_print_error (e : exn) : returns (print_error e).
Proof. intros w. eexists _, _. reflexivity. Qed.

Lemma returns_gen_md5sums (t : tools) (directory hash_file : string) :
  returns (_gen_md5sums t directory hash_file).
Proof.
  apply returns_try_except; [repeat safe_step|].
  intros e w. eexists _, _. reflexivity.
Qed.

Lemma returns_gen_allfiles_and_tar (a : archiver) (t : tools) (directory : string)
    (smallsize : Z) (is_tar : bool) :
  returns (_gen_allfiles_and_tar a t directory smallsize is_tar).
Proof.
  apply returns_try_except; [repeat safe_step; apply safe_pack_file|].
  intros e w. unfold bind. destruct (args_debug (args a)); eexists _, _; reflexivity.
Qed.

Lemma returns_reset_root (t : tools) (root : string) : returns (reset_root t root).
Proof.
  apply returns_try_except; [repeat safe_step | apply returns_print_error].
Qed.

Lemma returns_for_each {A} (l : list A) (body : A -> M unit) :
  (forall x, returns (body x)) -> returns (for_each l body).
Proof.
  intros Hbody. induction l as [|x l IH]; intros w; cbn [for_each].
  - eexists _, _. reflexivity.
  - unfold bind. destruct (Hbody x w) as (u & w1 & ->). apply IH.
Qed.

Lemma returns_reset_folder (t : tools) (directory : string) (recursive : bool) :
  returns (reset_folder t directory recursive).
Proof.
  intros w. unfold reset_folder, bind, get.
  apply returns_for_each. exact (returns_reset_root t).
Qed.

(* --------------------------------------------------------------------- *)
(** ** Running a procedure step by step                                   *)
(* --------------------------------------------------------------------- *)

Lemma bind_get {B} (k : world -> M B) (w : world) : bind get k w = k w w.
Proof. reflexivity. Qed.

Lemma bind_ret {A B} (a : A) (k : A -> M B) (w : world) : bind (ret a) k w = k a w.
Proof. reflexivity. Qed.

Lemma bind_say {B} (m : message) (k : unit -> M B) (w : world) :
  bind (say m) k w = k tt (emit (Said m) w).
Proof. reflexivity. Qed.

Lemma bind_lift_ok {A B} (a : A) (k : A -> M B) (w : world) :
  bind (lift (Ok a)) k w = k a w.
Proof. reflexivity. Qed.

Lemma bind_lift_raised {A B} (e : exn) (k : A -> M B) (w : world) :
  bind (lift (Raised e)) k w = (Raised e, w).
Proof. reflexivity. Qed.

Lemma bind_raise {A B} (e : exn) (k : A -> M B) (w : world) :
  bind (raise e) k w = (Raised e, w).
Proof. reflexivity. Qed.

Lemma bind_assoc {A B C} (m : M A) (k : A -> M B) (k' : B -> M C) (w : world) :
  bind (bind m k) k' w = bind m (fun a => bind (k a) k') w.
Proof. unfold bind. destruct (m w) as [[a|e] w1]; reflexivity. Qed.

Lemma bind_run {A B} (m : M A) (k : A -> M B) (w w1 : world) (a : A) :
  m w = (Ok a, w1) -> bind m k w = k a w1.
Proof. intros H. unfold bind. now rewrite H. Qed.

Lemma bind_run_raised {A B} (m : M A) (k : A -> M B) (w w1 : world) (e : exn) :
  m w = (Raised e, w1) -> bind m k w = (Raised e, w1).
Proof. intros H. unfold bind. now rewrite H. Qed.

(* --------------------------------------------------------------------- *)
(** ** Batches                                                            *)
(* --------------------------------------------------------------------- *)

(** Past its two exits, [archive_locally] returns. *)
Lemma archive_locally_after_checks_returns
    (a : archiver) (t : tools) (folder : string) (is_recursive : bool)
    (nih : list string) (is_subfolder is_tar is_force : bool) (w : world) :
  _is_folder_archived (archive_json_file w) (Py.rstrip Py.slash folder) <> Ok true ->
  (_is_folder_archived (archive_json_file w) (Py.rstrip Py.slash folder) = Ok false ->
   os_path_isfile w folder ".froster.md5sum" && negb is_force = false) ->
  exists w',
    archive_locally a t folder is_recursive nih is_subfolder is_tar is_force w
    = (Ok tt, w').
Proof.
  intros Hnot Hprepared. unfold archive_locally, try_except, caught.
  rewrite bind_get.
  destruct (_is_folder_archived (archive_json_file w) (Py.rstrip Py.slash folder))
    as [[|]|e] eqn:Harch.
  - now destruct Hnot.
  - specialize (Hprepared eq_refl). rewrite bind_lift_ok. cbv iota.
    match goal with
    | |- exists w', match ?run with _ => _ end = _ =>
        destruct run as [[[]|e] w1] eqn:Hrun
    end.
    + now exists w1.
    + assert (Hexc : is_Exception e = true).
      { revert Hrun.
        destruct (os_path_isfile w folder ".froster.md5sum"); cbn [andb] in Hprepared.
        - destruct is_force; [|discriminate].
          match goal with
          | |- ?m w = _ -> _ => assert (Hs : safe m); [|exact (Hs w e w1)]
          end.
          repeat safe_step; first [apply safe_reset_root | apply safe_pack_file].
        - match goal with
          | |- ?m w = _ -> _ => assert (Hs : safe m); [|exact (Hs w e w1)]
          end.
          repeat safe_step; apply safe_pack_file. }
      rewrite Hexc. eexists. reflexivity.
  - rewrite bind_lift_raised.
    rewrite (is_folder_archived_raises _ _ _ Harch). eexists. reflexivity.
Qed.

(** In a batch of two folders whose first still carries a manifest,
    without [--force], the run ends in [SystemExit 1] after the notice
    about the first folder: nothing is printed or done for the second. *)
Example prepared_folder_ends_the_batch :
  archive sample_archiver (sample_tools (fun _ => true)) ["/data/x"; "/data/y"]
    prepared_world
  = (Raised (SystemExit 1), emit (Said (MsgHashfileExists "/data/x")) prepared_world).
Proof. vm_compute. reflexivity. Qed.

(** The two calls of [sys.exit] apart, a batch without the recursive
    switch goes on.  A folder that is already archived ends the whole
    process with exit status 0, and a folder that carries a manifest while
    [force] is not set ends it with status 1; in every other case, also
    when a step of the pipeline fails or an exception is reported,
    [archive_locally] returns and the loop comes to the next folder. *)
Lemma archive_batch_continues_unless_exit
    (a : archiver) (t : tools) (folder : string) (rest : list string)
    (nih : list string) (is_tar is_force : bool) (w : world) :
  let continues :=
    exists w',
      archive_locally a t folder false nih false is_tar is_force w = (Ok tt, w')
      /\ archive_folders a t (folder :: rest) false nih is_tar is_force w
         = archive_folders a t rest false nih is_tar is_force w' in
  match _is_folder_archived (archive_json_file w) (Py.rstrip Py.slash folder) with
  | Ok true =>
      archive_folders a t (folder :: rest) false nih is_tar is_force w
      = (Raised (SystemExit 0), emit (Said (MsgAlreadyArchived folder)) w)
  | Ok false =>
      if os_path_isfile w folder ".froster.md5sum" && negb is_force then
        archive_folders a t (folder :: rest) false nih is_tar is_force w
        = (Raised (SystemExit 1), emit (Said (MsgHashfileExists folder)) w)
      else continues
  | Raised _ => continues
  end.
Proof.
  intros continues.
  assert (Hcontinues :
            _is_folder_archived (archive_json_file w) (Py.rstrip Py.slash folder)
            <> Ok true ->
            (_is_folder_archived (archive_json_file w) (Py.rstrip Py.slash folder)
             = Ok false ->
             os_path_isfile w folder ".froster.md5sum" && negb is_force = false) ->
            continues).
  { intros Hnot Hprepared.
    destruct (archive_locally_after_checks_returns a t folder false nih false
                is_tar is_force w Hnot Hprepared) as [w' Hrun].
    exists w'. split; [exact Hrun|].
    unfold archive_folders. cbn [for_each]. now rewrite (bind_run _ _ _ _ _ Hrun). }
  destruct (_is_folder_archived (archive_json_file w) (Py.rstrip Py.slash folder))
    as [[|]|e] eqn:Harch.
  - unfold archive_folders. cbn [for_each]. apply bind_run_raised.
    unfold archive_locally, try_except, caught. rewrite bind_get, Harch, bind_lift_ok.
    reflexivity.
  - destruct (os_path_isfile w folder ".froster.md5sum" && negb is_force) eqn:Hprepared.
    + unfold archive_folders. cbn [for_each]. apply bind_run_raised.
      unfold archive_locally, try_except, caught. rewrite bind_get, Harch, bind_lift_ok.
      apply andb_true_iff in Hprepared as [-> Hforce].
      apply negb_true_iff in Hforce. subst is_force. reflexivity.
    + now apply Hcontinues.
  - apply Hcontinues; discriminate.
Qed.

(* --------------------------------------------------------------------- *)
(** ** Relations every step of a procedure respects                       *)
(* --------------------------------------------------------------------- *)

Section Respects.

Variable R : world -> world -> Prop.
Hypothesis R_refl : forall w, R w w.
Hypothesis R_trans : forall w1 w2 w3, R w1 w2 -> R w2 w3 -> R w1 w3.

Lemma respects_ret {A} (a : A) : respects R (ret a).
Proof. intros w. apply R_refl. Qed.

Lemma respects_raise {A} (e : exn) : respects R (@raise A e).
Proof. intros w. apply R_refl. Qed.

Lemma respects_get : respects R get.
Proof. intros w. apply R_refl. Qed.

Lemma respects_lift {A} (o : outcome A) : respects R (lift o).
Proof. intros w. apply R_refl. Qed.

Lemma respects_bind {A B} (m : M A) (k : A -> M B) :
  respects R m -> (forall a, respects R (k a)) -> respects R (bind m k).
Proof.
  intros Hm Hk w. unfold bind. specialize (Hm w).
  destruct (m w) as [[a|e] w1]; cbn [snd] in *; [|exact Hm].
  eapply R_trans; [exact Hm | apply Hk].
Qed.

Lemma respects_try_except {A} (body : M A) (handler : exn -> M A) :
  respects R body -> (forall e, respects R (handler e)) ->
  respects R (try_except body handler).
Proof.
  intros Hbody Hhandler w. unfold try_except, caught. specialize (Hbody w).
  destruct (body w) as [[a|e] w1]; cbn [snd] in *; [exact Hbody|].
  destruct (is_Exception e); cbn [snd]; [|exact Hbody].
  eapply R_trans; [exact Hbody | apply Hhandler].
Qed.

Lemma respects_for_each {A} (l : list A) (body : A -> M unit) :
  (forall x, respects R (body x)) -> respects R (for_each l body).
Proof.
  intros Hbody. induction l as [|x l IH]; cbn [for_each].
  - apply respects_ret.
  - apply respects_bind; [apply Hbody | intros _; exact IH].
Qed.

Lemma respects_map_m {A B} (f : A -> M B) (l : list A) :
  (forall x, respects R (f x)) -> respects R (map_m f l).
Proof.
  intros Hf. induction l as [|x l IH]; cbn [map_m].
  - apply respects_ret.
  - apply respects_bind; [apply Hf | intros y].
    apply respects_bind; [exact IH | intros ys; apply respects_ret].
Qed.

Lemma respects_fold_m {A S} (f : S -> A -> M S) (l : list A) (s : S) :
  (forall s x, respects R (f s x)) -> respects R (fold_m f l s).
Proof.
  intros Hf. revert s. induction l as [|x l IH]; intros s; cbn [fold_m].
  - apply respects_ret.
  - apply respects_bind; [apply Hf | exact IH].
Qed.

End Respects.

(** One step of a proof that a procedure respects a relation, given a
    tactic [prim] for the operating-system calls. *)
Ltac respects_step refl trans prim :=
  first
    [ apply (respects_ret _ refl) | apply (respects_get _ refl)
    | apply (respects_raise _ refl) | apply (respects_lift _ refl)
    | prim
    | apply (respects_bind _ trans); [|intros ?]
    | apply (respects_try_except _ trans); [|intros ?]
    | apply (respects_for_each _ refl trans); intros ?
    | apply (respects_map_m _ refl trans); intros ?
    | apply (respects_fold_m _ refl trans); intros ? ?
    | match goal with
      | |- respects _ (if ?c then _ else _) => destruct c
      | |- respects _ (match ?x with _ => _ end) => destruct x
      end ].

Lemma terminal_grows_refl (w : world) : terminal_grows w w.
Proof. exists []. now rewrite app_nil_r. Qed.

Lemma terminal_grows_trans (w1 w2 w3 : world) :
  terminal_grows w1 w2 -> terminal_grows w2 w3 -> terminal_grows w1 w3.
Proof.
  intros [l1 H1] [l2 H2]. exists (l1 ++ l2)%list. now rewrite H2, H1, app_assoc.
Qed.

Lemma terminal_grows_emit (e : event) (w : world) : terminal_grows w (emit e w).
Proof. now exists [e]. Qed.

Lemma grows_say (m : message) : respects terminal_grows (say m).
Proof. intros w. apply terminal_grows_emit. Qed.

Lemma grows_print_error (e : exn) : respects terminal_grows (print_error e).
Proof. intros w. apply terminal_grows_emit. Qed.

Lemma grows_os_lstat (folder name : string) : respects terminal_grows (os_lstat folder name).
Proof.
  intros w. unfold os_lstat. destruct (lookup_path w folder name);
    apply terminal_grows_refl.
Qed.

Lemma grows_os_remove (folder name : string) :
  respects terminal_grows (os_remove folder name).
Proof.
  intros w. unfold os_remove.
  destruct (fs w !! folder) as [l|]; [|apply terminal_grows_refl].
  destruct (find_file name l) as [f|]; [|apply terminal_grows_refl].
  destruct (fkind f); exists []; cbn; now rewrite app_nil_r.
Qed.

Lemma grows_write_file (t : tools) (folder name : string) (data : content) :
  respects terminal_grows (write_file t folder name data).
Proof.
  intros w. unfold write_file.
  destruct (fs w !! folder) as [l|]; [|apply terminal_grows_refl].
  destruct (find_file name l) as [f|].
  - destruct (is_dir_kind (fkind f)); exists []; cbn; now rewrite app_nil_r.
  - exists []; cbn; now rewrite app_nil_r.
Qed.

Lemma grows_run_rclone_command (t : tools) (envrn : gmap string string)
    (command : list string) :
  respects terminal_grows (_run_rclone_command t envrn command).
Proof. intros w. apply terminal_grows_emit. Qed.

Lemma grows_archive_json_add_entry (key : string) (value : entry) :
  respects terminal_grows (_archive_json_add_entry key value).
Proof.
  intros w. unfold _archive_json_add_entry.
  destruct (archive_json_file w); cbn [snd];
    first [apply terminal_grows_emit | exists []; cbn; now rewrite app_nil_r].
Qed.

Ltac grows_prim :=
  first
    [ apply grows_say | apply grows_print_error | apply grows_os_lstat
    | apply grows_os_remove | apply grows_write_file
    | apply grows_run_rclone_command | apply grows_archive_json_add_entry ].

Ltac grows_step := respects_step terminal_grows_refl terminal_grows_trans grows_prim.

Lemma grows_gen_md5sums (t : tools) (directory hash_file : string) :
  respects terminal_grows (_gen_md5sums t directory hash_file).
Proof. unfold _gen_md5sums. repeat grows_step. Qed.

(* --------------------------------------------------------------------- *)
(** ** A small-files tar left by an earlier run                           *)
(* --------------------------------------------------------------------- *)

Lemma gen_allfiles_and_tar_existing_tar (a : archiver) (t : tools) (directory : string)
    (smallsize : Z) (is_tar : bool) (w : world) :
  os_path_exists w directory smallfiles_tar_filename = true ->
  _gen_allfiles_and_tar a t directory smallsize is_tar w = (Ok true, w).
Proof.
  intros Htar. unfold _gen_allfiles_and_tar, try_except, caught.
  rewrite bind_get, Htar. reflexivity.
Qed.

(** C9.  When [Froster.smallfiles.tar] is already in the folder, the
    catalog-and-pack step returns true with the whole state as it was (no
    catalog written, nothing added to the tar, nothing removed); and
    [archive_locally], for a folder that is not archived and has no
    manifest, reports the step as done and goes on to the checksums. *)
Theorem existing_tar_skips_catalog_and_archive_proceeds
    (a : archiver) (t : tools) (folder : string) (is_recursive : bool)
    (nih : list string) (is_subfolder is_tar is_force : bool) (w : world) :
  os_path_exists w folder smallfiles_tar_filename = true ->
  _is_folder_archived (archive_json_file w) (Py.rstrip Py.slash folder) = Ok false ->
  os_path_isfile w folder ".froster.md5sum" = false ->
  (forall smallsize packing,
     _gen_allfiles_and_tar a t folder smallsize packing w = (Ok true, w))
  /\ exists later,
       terminal (snd (archive_locally a t folder is_recursive nih is_subfolder
                        is_tar is_force w))
       = (terminal w
          ++ [Said (MsgArchiving folder); Said (MsgGeneratingCatalog is_tar);
              Said MsgDone; Said MsgGeneratingChecksums]
          ++ later)%list.
Proof.
  intros Htar Harch Hmd5. split.
  { intros smallsize packing. now apply gen_allfiles_and_tar_existing_tar. }
  assert (Hlisting : exists x l, fs w !! folder = Some (x :: l)).
  { unfold os_path_exists, lookup_path in Htar.
    destruct (fs w !! folder) as [[|x l]|]; [discriminate | now exists x, l | discriminate]. }
  destruct Hlisting as (x & l & Hlisting).
  unfold archive_locally, try_except, caught.
  rewrite bind_get, Harch, bind_lift_ok. cbv iota.
  rewrite Hmd5, bind_ret, bind_get, Hlisting.
  rewrite !bind_say.
  rewrite (bind_run _ _ _ _ _
             (gen_allfiles_and_tar_existing_tar a t folder (thresholdKB a) is_tar
                (emit (Said (MsgGeneratingCatalog is_tar))
                   (emit (Said (MsgArchiving folder)) w)) Htar)).
  cbn [negb]. rewrite !bind_say.
  match goal with
  | |- context [match ?m ?w4 with _ => _ end] =>
      assert (Hgrows : respects terminal_grows (try_except m (fun e => print_error e)));
      [|destruct (Hgrows w4) as [later Hlater]; exists later;
        unfold try_except, caught in Hlater; rewrite Hlater]
  end.
  - repeat grows_step.
  - cbn [terminal emit]. now rewrite <- !app_assoc.
Qed.

Lemma existing_tar_skips_catalog_and_archive_proceeds_witness :
  (forall smallsize packing,
     _gen_allfiles_and_tar sample_archiver (sample_tools (fun _ => true)) "/data/x"
       smallsize packing tar_left_world
     = (Ok true, tar_left_world))
  /\ exists later,
       terminal (snd (archive_locally sample_archiver (sample_tools (fun _ => true))
                        "/data/x" false [] false true false tar_left_world))
       = (terminal tar_left_world
          ++ [Said (MsgArchiving "/data/x"); Said (MsgGeneratingCatalog true);
              Said MsgDone; Said MsgGeneratingChecksums]
          ++ later)%list.
Proof.
  apply (existing_tar_skips_catalog_and_archive_proceeds
           sample_archiver (sample_tools (fun _ => true)) "/data/x" false [] false
           true false tar_left_world);
    vm_compute; reflexivity.
Defined.

(** In that run no catalog exists when the upload of the catalog is
    attempted: the folder of [tar_left_world] never holds one. *)
Example tar_left_world_has_no_catalog :
  os_path_exists
    (snd (archive_locally sample_archiver (sample_tools (fun _ => true))
            "/data/x" false [] false true false tar_left_world))
    "/data/x" allfiles_csv_filename = false.
Proof. vm_compute. reflexivity. Qed.

(* --------------------------------------------------------------------- *)
(** ** The uploads of [archive_locally]                                   *)
(* --------------------------------------------------------------------- *)

Lemma bind_run_rclone_command {B} (t : tools) (envrn : gmap string string)
    (command : list string) (k : bool -> M B) (w : world) :
  bind (_run_rclone_command t envrn command) k w
  = k (rclone_run t w envrn (rclone_argv command))
      (emit (RcloneRan envrn (rclone_argv command)
               (rclone_run t w envrn (rclone_argv command))) w).
Proof. reflexivity. Qed.

(** A run that ends on another event than the one asked for. *)
Ltac dead_end :=
  let Hlast := fresh "Hlast" in
  intros Hlast;
  cbn [caught say raise sys_exit ret snd fst is_Exception print_error terminal emit]
    in Hlast;
  rewrite last_snoc in Hlast; discriminate Hlast.

(** Case analysis on the answer of the rclone oracle. *)
Ltac destruct_rclone_run :=
  match goal with
  | |- context [rclone_run ?t ?w ?e ?c] => destruct (rclone_run t w e c)
  end.

(** C4.  Whenever [archive_locally] ends on its completion notice, the
    terminal shows the successful copy of the folder followed, after the
    two progress lines, by a successful second copy whose source is the
    folder's [Froster.allfiles.csv], whose destination is the same remote
    folder and whose environment has [RCLONE_S3_STORAGE_CLASS] set to
    [INTELLIGENT_TIERING]; this holds for every folder content and packing
    switch, so also when no file qualified for packing. *)
Theorem archive_locally_uploads_catalog_as_intelligent_tiering
    (a : archiver) (t : tools) (folder : string) (is_recursive : bool)
    (nih : list string) (is_subfolder is_tar is_force : bool) (w : world) :
  let s3_dest := archive_s3_dest (cfg a) folder in
  let envrn := <["RCLONE_S3_STORAGE_CLASS" := "INTELLIGENT_TIERING"]> (Rclone_envrn (cfg a)) in
  let w' := snd (archive_locally a t folder is_recursive nih is_subfolder
                   is_tar is_force w) in
  last (terminal w') = Some (Said (MsgArchivingCompleted folder s3_dest)) ->
  envrn !! "RCLONE_S3_STORAGE_CLASS" = Some "INTELLIGENT_TIERING"
  /\ exists before after,
       terminal w'
       = (before
          ++ [RcloneRan (Rclone_envrn (cfg a)) (copy_command folder s3_dest) true;
              Said MsgDone;
              Said MsgUploadingCatalog;
              RcloneRan envrn
                (copy_command (Py.os_path_join folder allfiles_csv_filename) s3_dest)
                true]
          ++ after)%list.
Proof.
  intros s3_dest envrn w'. subst w'.
  intros Hlast. split; [apply lookup_insert_eq|]. revert Hlast.
  unfold archive_locally, try_except. rewrite bind_get.
  destruct (_is_folder_archived (archive_json_file w) (Py.rstrip Py.slash folder))
    as [[|]|e] eqn:Harch.
  - rewrite bind_lift_ok. cbv iota. rewrite bind_say. dead_end.
  - rewrite bind_lift_ok. cbv iota.
    match goal with |- context [bind _ ?k w] => set (rest := k) end.
    assert (Hrest : forall w1,
               last (terminal (snd (caught (fun e => print_error e) (rest tt w1))))
               = Some (Said (MsgArchivingCompleted folder s3_dest)) ->
               exists before after,
                 terminal (snd (caught (fun e => print_error e) (rest tt w1)))
                 = (before
                    ++ [RcloneRan (Rclone_envrn (cfg a)) (copy_command folder s3_dest) true;
                        Said MsgDone;
                        Said MsgUploadingCatalog;
                        RcloneRan envrn
                          (copy_command (Py.os_path_join folder allfiles_csv_filename)
                             s3_dest) true]
                    ++ after)%list).
    { subst rest. cbv beta. clear Harch. intros w1.
      unfold rclone_copy, rclone_checksum. rewrite bind_get.
      destruct (fs w1 !! folder) as [[|x l]|]; [dead_end | | dead_end].
      rewrite !bind_say.
      destruct (returns_gen_allfiles_and_tar a t folder (thresholdKB a) is_tar
                  (emit (Said (MsgGeneratingCatalog is_tar))
                     (emit (Said (MsgArchiving folder)) w1)))
        as (generated & w2 & Hgen).
      rewrite (bind_run _ _ _ _ _ Hgen).
      destruct generated; cbn [negb]; [|dead_end].
      rewrite !bind_say.
      destruct (returns_gen_md5sums t folder md5sum_filename
                  (emit (Said MsgGeneratingChecksums) (emit (Said MsgDone) w2)))
        as (summed & w3 & Hsum).
      rewrite (bind_run _ _ _ _ _ Hsum).
      destruct summed; cbn [negb]; [|rewrite bind_say; dead_end].
      rewrite !bind_say. rewrite bind_run_rclone_command.
      fold (copy_command folder s3_dest).
      destruct_rclone_run; cbn [negb]; [|dead_end].
      rewrite !bind_say. rewrite bind_run_rclone_command.
      fold (copy_command (Py.os_path_join folder allfiles_csv_filename) s3_dest).
      fold envrn.
      destruct_rclone_run; cbn [negb]; [|dead_end].
      rewrite !bind_say. rewrite bind_run_rclone_command.
      destruct_rclone_run; cbn [negb]; [|dead_end].
      rewrite !bind_say.
      destruct is_subfolder; cbn [negb].
      + rewrite bind_ret. intros _. cbn [caught say snd terminal emit].
        exists (terminal w3 ++ [Said MsgDone; Said MsgUploadingFiles])%list.
        eexists. rewrite <- !app_assoc. cbn [app]. reflexivity.
      + rewrite bind_assoc, bind_get, bind_assoc.
        match goal with
        | |- context [new_entry a t ?w8 folder ?dest is_recursive nih] =>
            destruct (new_entry a t w8 folder dest is_recursive nih)
              as [row|err] eqn:Hentry
        end.
        * rewrite bind_lift_ok. unfold bind, _archive_json_add_entry.
          cbn [archive_json_file emit].
          destruct (archive_json_file w3); intros _;
            cbn [caught say snd terminal emit set_archive_json_file];
            exists (terminal w3 ++ [Said MsgDone; Said MsgUploadingFiles])%list;
            eexists; rewrite <- !app_assoc; cbn [app]; reflexivity.
        * rewrite bind_lift_raised. cbn [caught].
          rewrite (new_entry_raises _ _ _ _ _ _ _ _ Hentry). dead_end. }
    destruct (os_path_isfile w folder ".froster.md5sum").
    + destruct is_force.
      * destruct (returns_reset_folder t folder false w) as ([] & w1 & Hreset).
        rewrite (bind_run _ _ _ _ _ Hreset). apply Hrest.
      * rewrite bind_assoc, bind_say. unfold sys_exit. rewrite bind_raise. dead_end.
    + rewrite bind_ret. apply Hrest.
  - rewrite bind_lift_raised. cbn [caught].
    rewrite (is_folder_archived_raises _ _ _ Harch). dead_end.
Qed.

Lemma archive_locally_uploads_catalog_as_intelligent_tiering_witness :
  (<["RCLONE_S3_STORAGE_CLASS" := "INTELLIGENT_TIERING"]> (Rclone_envrn sample_config))
    !! "RCLONE_S3_STORAGE_CLASS" = Some "INTELLIGENT_TIERING"
  /\ exists before after,
       terminal (snd (archive_locally sample_archiver (sample_tools (fun _ => true))
                        "/data/y" false [] false true false fresh_world))
       = (before
          ++ [RcloneRan (Rclone_envrn sample_config)
                (copy_command "/data/y" ":s3:bucket/archive/data/y") true;
              Said MsgDone;
              Said MsgUploadingCatalog;
              RcloneRan
                (<["RCLONE_S3_STORAGE_CLASS" := "INTELLIGENT_TIERING"]>
                   (Rclone_envrn sample_config))
                (copy_command "/data/y/Froster.allfiles.csv" ":s3:bucket/archive/data/y")
                true]
          ++ after)%list.
Proof.
  apply (archive_locally_uploads_catalog_as_intelligent_tiering
           sample_archiver (sample_tools (fun _ => true)) "/data/y" false [] false
           true false fresh_world).
  vm_compute. reflexivity.
Defined.

(** In that run of [/data/y] nothing qualified for packing: no tar is
    left, and the catalog lists the one file as not tarred. *)
Example nothing_packed_in_data_y :
  let w' := snd (archive_locally sample_archiver (sample_tools (fun _ => true))
                   "/data/y" false [] false true false fresh_world) in
  os_path_exists w' "/data/y" smallfiles_tar_filename = false
  /\ List.map (fun r => (row_file r, row_tarred r)) (catalog_rows w' "/data/y")
     = [("b.bin", "No")].
Proof. vm_compute. split; reflexivity. Qed.

(* --------------------------------------------------------------------- *)
(** ** Directory listings under removal and writing                       *)
(* --------------------------------------------------------------------- *)

Lemma find_file_Some_name (name : string) (l : list file) (f : file) :
  find_file name l = Some f -> fname f = name /\ f ∈ l.
Proof.
  unfold find_file. intros H. apply find_some in H as [Hin Heq].
  apply String.eqb_eq in Heq. split; [exact Heq | now apply list_elem_of_In].
Qed.

Lemma find_file_filter_ne (name name' : string) (l : list file) :
  name <> name' ->
  find_file name (List.filter (fun g => negb (String.eqb (fname g) name')) l)
  = find_file name l.
Proof.
  intros Hne. induction l as [|g l IH]; [reflexivity|].
  cbn [List.filter find_file List.find].
  destruct (String.eqb (fname g) name') eqn:Hg; cbn [negb].
  - apply String.eqb_eq in Hg.
    destruct (String.eqb (fname g) name) eqn:Hn; [|exact IH].
    apply String.eqb_eq in Hn. congruence.
  - cbn [find_file List.find]. destruct (String.eqb (fname g) name); [reflexivity|exact IH].
Qed.

Lemma find_file_filter_same (name : string) (l : list file) :
  find_file name (List.filter (fun g => negb (String.eqb (fname g) name)) l) = None.
Proof.
  induction l as [|g l IH]; [reflexivity|]. cbn [List.filter].
  destruct (String.eqb (fname g) name) eqn:Hg; cbn [negb]; [exact IH|].
  cbn [find_file List.find]. now rewrite Hg.
Qed.

Lemma find_file_map (name : string) (h : file -> file) (l : list file) :
  (forall g, fname (h g) = fname g) ->
  find_file name (List.map h l) = h <$> find_file name l.
Proof.
  intros Hh. induction l as [|g l IH]; [reflexivity|].
  cbn [List.map find_file List.find]. rewrite Hh.
  destruct (String.eqb (fname g) name); [reflexivity | exact IH].
Qed.

Lemma find_file_app (name : string) (l : list file) (f : file) :
  find_file name (l ++ [f])
  = match find_file name l with
    | Some g => Some g
    | None => if String.eqb (fname f) name then Some f else None
    end.
Proof.
  induction l as [|g l IH]; [reflexivity|].
  cbn [app find_file List.find].
  destruct (String.eqb (fname g) name); [reflexivity | exact IH].
Qed.

Lemma lookup_path_set_fs_same (w : world) (folder name : string) (l : list file) :
  lookup_path (set_fs (<[folder := l]> (fs w)) w) folder name = find_file name l.
Proof. unfold lookup_path. cbn [fs set_fs]. now rewrite lookup_insert_eq. Qed.

Lemma lookup_path_set_fs_other (w : world) (folder folder' name : string)
    (l : list file) :
  folder' <> folder ->
  lookup_path (set_fs (<[folder' := l]> (fs w)) w) folder name
  = lookup_path w folder name.
Proof.
  intros Hne. unfold lookup_path. cbn [fs set_fs]. now rewrite lookup_insert_ne.
Qed.

(** A successful write leaves the written data under the name. *)
Lemma lookup_write_file_same (t : tools) (folder name : string) (data : content)
    (w w' : world) :
  write_file t folder name data w = (Ok tt, w') ->
  exists f, lookup_path w' folder name = Some f /\ fname f = name /\ fdata f = data
            /\ is_dir_kind (fkind f) = false.
Proof.
  unfold write_file. destruct (fs w !! folder) as [l|] eqn:Hl; [|discriminate].
  destruct (find_file name l) as [f|] eqn:Hf.
  - destruct (is_dir_kind (fkind f)) eqn:Hkind; [discriminate|]. intros [= <-].
    rewrite lookup_path_set_fs_same, find_file_map.
    + rewrite Hf. cbn. apply find_file_Some_name in Hf as [Hname _].
      rewrite Hname, String.eqb_refl. eexists. repeat split. exact Hkind.
    + intros g. destruct (String.eqb (fname g) name) eqn:Hg; [|reflexivity].
      now apply String.eqb_eq in Hg.
  - intros [= <-]. rewrite lookup_path_set_fs_same, find_file_app, Hf.
    cbn [fname]. rewrite String.eqb_refl. eexists. repeat split.
Qed.

(** Writing one name leaves the entries of every other name as they are. *)
Lemma lookup_write_file_other (t : tools) (folder' name' : string) (data : content)
    (w : world) (folder name : string) :
  name <> name' ->
  lookup_path (snd (write_file t folder' name' data w)) folder name
  = lookup_path w folder name.
Proof.
  intros Hne. unfold write_file.
  destruct (fs w !! folder') as [l|] eqn:Hl; [|reflexivity].
  assert (Hsame : forall l',
             find_file name l' = find_file name l ->
             lookup_path (set_fs (<[folder' := l']> (fs w)) w) folder name
             = lookup_path w folder name).
  { intros l' Hl'. destruct (decide (folder' = folder)) as [->|Hf].
    - rewrite lookup_path_set_fs_same, Hl'. unfold lookup_path. now rewrite Hl.
    - now apply lookup_path_set_fs_other. }
  destruct (find_file name' l) as [f|] eqn:Hf.
  - destruct (is_dir_kind (fkind f)); [reflexivity|]. cbn [snd]. apply Hsame.
    rewrite find_file_map.
    + destruct (find_file name l) as [g|] eqn:Hg; [|reflexivity]. cbn.
      apply find_file_Some_name in Hg as [Hg _].
      destruct (String.eqb (fname g) name') eqn:Hg'; [|reflexivity].
      apply String.eqb_eq in Hg'. congruence.
    + intros g. destruct (String.eqb (fname g) name') eqn:Hg; [|reflexivity].
      now apply String.eqb_eq in Hg.
  - cbn [snd]. apply Hsame. rewrite find_file_app.
    destruct (find_file name l); [reflexivity|]. cbn [fname].
    destruct (String.eqb name' name) eqn:Hn; [apply String.eqb_eq in Hn; congruence|].
    reflexivity.
Qed.

Lemma lookup_write_file_other_folder (t : tools) (folder' name' : string)
    (data : content) (w : world) (folder name : string) :
  folder' <> folder ->
  lookup_path (snd (write_file t folder' name' data w)) folder name
  = lookup_path w folder name.
Proof.
  intros Hne. unfold write_file.
  destruct (fs w !! folder') as [l|]; [|reflexivity].
  destruct (find_file name' l) as [f|].
  - destruct (is_dir_kind (fkind f)); [reflexivity|].
    now apply lookup_path_set_fs_other.
  - now apply lookup_path_set_fs_other.
Qed.

Lemma write_file_raised (t : tools) (folder name : string) (data : content)
    (w w' : world) (e : exn) :
  write_file t folder name data w = (Raised e, w') -> w' = w.
Proof.
  unfold write_file. destruct (fs w !! folder) as [l|]; [|now intros [= _ <-]].
  destruct (find_file name l) as [f|]; [|discriminate].
  destruct (is_dir_kind (fkind f)); [now intros [= _ <-] | discriminate].
Qed.

(** Removing one name leaves the entries of every other name as they are. *)
Lemma lookup_os_remove_other (folder' name' : string) (w : world)
    (folder name : string) :
  name <> name' ->
  lookup_path (snd (os_remove folder' name' w)) folder name = lookup_path w folder name.
Proof.
  intros Hne. unfold os_remove.
  destruct (fs w !! folder') as [l|] eqn:Hl; [|reflexivity].
  destruct (find_file name' l) as [f|]; [|reflexivity].
  assert (Hgoal :
            lookup_path
              (set_fs (<[folder' := List.filter (fun g => negb (String.eqb (fname g) name')) l]>
                         (fs w)) w) folder name
            = lookup_path w folder name).
  { destruct (decide (folder' = folder)) as [->|Hf].
    - rewrite lookup_path_set_fs_same, find_file_filter_ne by exact Hne.
      unfold lookup_path. now rewrite Hl.
    - now apply lookup_path_set_fs_other. }
  destruct (fkind f); first [reflexivity | exact Hgoal].
Qed.

(** A successful removal leaves no entry under the name. *)
Lemma lookup_os_remove_same (folder name : string) (w w' : world) :
  os_remove folder name w = (Ok tt, w') -> lookup_path w' folder name = None.
Proof.
  unfold os_remove. destruct (fs w !! folder) as [l|]; [|discriminate].
  destruct (find_file name l) as [f|]; [|discriminate].
  destruct (fkind f); try discriminate; intros [= <-];
    rewrite lookup_path_set_fs_same; apply find_file_filter_same.
Qed.

Lemma still_there_refl (folder name : string) (w : world) : still_there folder name w w.
Proof. intros H. exact H. Qed.

Lemma still_there_trans (folder name : string) (w1 w2 w3 : world) :
  still_there folder name w1 w2 -> still_there folder name w2 w3 ->
  still_there folder name w1 w3.
Proof. unfold still_there. auto. Qed.

Lemma still_there_lookup (folder name : string) (w w' : world) :
  lookup_path w' folder name = lookup_path w folder name -> still_there folder name w w'.
Proof. unfold still_there, os_path_exists. now intros ->. Qed.

Lemma there_say (folder name : string) (m : message) :
  respects (still_there folder name) (say m).
Proof. intros w. now apply still_there_lookup. Qed.

Lemma there_print_error (folder name : string) (e : exn) :
  respects (still_there folder name) (print_error e).
Proof. intros w. now apply still_there_lookup. Qed.

Lemma there_run_rclone_command (folder name : string) (t : tools)
    (envrn : gmap string string) (command : list string) :
  respects (still_there folder name) (_run_rclone_command t envrn command).
Proof. intros w. now apply still_there_lookup. Qed.

Lemma there_write_file (folder name : string) (t : tools) (folder' name' : string)
    (data : content) :
  respects (still_there folder name) (write_file t folder' name' data).
Proof.
  intros w. destruct (decide (name = name')) as [->|Hname].
  - destruct (decide (folder' = folder)) as [->|Hfolder].
    + destruct (write_file t folder name' data w) as [[[]|e] w1] eqn:Hrun; cbn [snd].
      * intros _. destruct (lookup_write_file_same _ _ _ _ _ _ Hrun) as (f & Hf & _).
        unfold os_path_exists. now rewrite Hf.
      * apply write_file_raised in Hrun. subst w1. apply still_there_refl.
    + apply still_there_lookup. now apply lookup_write_file_other_folder.
  - apply still_there_lookup. now apply lookup_write_file_other.
Qed.

Lemma there_delete_file (folder name root : string) (deleted_files : list string)
    (file : string) :
  is_kept_by_delete name = true ->
  respects (still_there folder name) (delete_file root deleted_files file).
Proof.
  intros Hkept w. unfold delete_file.
  destruct (is_kept_by_delete file) eqn:Hfile; [apply still_there_refl|].
  unfold bind. pose proof (lookup_os_remove_other root file w folder name) as Hlook.
  destruct (os_remove root file w) as [[[]|e] w1]; cbn [snd ret] in *;
    apply still_there_lookup, Hlook; congruence.
Qed.

Ltac there_prim :=
  first
    [ apply there_say | apply there_print_error | apply there_run_rclone_command
    | apply there_write_file ].

Ltac there_step folder name :=
  respects_step (still_there_refl folder name) (still_there_trans folder name) there_prim.

(** [delete_locally] removes no entry that its loop passes over. *)
Lemma delete_locally_keeps (a : archiver) (t : tools) (folder_to_delete : string)
    (folder name : string) :
  is_kept_by_delete name = true ->
  respects (still_there folder name) (delete_locally a t folder_to_delete).
Proof.
  intros Hkept. unfold delete_locally, rclone_checksum.
  repeat there_step folder name.
  now apply there_delete_file.
Qed.

(* --------------------------------------------------------------------- *)
(** ** What the manifest lists and what delete passes over                *)
(* --------------------------------------------------------------------- *)

(** Hashing reads only: the lines carry the names in order. *)
Lemma map_m_md5sum (t : tools) (directory : string) (files : list string)
    (w w' : world) (lines : list (string * string)) :
  map_m (fun file => bind (md5sum t directory file) (fun md5 => ret (md5, file))) files w
  = (Ok lines, w') ->
  w' = w /\ List.map snd lines = files.
Proof.
  revert lines. induction files as [|file files IH]; intros lines; cbn [map_m].
  - intros [= <- <-]. now split.
  - unfold bind at 1. unfold bind at 1. unfold md5sum at 1. unfold bind at 1.
    unfold os_lstat. destruct (lookup_path w directory file) as [f|]; [|discriminate].
    cbn [ret]. unfold bind at 1.
    destruct (map_m _ files w) as [[rest|e] w1] eqn:Hrest; [|discriminate].
    intros [= <- <-]. destruct (IH rest eq_refl) as [-> Hnames].
    split; [reflexivity|]. cbn. now rewrite Hnames.
Qed.

(** When [_gen_md5sums] succeeds, the hash file lists names that passed
    its test, in some state of the run. *)
Lemma gen_md5sums_lists_hashed (t : tools) (directory hash_file : string)
    (w w' : world) (name : string) :
  _gen_md5sums t directory hash_file w = (Ok true, w') ->
  name ∈ List.map snd (manifest_lines w' directory hash_file) ->
  exists w1, is_hashed w1 directory hash_file name = true.
Proof.
  unfold _gen_md5sums, try_except. rewrite bind_get.
  destruct (_walker_first w directory) as [[dirs files]|]; [|discriminate].
  destruct (write_file t directory hash_file (HashFile []) w) as [[[]|e] w1] eqn:Hopen.
  2:{ rewrite (bind_run_raised _ _ _ _ _ Hopen). cbn [caught].
      destruct (is_Exception e); discriminate. }
  rewrite (bind_run _ _ _ _ _ Hopen), bind_get.
  destruct (map_m (fun file => bind (md5sum t directory file) (fun md5 => ret (md5, file)))
              (List.filter (is_hashed w1 directory hash_file) files) w1)
    as [[lines|e] w2] eqn:Hlines.
  2:{ rewrite (bind_run_raised _ _ _ _ _ Hlines). cbn [caught].
      destruct (is_Exception e); discriminate. }
  rewrite (bind_run _ _ _ _ _ Hlines).
  destruct (map_m_md5sum _ _ _ _ _ _ Hlines) as [-> Hnames].
  destruct (write_file t directory hash_file (HashFile lines) w1) as [[[]|e] w3] eqn:Hclose.
  2:{ rewrite (bind_run_raised _ _ _ _ _ Hclose). cbn [caught].
      destruct (is_Exception e); discriminate. }
  rewrite (bind_run _ _ _ _ _ Hclose).
  destruct (Z.eqb (hash_file_size lines) 0).
  { unfold bind. destruct (os_remove directory hash_file w3) as [[[]|e] w4];
      cbn [caught ret]; [discriminate|]. destruct (is_Exception e); discriminate. }
  cbn [ret caught]. intros [= <-].
  destruct (lookup_write_file_same _ _ _ _ _ _ Hclose) as (f & Hf & _ & Hdata & _).
  unfold manifest_lines. rewrite Hf, Hdata, Hnames.
  intros Hin. exists w1. apply list_elem_of_In, filter_In in Hin. tauto.
Qed.

(** C3 (as stated, refuted).  The manifest written over a folder that holds
    the catalog and the small-files tar lists both of them, and a
    successful delete removes the tar. *)
Lemma catalog_and_tar_are_hashed_and_tar_is_deleted :
  List.map snd
    (manifest_lines
       (snd (_gen_md5sums (sample_tools (fun _ => true)) "/data/x" md5sum_filename
               cataloged_world))
       "/data/x" md5sum_filename)
  = ["a.bin"; "exact.bin"; "Froster.smallfiles.tar"; "Froster.allfiles.csv"]
  /\ os_path_exists archived_world "/data/x" smallfiles_tar_filename = true
  /\ os_path_exists
       (snd (delete_locally sample_archiver (sample_tools (fun _ => true)) "/data/x"
               archived_world))
       "/data/x" smallfiles_tar_filename = false.
Proof. vm_compute. repeat split. Qed.

(** C3 (amended).  A manifest that [_gen_md5sums] writes lists none of
    [.froster.md5sum], [.froster-restored.md5sum],
    [Where-did-the-files-go.txt] and the manifest itself; and
    [delete_locally] removes none of [.froster.md5sum],
    [.froster-restored.md5sum], [Froster.allfiles.csv] and
    [Where-did-the-files-go.txt]. *)
Theorem meta_files_kept_out_of_manifest_and_delete :
  (forall (t : tools) (directory hash_file : string) (w w' : world) (name : string),
     _gen_md5sums t directory hash_file w = (Ok true, w') ->
     name ∈ List.map snd (manifest_lines w' directory hash_file) ->
     name <> hash_file
     /\ name ∉ [md5sum_filename; md5sum_restored_filename;
                where_did_the_files_go_filename])
  /\ (forall (a : archiver) (t : tools) (folder_to_delete : string) (w : world)
             (name : string),
        name ∈ [md5sum_filename; md5sum_restored_filename; allfiles_csv_filename;
                where_did_the_files_go_filename] ->
        os_path_exists w folder_to_delete name = true ->
        os_path_exists (snd (delete_locally a t folder_to_delete w))
          folder_to_delete name = true).
Proof.
  split.
  - intros t directory hash_file w w' name Hrun Hin.
    destruct (gen_md5sums_lists_hashed _ _ _ _ _ _ Hrun Hin) as [w1 Hhashed].
    unfold is_hashed in Hhashed.
    repeat (apply andb_true_iff in Hhashed as [Hhashed ?]).
    repeat match goal with
           | H : negb (String.eqb _ _) = true |- _ =>
               apply negb_true_iff, String.eqb_neq in H
           end.
    split; [assumption|].
    rewrite !not_elem_of_cons. repeat split; try assumption. apply not_elem_of_nil.
  - intros a t folder_to_delete w name Hin.
    apply (delete_locally_keeps a t folder_to_delete folder_to_delete name).
    rewrite !elem_of_cons in Hin.
    destruct Hin as [-> | [-> | [-> | [-> | Hin]]]]; [reflexivity.. | inversion Hin].
Qed.

Lemma meta_files_kept_out_of_manifest_and_delete_witness :
  (forall name,
     name ∈ List.map snd
              (manifest_lines
                 (snd (_gen_md5sums (sample_tools (fun _ => true)) "/data/x"
                         md5sum_filename cataloged_world))
                 "/data/x" md5sum_filename) ->
     name <> md5sum_filename
     /\ name ∉ [md5sum_filename; md5sum_restored_filename;
                where_did_the_files_go_filename])
  /\ os_path_exists
       (snd (delete_locally sample_archiver (sample_tools (fun _ => true)) "/data/x"
               archived_world))
       "/data/x" allfiles_csv_filename = true.
Proof.
  destruct meta_files_kept_out_of_manifest_and_delete as [Hmanifest Hdelete].
  split.
  - intros name.
    apply (Hmanifest (sample_tools (fun _ => true)) "/data/x" md5sum_filename
             cataloged_world
             (snd (_gen_md5sums (sample_tools (fun _ => true)) "/data/x"
                     md5sum_filename cataloged_world))).
    vm_compute. reflexivity.
  - apply (Hdelete sample_archiver (sample_tools (fun _ => true)) "/data/x"
             archived_world allfiles_csv_filename).
    + rewrite !elem_of_cons. right. right. left. reflexivity.
    + vm_compute. reflexivity.
Defined.

(* --------------------------------------------------------------------- *)
(** ** Packing small files                                                *)
(* --------------------------------------------------------------------- *)

Lemma os_remove_ok (folder name : string) (w : world) (f : file) :
  lookup_path w folder name = Some f ->
  is_dir_kind (fkind f) = false ->
  exists w', os_remove folder name w = (Ok tt, w').
Proof.
  unfold lookup_path, os_remove. destruct (fs w !! folder) as [l|]; [|discriminate].
  intros -> Hkind. destruct (fkind f); try discriminate; eexists; reflexivity.
Qed.

Lemma write_file_ok (t : tools) (folder name : string) (data : content)
    (w : world) (f : file) :
  lookup_path w folder name = Some f ->
  is_dir_kind (fkind f) = false ->
  exists w', write_file t folder name data w = (Ok tt, w').
Proof.
  unfold lookup_path, write_file. destruct (fs w !! folder) as [l|]; [|discriminate].
  intros -> ->. eexists. reflexivity.
Qed.

Lemma write_file_new_ok (t : tools) (folder name : string) (data : content)
    (w : world) (l : list file) :
  fs w !! folder = Some l ->
  find_file name l = None ->
  exists w', write_file t folder name data w = (Ok tt, w').
Proof. unfold write_file. intros -> ->. eexists. reflexivity. Qed.

Section PackLoop.

Variable t : tools.
Variable directory : string.
Variable smallsize : Z.
Variable is_tar : bool.
Variable l0 : list file.

(** The loop of [_gen_allfiles_and_tar] over names whose entries are
    still those of the listing [l0]: it returns, removes exactly the small
    ones, and extends the tar members and the rows by those of [l0]. *)
Lemma pack_loop (files : list string) :
  forall (acc : pack_state) (w : world),
    NoDup files ->
    (forall n, n ∈ files -> n <> allfiles_csv_filename ->
       exists f, lookup_path w directory n = Some f /\ find_file n l0 = Some f
                 /\ is_dir_kind (fkind f) = false) ->
    exists acc' w',
      fold_m (pack_file t directory smallsize is_tar) files acc w = (Ok acc', w')
      /\ (forall m f, m ∈ files -> m <> allfiles_csv_filename ->
            find_file m l0 = Some f -> is_small smallsize is_tar f = true ->
            lookup_path w' directory m = None)
      /\ (forall m,
            ~ (m ∈ files /\ m <> allfiles_csv_filename
               /\ exists f, find_file m l0 = Some f
                            /\ is_small smallsize is_tar f = true) ->
            lookup_path w' directory m = lookup_path w directory m)
      /\ tar_members acc'
         = (tar_members acc ++ packed_of smallsize is_tar l0 files)%list
      /\ csv_rows acc' = (csv_rows acc ++ rows_of t smallsize is_tar l0 files)%list
      /\ didtar acc'
         = didtar acc
           || match packed_of smallsize is_tar l0 files with [] => false | _ => true end.
Proof.
  induction files as [|n files IH]; intros acc w Hnodup Hpresent.
  - exists acc, w. cbn [fold_m ret packed_of rows_of flat_map].
    rewrite !app_nil_r, orb_false_r. repeat split; try reflexivity.
    intros m f Hin. inversion Hin.
  - apply NoDup_cons in Hnodup as [Hn Hnodup].
    cbn [fold_m]. unfold pack_file at 1.
    cbn [packed_of rows_of flat_map].
    fold (packed_of smallsize is_tar l0 files). fold (rows_of t smallsize is_tar l0 files).
    destruct (String.eqb n allfiles_csv_filename) eqn:Hcsv.
    + (* the catalog itself is passed over *)
      apply String.eqb_eq in Hcsv. rewrite bind_ret.
      destruct (IH acc w Hnodup) as (acc' & w' & Hrun & Hgone & Hkept & Htar & Hrows & Hdid).
      { intros m Hm. apply Hpresent. now right. }
      exists acc', w'. cbn [app]. repeat split; try assumption.
      * intros m f Hm Hne. apply elem_of_cons in Hm as [-> | Hm]; [congruence|].
        now apply Hgone.
      * intros m Hm. apply Hkept. intros (Hin & Hrest). apply Hm. split; [now right | exact Hrest].
    + apply String.eqb_neq in Hcsv.
      destruct (Hpresent n) as (f & Hlook & Hfind & Hkind); [left | exact Hcsv |].
      assert (Hf : File n (fkind f) (fstat f) (fdata f) = f).
      { apply find_file_Some_name in Hfind as [<- _]. now destruct f. }
      assert (Hrow : forall tarred,
                 {| row_file := n; row_size := st_size (fstat f);
                    row_mtime := st_mtime (fstat f); row_atime := st_atime (fstat f);
                    row_owner := user_name t (st_uid (fstat f));
                    row_group := group_name t (st_gid (fstat f));
                    row_permissions := st_mode (fstat f); row_tarred := tarred |}
                 = catalog_row t f tarred).
      { intros tarred. unfold catalog_row.
        apply find_file_Some_name in Hfind as [<- _]. reflexivity. }
      assert (Hstat : os_lstat directory n w = (Ok f, w)).
      { unfold os_lstat. now rewrite Hlook. }
      rewrite bind_assoc, (bind_run _ _ _ _ _ Hstat). cbv zeta. rewrite Hfind, Hf, !Hrow.
      fold (is_small smallsize is_tar f).
      destruct (is_small smallsize is_tar f) eqn:Hsmall.
      * (* packed and removed *)
        destruct (os_remove_ok _ _ _ _ Hlook Hkind) as [w1 Hremove].
        rewrite bind_assoc, (bind_run _ _ _ _ _ Hremove), bind_ret.
        pose proof (lookup_os_remove_other directory n w directory) as Hother.
        rewrite Hremove in Hother. cbn [snd] in Hother.
        destruct (IH {| tar_members := (tar_members acc ++ [f])%list;
                        csv_rows := (csv_rows acc ++ [catalog_row t f "Yes"])%list;
                        didtar := true |} w1 Hnodup)
          as (acc' & w' & Hrun & Hgone & Hkept & Htar & Hrows & Hdid).
        { intros m Hm Hne.
          destruct (Hpresent m) as (g & Hg1 & Hg2 & Hg3); [now right | exact Hne |].
          exists g. rewrite Hother; [easy|]. intros ->. contradiction. }
        exists acc', w'. cbn [tar_members csv_rows didtar] in *.
        rewrite Htar, Hrows, Hdid, <- !app_assoc, orb_true_r. cbn [app].
        repeat split; try assumption.
        -- intros m g Hm Hne Hg Hgsmall. apply elem_of_cons in Hm as [-> | Hm].
           ++ rewrite Hkept; [exact (lookup_os_remove_same _ _ _ _ Hremove)|].
              intros (Hin & _). contradiction.
           ++ now apply (Hgone m g).
        -- intros m Hm. destruct (decide (m = n)) as [-> | Hmn].
           ++ destruct Hm. split; [left|]. split; [exact Hcsv|]. now exists f.
           ++ rewrite Hkept; [now apply Hother|].
              intros (Hin & Hrest). apply Hm. split; [now right | exact Hrest].
      * (* listed only *)
        rewrite bind_ret.
        destruct (IH {| tar_members := tar_members acc;
                        csv_rows := (csv_rows acc ++ [catalog_row t f "No"])%list;
                        didtar := didtar acc |} w Hnodup)
          as (acc' & w' & Hrun & Hgone & Hkept & Htar & Hrows & Hdid).
        { intros m Hm. apply Hpresent. now right. }
        exists acc', w'. cbn [tar_members csv_rows didtar] in *.
        rewrite Htar, Hrows, Hdid, <- !app_assoc. cbn [app].
        repeat split; try assumption.
        -- intros m g Hm Hne Hg Hgsmall. apply elem_of_cons in Hm as [-> | Hm].
           ++ congruence.
           ++ now apply (Hgone m g).
        -- intros m Hm. apply Hkept. intros (Hin & Hrest). apply Hm.
           split; [now right | exact Hrest].
Qed.

End PackLoop.

Lemma find_file_NoDup (l : list file) (f : file) :
  NoDup (List.map fname l) -> f ∈ l -> find_file (fname f) l = Some f.
Proof.
  induction l as [|g l IH]; intros Hnodup Hin; [inversion Hin|].
  cbn [List.map] in Hnodup. apply NoDup_cons in Hnodup as [Hg Hnodup].
  cbn [find_file List.find]. apply elem_of_cons in Hin as [-> | Hin].
  - now rewrite String.eqb_refl.
  - destruct (String.eqb (fname g) (fname f)) eqn:Heq; [|now apply IH].
    apply String.eqb_eq in Heq. destruct Hg. rewrite Heq.
    apply list_elem_of_In, in_map, list_elem_of_In, Hin.
Qed.

Lemma elem_of_walk_files (l : list file) (n : string) :
  n ∈ walk_files l <-> exists f, f ∈ l /\ is_dir_kind (fkind f) = false /\ fname f = n.
Proof.
  unfold walk_files. rewrite list_elem_of_In, in_map_iff. split.
  - intros (f & Hname & Hin). apply filter_In in Hin as [Hin Hkind].
    exists f. rewrite list_elem_of_In. apply negb_true_iff in Hkind. easy.
  - intros (f & Hin & Hkind & Hname). exists f. split; [exact Hname|].
    apply filter_In. rewrite <- list_elem_of_In, Hkind. easy.
Qed.

Lemma NoDup_walk_files (l : list file) :
  NoDup (List.map fname l) -> NoDup (walk_files l).
Proof.
  unfold walk_files. induction l as [|g l IH]; intros Hnodup; [constructor|].
  cbn [List.map] in Hnodup. apply NoDup_cons in Hnodup as [Hg Hnodup].
  cbn [List.filter]. destruct (negb (is_dir_kind (fkind g))); [|now apply IH].
  cbn [List.map]. apply NoDup_cons. split; [|now apply IH].
  intros Hin. apply Hg. apply list_elem_of_In, in_map_iff in Hin as (f & Hname & Hin).
  apply filter_In in Hin as [Hin _].
  rewrite <- Hname. apply list_elem_of_In, in_map, Hin.
Qed.

Lemma elem_of_packed_of (smallsize : Z) (is_tar : bool) (l0 : list file)
    (files : list string) (f : file) :
  f ∈ packed_of smallsize is_tar l0 files
  <-> exists n, n ∈ files /\ n <> allfiles_csv_filename /\ find_file n l0 = Some f
                /\ is_small smallsize is_tar f = true.
Proof.
  unfold packed_of. rewrite list_elem_of_In, in_flat_map. split.
  - intros (n & Hn & Hin). exists n. rewrite list_elem_of_In.
    destruct (String.eqb n allfiles_csv_filename) eqn:Hcsv; [inversion Hin|].
    apply String.eqb_neq in Hcsv.
    destruct (find_file n l0) as [g|]; [|inversion Hin].
    destruct (is_small smallsize is_tar g) eqn:Hsmall; [|inversion Hin].
    destruct Hin as [-> | []]. easy.
  - intros (n & Hn & Hcsv & Hfind & Hsmall). exists n. rewrite <- list_elem_of_In.
    split; [exact Hn|]. apply String.eqb_neq in Hcsv. rewrite Hcsv, Hfind, Hsmall. now left.
Qed.

Lemma elem_of_rows_of (t : tools) (smallsize : Z) (is_tar : bool) (l0 : list file)
    (files : list string) (r : csv_row) :
  r ∈ rows_of t smallsize is_tar l0 files
  <-> exists n f, n ∈ files /\ n <> allfiles_csv_filename /\ find_file n l0 = Some f
                  /\ r = catalog_row t f
                           (if is_small smallsize is_tar f then "Yes" else "No").
Proof.
  unfold rows_of. rewrite list_elem_of_In, in_flat_map. split.
  - intros (n & Hn & Hin). exists n. apply list_elem_of_In in Hn.
    destruct (String.eqb n allfiles_csv_filename) eqn:Hcsv; [inversion Hin|].
    apply String.eqb_neq in Hcsv.
    destruct (find_file n l0) as [g|]; [|inversion Hin].
    destruct Hin as [<- | []]. exists g. easy.
  - intros (n & f & Hn & Hcsv & Hfind & ->). exists n. rewrite <- list_elem_of_In.
    split; [exact Hn|]. apply String.eqb_neq in Hcsv. rewrite Hcsv, Hfind. now left.
Qed.

Lemma write_file_returns (t : tools) (folder name : string) (data : content)
    (w : world) :
  is_Some (fs w !! folder) ->
  (forall f, lookup_path w folder name = Some f -> is_dir_kind (fkind f) = false) ->
  exists w', write_file t folder name data w = (Ok tt, w').
Proof.
  unfold lookup_path, write_file. intros [l ->] Hkind.
  destruct (find_file name l) as [f|]; [|eexists; reflexivity].
  rewrite (Hkind f eq_refl). eexists. reflexivity.
Qed.

Lemma lookup_path_is_Some (w : world) (folder name : string) (f : file) :
  lookup_path w folder name = Some f -> is_Some (fs w !! folder).
Proof. unfold lookup_path. destruct (fs w !! folder); [eauto | discriminate]. Qed.

Lemma csv_is_not_tar : allfiles_csv_filename <> smallfiles_tar_filename.
Proof. discriminate. Qed.

Lemma tar_is_not_csv : smallfiles_tar_filename <> allfiles_csv_filename.
Proof. discriminate. Qed.

(** The state [_gen_allfiles_and_tar] leaves in a directory that holds no
    small-files tar: the tar holds the packed entries, the catalog one row
    per file, and every other file is gone if packed and untouched if not. *)
Lemma gen_allfiles_and_tar_run (a : archiver) (t : tools) (directory : string)
    (smallsize : Z) (is_tar : bool) (w : world) (l0 : list file) :
  fs w !! directory = Some l0 ->
  NoDup (List.map fname l0) ->
  find_file smallfiles_tar_filename l0 = None ->
  (forall f, find_file allfiles_csv_filename l0 = Some f -> is_dir_kind (fkind f) = false) ->
  exists w',
    _gen_allfiles_and_tar a t directory smallsize is_tar w = (Ok true, w')
    /\ tar_contents w' directory = packed_of smallsize is_tar l0 (walk_files l0)
    /\ catalog_rows w' directory = rows_of t smallsize is_tar l0 (walk_files l0)
    /\ forall f, f ∈ l0 -> is_dir_kind (fkind f) = false ->
                 fname f <> allfiles_csv_filename ->
                 lookup_path w' directory (fname f)
                 = if is_small smallsize is_tar f then None else Some f.
Proof.
  intros Hl0 Hnodup Htar Hcsvkind.
  assert (Hlook0 : forall n, lookup_path w directory n = find_file n l0).
  { intros n. unfold lookup_path. now rewrite Hl0. }
  unfold _gen_allfiles_and_tar, try_except. rewrite bind_get.
  unfold os_path_exists. rewrite Hlook0, Htar.
  unfold _walker_first. rewrite Hl0.
  (* the tar is opened *)
  destruct (write_file_new_ok t directory smallfiles_tar_filename (TarFile []) w l0 Hl0 Htar)
    as [w1 Hw1].
  rewrite (bind_run _ _ _ _ _ Hw1).
  destruct (lookup_write_file_same _ _ _ _ _ _ Hw1) as (T0 & HT0 & _ & _ & HT0kind).
  assert (Hlook1 : forall n, n <> smallfiles_tar_filename ->
                             lookup_path w1 directory n = find_file n l0).
  { intros n Hn. rewrite <- Hlook0.
    pose proof (lookup_write_file_other t directory smallfiles_tar_filename (TarFile [])
                  w directory n Hn) as H. now rewrite Hw1 in H. }
  (* the catalog is opened *)
  destruct (write_file_returns t directory allfiles_csv_filename (CsvFile []) w1) as [w2 Hw2].
  { eapply lookup_path_is_Some, HT0. }
  { intros f. rewrite Hlook1 by exact csv_is_not_tar. apply Hcsvkind. }
  rewrite (bind_run _ _ _ _ _ Hw2).
  destruct (lookup_write_file_same _ _ _ _ _ _ Hw2) as (C0 & HC0 & _ & _ & HC0kind).
  assert (Hlook2 : forall n, n <> allfiles_csv_filename ->
                             lookup_path w2 directory n = lookup_path w1 directory n).
  { intros n Hn.
    pose proof (lookup_write_file_other t directory allfiles_csv_filename (CsvFile [])
                  w1 directory n Hn) as H. now rewrite Hw2 in H. }
  (* the loop *)
  assert (Hnames : forall f, f ∈ l0 ->
                     find_file (fname f) l0 = Some f
                     /\ fname f <> smallfiles_tar_filename).
  { intros f Hin. pose proof (find_file_NoDup l0 f Hnodup Hin) as Hfind.
    split; [exact Hfind|]. intros Heq. rewrite Heq in Hfind. congruence. }
  destruct (pack_loop t directory smallsize is_tar l0 (walk_files l0)
              {| tar_members := []; csv_rows := []; didtar := false |} w2)
    as (acc' & w3 & Hloop & Hgone & Hkept & Hmembers & Hrows & Hdid).
  { now apply NoDup_walk_files. }
  { intros n Hn Hcsv. apply elem_of_walk_files in Hn as (f & Hin & Hkind & <-).
    destruct (Hnames f Hin) as [Hfind Hnottar].
    exists f. rewrite Hlook2, Hlook1 by assumption. easy. }
  rewrite (bind_run _ _ _ _ _ Hloop).
  cbn [tar_members csv_rows didtar app orb] in Hmembers, Hrows, Hdid.
  assert (Htar3 : lookup_path w3 directory smallfiles_tar_filename = Some T0).
  { rewrite Hkept; [now rewrite Hlook2 by exact tar_is_not_csv|].
    intros (_ & _ & f & Hf & _). congruence. }
  assert (Hcsv3 : lookup_path w3 directory allfiles_csv_filename = Some C0).
  { rewrite Hkept; [exact HC0|]. intros (_ & Hne & _). now apply Hne. }
  assert (Hfiles3 : forall f, f ∈ l0 -> is_dir_kind (fkind f) = false ->
                      fname f <> allfiles_csv_filename ->
                      lookup_path w3 directory (fname f)
                      = if is_small smallsize is_tar f then None else Some f).
  { intros f Hin Hkind Hcsv. destruct (Hnames f Hin) as [Hfind Hnottar].
    destruct (is_small smallsize is_tar f) eqn:Hsmall.
    - apply (Hgone (fname f) f); try assumption.
      apply elem_of_walk_files. now exists f.
    - rewrite Hkept; [now rewrite Hlook2, Hlook1 by assumption|].
      intros (_ & _ & g & Hg & Hgsmall). congruence. }
  (* the tar and the catalog are closed *)
  destruct (write_file_ok t directory smallfiles_tar_filename (TarFile (tar_members acc'))
              w3 T0 Htar3 HT0kind) as [w4 Hw4].
  rewrite (bind_run _ _ _ _ _ Hw4).
  destruct (lookup_write_file_same _ _ _ _ _ _ Hw4) as (T1 & HT1 & _ & HT1data & HT1kind).
  assert (Hlook4 : forall n, n <> smallfiles_tar_filename ->
                             lookup_path w4 directory n = lookup_path w3 directory n).
  { intros n Hn.
    pose proof (lookup_write_file_other t directory smallfiles_tar_filename
                  (TarFile (tar_members acc')) w3 directory n Hn) as H.
    now rewrite Hw4 in H. }
  destruct (write_file_ok t directory allfiles_csv_filename (CsvFile (csv_rows acc'))
              w4 C0) as [w5 Hw5].
  { now rewrite Hlook4 by exact csv_is_not_tar. }
  { exact HC0kind. }
  rewrite (bind_run _ _ _ _ _ Hw5).
  destruct (lookup_write_file_same _ _ _ _ _ _ Hw5) as (C1 & HC1 & _ & HC1data & _).
  assert (Hlook5 : forall n, n <> allfiles_csv_filename ->
                             lookup_path w5 directory n = lookup_path w4 directory n).
  { intros n Hn.
    pose proof (lookup_write_file_other t directory allfiles_csv_filename
                  (CsvFile (csv_rows acc')) w4 directory n Hn) as H.
    now rewrite Hw5 in H. }
  destruct (didtar acc') eqn:Hdidtar; cbn [negb].
  - (* something was packed: the tar stays *)
    rewrite bind_ret. cbn [ret caught]. exists w5. split; [reflexivity|].
    split; [|split].
    + unfold tar_contents. rewrite Hlook5 by exact tar_is_not_csv.
      now rewrite HT1, HT1data.
    + unfold catalog_rows. now rewrite HC1, HC1data.
    + intros f Hin Hkind Hcsv. destruct (Hnames f Hin) as [_ Hnottar].
      rewrite Hlook5, Hlook4 by assumption. now apply Hfiles3.
  - (* nothing was packed: the empty tar is removed *)
    destruct (os_remove_ok directory smallfiles_tar_filename w5 T1) as [w6 Hw6].
    { now rewrite Hlook5 by exact tar_is_not_csv. }
    { exact HT1kind. }
    rewrite (bind_run _ _ _ _ _ Hw6). cbn [ret caught]. exists w6. split; [reflexivity|].
    assert (Hlook6 : forall n, n <> smallfiles_tar_filename ->
                               lookup_path w6 directory n = lookup_path w5 directory n).
    { intros n Hn.
      pose proof (lookup_os_remove_other directory smallfiles_tar_filename w5
                    directory n Hn) as H.
      now rewrite Hw6 in H. }
    split; [|split].
    + unfold tar_contents. rewrite (lookup_os_remove_same _ _ _ _ Hw6).
      destruct (packed_of smallsize is_tar l0 (walk_files l0)); [reflexivity|discriminate].
    + unfold catalog_rows. rewrite Hlook6 by exact csv_is_not_tar.
      now rewrite HC1, HC1data.
    + intros f Hin Hkind Hcsv. destruct (Hnames f Hin) as [_ Hnottar].
      rewrite Hlook6, Hlook5, Hlook4 by assumption. now apply Hfiles3.
Qed.

Lemma is_small_spec (smallsize : Z) (is_tar : bool) (f : file) :
  is_small smallsize is_tar f = true
  <-> is_tar = true /\ (st_size (fstat f) < smallsize * 1024)%Z.
Proof. unfold is_small. now rewrite andb_true_iff, Z.ltb_lt. Qed.

(** The catalog is one of froster's own files: when an earlier attempt
    left one behind, the loop passes it over, whatever its size: it is not
    packed, it gets no row, and it is rewritten in place. *)
Example stale_catalog_is_passed_over :
  let w' := snd (_gen_allfiles_and_tar sample_archiver (sample_tools (fun _ => true))
                   "/data/x" 1024 true catalog_left_world) in
  stale_catalog ∈ default [] (fs catalog_left_world !! "/data/x")
  /\ tar_contents w' "/data/x" = [small_txt]
  /\ List.map fname (default [] (fs w' !! "/data/x"))
     = ["a.bin"; "Froster.allfiles.csv"; "Froster.smallfiles.tar"]
  /\ List.map row_file (catalog_rows w' "/data/x") = ["a.bin"; "small.txt"].
Proof.
  cbv zeta. split; [vm_compute; right; right; left|]. vm_compute. repeat split.
Qed.

(** C5.  In a directory without a small-files tar (so that the
    step runs) whose entries have distinct names and whose catalog name is
    not taken by a directory, [_gen_allfiles_and_tar] returns true and, for
    every direct child file other than the catalog itself: the file is in
    [Froster.smallfiles.tar] if and only if packing is on and its size is
    strictly below [thresholdKiB * 1024]; it is gone from the directory
    under the same condition and untouched otherwise; and the catalog has a
    row for it whose [Tarred] flag is [Yes] exactly under that condition
    and [No] exactly otherwise. *)
Theorem gen_allfiles_and_tar_packs_strictly_below_threshold
    (a : archiver) (t : tools) (directory : string) (thresholdKiB : Z)
    (is_tar : bool) (w : world) (l0 : list file) :
  fs w !! directory = Some l0 ->
  NoDup (List.map fname l0) ->
  find_file smallfiles_tar_filename l0 = None ->
  (forall f, find_file allfiles_csv_filename l0 = Some f -> is_dir_kind (fkind f) = false) ->
  exists w',
    _gen_allfiles_and_tar a t directory thresholdKiB is_tar w = (Ok true, w')
    /\ forall f, f ∈ l0 -> is_dir_kind (fkind f) = false ->
                 fname f <> allfiles_csv_filename ->
         let packed := is_tar = true /\ (st_size (fstat f) < thresholdKiB * 1024)%Z in
         (f ∈ tar_contents w' directory <-> packed)
         /\ (lookup_path w' directory (fname f) = None <-> packed)
         /\ (~ packed -> lookup_path w' directory (fname f) = Some f)
         /\ (exists r, r ∈ catalog_rows w' directory /\ row_file r = fname f)
         /\ (forall r, r ∈ catalog_rows w' directory -> row_file r = fname f ->
               (row_tarred r = "Yes" <-> packed) /\ (row_tarred r = "No" <-> ~ packed)).
Proof.
  intros Hl0 Hnodup Htar Hcsvkind.
  destruct (gen_allfiles_and_tar_run a t directory thresholdKiB is_tar w l0
              Hl0 Hnodup Htar Hcsvkind) as (w' & Hrun & Htarred & Hrows & Hfiles).
  exists w'. split; [exact Hrun|].
  intros f Hin Hkind Hcsv packed.
  pose proof (find_file_NoDup l0 f Hnodup Hin) as Hfind.
  assert (Hlisted : fname f ∈ walk_files l0) by (apply elem_of_walk_files; now exists f).
  pose proof (is_small_spec thresholdKiB is_tar f) as Hsmall. fold packed in Hsmall.
  specialize (Hfiles f Hin Hkind Hcsv).
  rewrite Htarred, Hrows.
  split; [|split; [|split; [|split]]].
  - rewrite elem_of_packed_of, <- Hsmall. split.
    + now intros (n & _ & _ & _ & Hs).
    + intros Hs. now exists (fname f).
  - rewrite <- Hsmall, Hfiles. destruct (is_small thresholdKiB is_tar f); easy.
  - rewrite <- Hsmall, Hfiles. destruct (is_small thresholdKiB is_tar f); easy.
  - exists (catalog_row t f (if is_small thresholdKiB is_tar f then "Yes" else "No")).
    split; [|reflexivity]. apply elem_of_rows_of. now exists (fname f), f.
  - intros r Hr Hname. apply elem_of_rows_of in Hr as (n & g & _ & _ & Hg & ->).
    cbn [catalog_row row_file] in Hname.
    assert (g = f) as ->.
    { pose proof (find_file_Some_name _ _ _ Hg) as [Hn _].
      rewrite <- Hn, Hname in Hg. congruence. }
    cbn [catalog_row row_tarred]. rewrite <- Hsmall.
    destruct (is_small thresholdKiB is_tar f); split; split;
      first [easy | intros H; now destruct H].
Qed.

Lemma gen_allfiles_and_tar_packs_strictly_below_threshold_witness :
  exists w',
    _gen_allfiles_and_tar sample_archiver (sample_tools (fun _ => true)) "/data/x"
      1024 true fresh_world = (Ok true, w')
    /\ forall f, f ∈ [a_bin; small_txt; exact_bin] -> is_dir_kind (fkind f) = false ->
                 fname f <> allfiles_csv_filename ->
         let packed := true = true /\ (st_size (fstat f) < 1024 * 1024)%Z in
         (f ∈ tar_contents w' "/data/x" <-> packed)
         /\ (lookup_path w' "/data/x" (fname f) = None <-> packed)
         /\ (~ packed -> lookup_path w' "/data/x" (fname f) = Some f)
         /\ (exists r, r ∈ catalog_rows w' "/data/x" /\ row_file r = fname f)
         /\ (forall r, r ∈ catalog_rows w' "/data/x" -> row_file r = fname f ->
               (row_tarred r = "Yes" <-> packed) /\ (row_tarred r = "No" <-> ~ packed)).
Proof.
  apply (gen_allfiles_and_tar_packs_strictly_below_threshold
           sample_archiver (sample_tools (fun _ => true)) "/data/x" 1024 true
           fresh_world [a_bin; small_txt; exact_bin]).
  - vm_compute. reflexivity.
  - refine (bool_decide_unpack _ _). vm_compute. exact I.
  - vm_compute. reflexivity.
  - intros f Hf. vm_compute in Hf. discriminate Hf.
Defined.

(** The scenario of the specification, with a file of exactly 1024 KiB
    added: only the 100-byte file is packed. *)
Example pack_boundary :
  tar_contents cataloged_world "/data/x" = [small_txt]
  /\ List.map fname (default [] (fs cataloged_world !! "/data/x"))
     = ["a.bin"; "exact.bin"; "Froster.smallfiles.tar"; "Froster.allfiles.csv"]
  /\ List.map (fun r => (row_file r, row_size r, row_tarred r))
       (catalog_rows cataloged_world "/data/x")
     = [("a.bin", 2097152%Z, "No"); ("small.txt", 100%Z, "Yes");
        ("exact.bin", 1048576%Z, "No")].
Proof. vm_compute. repeat split. Qed.

(* --------------------------------------------------------------------- *)
(** ** Adding to the registry                                             *)
(* --------------------------------------------------------------------- *)

(** X1.  Adding an entry leaves every directory as it is.  On a
    registry that is missing or readable, the entry is then what
    [archive_json_get_row] returns for its key, the key counts as archived,
    and the entry stored under any other key is unchanged.  On a registry
    that cannot be parsed the addition is swallowed: the registry stays
    unreadable and every lookup returns [None]. *)
Theorem add_entry_then_get_row (key : string) (value : entry) (w : world) :
  let w' := snd (_archive_json_add_entry key value w) in
  fs w' = fs w
  /\ match archive_json_file w with
     | JsonCorrupt =>
         archive_json_file w' = JsonCorrupt
         /\ forall folder, archive_json_get_row (archive_json_file w') folder = Ok None
     | _ =>
         archive_json_get_row (archive_json_file w') key = Ok (Some value)
         /\ _is_folder_archived (archive_json_file w') key = Ok true
         /\ forall other, other <> key ->
              direct_entry (archive_json_file w') other
              = direct_entry (archive_json_file w) other
     end.
Proof.
  cbv zeta. unfold _archive_json_add_entry.
  destruct (archive_json_file w) as [| |data] eqn:Hreg; cbn [snd fs set_archive_json_file emit archive_json_file].
  - split; [reflexivity|]. unfold _is_folder_archived. cbn [archive_json_get_row].
    rewrite lookup_insert_eq. repeat split.
    intros other Hne. cbn [direct_entry]. now rewrite lookup_insert_ne.
  - split; [reflexivity|]. rewrite Hreg. now split.
  - split; [reflexivity|]. unfold _is_folder_archived. cbn [archive_json_get_row].
    rewrite lookup_insert_eq. repeat split.
    intros other Hne. cbn [direct_entry]. now rewrite lookup_insert_ne.
Qed.

Lemma first_recursive_parent_insert (data : gmap string entry) (key : string)
    (value e : entry) (ps : list string) :
  data !! key = None ->
  is_Some (value !! "archive_mode") ->
  first_recursive_parent data ps = Ok (Some e) ->
  exists e', first_recursive_parent (<[key := value]> data) ps = Ok (Some e').
Proof.
  intros Hfresh [m Hm]. induction ps as [|p ps IH]; cbn [first_recursive_parent]; [discriminate|].
  destruct (decide (p = key)) as [->|Hp].
  - rewrite Hfresh, lookup_insert_eq. unfold getitem. rewrite Hm. cbn [obind].
    intros Hrest. destruct (String.eqb m "Recursive"); [now exists value | now apply IH].
  - rewrite lookup_insert_ne by congruence.
    destruct (data !! p) as [ep|]; [|exact IH].
    destruct (getitem ep "archive_mode") as [mode|err]; cbn [obind]; [|discriminate].
    destruct (String.eqb mode "Recursive"); [intros _; now exists ep | exact IH].
Qed.

(** X2.  Registering a key that had no entry, with an entry
    that carries an archive mode, never makes a folder that counted as
    archived stop counting as archived. *)
Theorem add_entry_keeps_folders_archived (key : string) (value : entry) (w : world)
    (folder : string) :
  direct_entry (archive_json_file w) key = None ->
  is_Some (value !! "archive_mode") ->
  _is_folder_archived (archive_json_file w) folder = Ok true ->
  _is_folder_archived (archive_json_file (snd (_archive_json_add_entry key value w))) folder
  = Ok true.
Proof.
  intros Hfresh Hmode. unfold _is_folder_archived, _archive_json_add_entry.
  destruct (archive_json_file w) as [| |data] eqn:Hreg;
    cbn [snd set_archive_json_file emit archive_json_file archive_json_get_row obind];
    try discriminate.
  cbn [direct_entry] in Hfresh.
  destruct (decide (folder = key)) as [->|Hne].
  - now rewrite lookup_insert_eq.
  - rewrite lookup_insert_ne by congruence.
    destruct (data !! folder) as [e|]; [reflexivity|].
    destruct (first_recursive_parent data (Py.parents folder)) as [[e|]|err] eqn:Hold;
      cbn [obind]; try discriminate.
    intros _.
    destruct (first_recursive_parent_insert data key value e _ Hfresh Hmode Hold) as [e' ->].
    reflexivity.
Qed.

Lemma add_entry_keeps_folders_archived_witness :
  _is_folder_archived
    (archive_json_file
       (snd (_archive_json_add_entry "/data/x/y/z" (sample_entry "/data/x/y/z" "Single")
               (set_archive_json_file (JsonDict sample_registry) fresh_world))))
    "/data/x/y/z/deep"
  = Ok true.
Proof.
  apply (add_entry_keeps_folders_archived "/data/x/y/z" (sample_entry "/data/x/y/z" "Single")
           (set_archive_json_file (JsonDict sample_registry) fresh_world) "/data/x/y/z/deep").
  - vm_compute. reflexivity.
  - vm_compute. eexists. reflexivity.
  - vm_compute. reflexivity.
Defined.

(* --------------------------------------------------------------------- *)
(** ** From the registered entry back to bucket and prefix                *)
(* --------------------------------------------------------------------- *)

Lemma lstrip_not_startswith (c : ascii) (s : string) :
  String.prefix (String c EmptyString) (Py.lstrip c s) = false.
Proof.
  induction s as [|a s IH]; [reflexivity|]. cbn [Py.lstrip].
  destruct (Ascii.eqb a c) eqn:Hac; [exact IH|].
  cbn [String.prefix]. destruct (Ascii.ascii_dec c a) as [->|_]; [|reflexivity].
  now rewrite Ascii.eqb_refl in Hac.
Qed.

Lemma string_app_cons (x : ascii) (a b : string) : String x a ++ b = String x (a ++ b).
Proof. reflexivity. Qed.

Lemma string_app_nil (b : string) : "" ++ b = b.
Proof. reflexivity. Qed.

Lemma prefix_empty (s : string) : String.prefix "" s = true.
Proof. now destruct s. Qed.

Lemma contains_cons_false (needle : string) (c : ascii) (s : string) :
  Py.contains needle (String c s) = false ->
  String.prefix needle (String c s) = false /\ Py.contains needle s = false.
Proof. cbn [Py.contains]. now intros [? ?]%orb_false_iff. Qed.

Lemma split1_at_first (c : ascii) (a b : string) :
  Py.contains (String c EmptyString) a = false ->
  Py.split1 c (a ++ String c b) = [a; b].
Proof.
  induction a as [|x a IH]; intros Hno.
  - rewrite string_app_nil. cbn [Py.split1]. now rewrite Ascii.eqb_refl.
  - apply contains_cons_false in Hno as [Hx Ha].
    rewrite string_app_cons. cbn [Py.split1].
    destruct (Ascii.eqb x c) eqn:Hxc.
    + apply Ascii.eqb_eq in Hxc. subst x. cbn [String.prefix] in Hx.
      destruct (Ascii.ascii_dec c c); [|contradiction]. now rewrite prefix_empty in Hx.
    + now rewrite (IH Ha).
Qed.

Lemma replace_scan_absent (old new s : string) (c : ascii) (old' : string) :
  old = String c old' ->
  Py.contains (String c EmptyString) s = false ->
  Py.replace_scan old new 0 s = s.
Proof.
  intros ->. induction s as [|x s IH]; intros Hno; [reflexivity|].
  apply contains_cons_false in Hno as [Hx Hs].
  cbn [Py.replace_scan]. 
  assert (Hpre : String.prefix (String c old') (String x s) = false).
  { cbn [String.prefix] in *. destruct (Ascii.ascii_dec c x); [|reflexivity].
    now rewrite prefix_empty in Hx. }
  rewrite Hpre. now rewrite (IH Hs).
Qed.

Lemma replace_s3_marker (bucket : string) :
  Py.contains ":" bucket = false ->
  Py.replace (":s3:" ++ bucket) ":s3:" "" = bucket.
Proof.
  intros Hno. unfold Py.replace. 
  change (":s3:" ++ bucket) with (String ":" (String "s" (String "3" (String ":" bucket)))).
  cbn [Py.replace_scan String.length Nat.sub].
  assert (Hpre : String.prefix ":s3:" (String ":" (String "s" (String "3" (String ":" bucket)))) = true).
  { cbn. apply prefix_empty. }
  rewrite Hpre. cbn [String.append].
  now apply (replace_scan_absent ":s3:" "" bucket ":"%char "s3:").
Qed.

Lemma drop_app_length (a t : string) (n : nat) :
  Py.drop (String.length a + n) (a ++ t) = Py.drop n t.
Proof. induction a as [|x a IH]; [reflexivity|]. rewrite string_app_cons. exact IH. Qed.

Lemma last_chars_1_app (a : string) (c : ascii) (b : string) :
  Py.last_chars 1 (a ++ String c b) = Py.last_chars 1 (String c b).
Proof.
  unfold Py.last_chars. rewrite string_length_app. cbn [String.length].
  replace (String.length a + S (String.length b) - 1)
    with (String.length a + String.length b) by lia.
  rewrite drop_app_length. f_equal. lia.
Qed.

Lemma string_app_assoc (a b c : string) : (a ++ b) ++ c = a ++ b ++ c.
Proof. induction a as [|x a IH]; [reflexivity|]. rewrite !string_app_cons. now rewrite IH. Qed.

Lemma last_char_absent (c : ascii) (s : string) :
  Py.contains (String c EmptyString) s = false ->
  String.eqb (Py.last_chars 1 s) (String c EmptyString) = false.
Proof.
  induction s as [|x s IH]; intros Hno; [reflexivity|].
  apply contains_cons_false in Hno as [Hx Hs].
  destruct s as [|y s].
  - cbn [String.prefix] in Hx. cbn. destruct (Ascii.ascii_dec c x) as [->|Hcx].
    + discriminate.
    + destruct (Ascii.eqb x c) eqn:Hxc; [|reflexivity].
      apply Ascii.eqb_eq in Hxc. congruence.
  - change (String x (String y s)) with (String x EmptyString ++ String y s).
    rewrite last_chars_1_app. now apply IH.
Qed.

(** The destination of [archive_locally] is the bucket marker, a slash and
    the key prefix. *)
Lemma archive_s3_dest_shape (c : config) (folder : string) :
  Py.startswith (archive_dir c) "/" = false ->
  Py.contains "/" (bucket_name c) = false ->
  archive_s3_dest c folder
  = (":s3:" ++ bucket_name c) ++ "/"
    ++ Py.os_path_join (archive_dir c) (Py.lstrip Py.slash folder).
Proof.
  intros Hdir Hbucket. unfold archive_s3_dest.
  set (b := Py.lstrip Py.slash folder).
  assert (Hb : Py.startswith b "/" = false) by apply lstrip_not_startswith.
  set (X := ":s3:" ++ bucket_name c).
  assert (HX : Py.contains "/" X = false).
  { subst X. simpl. exact Hbucket. }
  assert (Hinner : Py.os_path_join X (archive_dir c) = X ++ "/" ++ archive_dir c).
  { unfold Py.os_path_join. rewrite Hdir, (last_char_absent _ _ HX).
    subst X. reflexivity. }
  rewrite Hinner. unfold Py.os_path_join. rewrite Hb.
  destruct (archive_dir c) as [|d ds].
  - cbn [String.eqb orb]. 
    replace (String.eqb (Py.last_chars 1 (X ++ "/" ++ "")) "/") with true.
    + rewrite orb_true_r. now rewrite string_app_assoc.
    + change ("/" ++ "") with (String "/" ""). now rewrite last_chars_1_app.
  - change (X ++ "/" ++ String d ds) with (X ++ String "/" (String d ds)).
    change (X ++ String "/" (String d ds)) with (X ++ (String "/" EmptyString ++ String d ds)).
    rewrite <- string_app_assoc, last_chars_1_app.
    assert (Hne : String.eqb ((X ++ String "/" "") ++ String d ds) "" = false).
    { subst X. reflexivity. }
    rewrite Hne. cbn [String.eqb orb].
    destruct (String.eqb (Py.last_chars 1 (String d ds)) "/");
      rewrite !string_app_assoc; reflexivity.
Qed.

Lemma new_entry_fields (a : archiver) (t : tools) (w : world) (folder s3_dest : string)
    (is_recursive : bool) (nih : list string) (e : entry) :
  new_entry a t w folder s3_dest is_recursive nih = Ok e ->
  e !! "local_folder" = Some folder
  /\ e !! "archive_folder" = Some s3_dest
  /\ e !! "s3_storage_class" = Some (storage_class (cfg a))
  /\ e !! "archive_mode" = Some (if is_recursive then "Recursive" else "Single").
Proof.
  unfold new_entry, item. destruct nih as [|n0 nih].
  - intros [= <-]. repeat split; reflexivity.
  - destruct (nth_error (n0 :: nih) 0); cbn [obind]; [|discriminate].
    destruct (nth_error (n0 :: nih) 6); cbn [obind]; [|discriminate].
    destruct (nth_error (n0 :: nih) 3); cbn [obind]; [|discriminate].
    intros [= <-]. repeat split; reflexivity.
Qed.

(** X3.  Round trip between the destination that
    [archive_locally] registers and what [archive_get_bucket_info] reads
    back.  With a relative archive directory and a bucket name free of [/]
    and [:], the entry built for [folder] and stored under its key gives
    back the configured bucket, the prefix [archive_dir/folder/] (leading
    slashes of the folder removed, one trailing slash), the recursive flag
    the entry was built with, and the Glacier flag of the configured storage
    class. *)
Theorem archived_entry_gives_back_bucket_and_prefix
    (a : archiver) (t : tools) (w : world) (folder : string) (is_recursive : bool)
    (nih : list string) (e : entry) :
  Py.startswith (archive_dir (cfg a)) "/" = false ->
  Py.contains "/" (bucket_name (cfg a)) = false ->
  Py.contains ":" (bucket_name (cfg a)) = false ->
  archive_json_file w <> JsonCorrupt ->
  new_entry a t w folder (archive_s3_dest (cfg a) folder) is_recursive nih = Ok e ->
  archive_get_bucket_info
    (archive_json_file (snd (_archive_json_add_entry (Py.rstrip Py.slash folder) e w)))
    (Py.rstrip Py.slash folder)
  = Ok (Some (bucket_name (cfg a)),
        Some (Py.os_path_join (archive_dir (cfg a)) (Py.lstrip Py.slash folder) ++ "/"),
        is_recursive,
        existsb (String.eqb (storage_class (cfg a))) ["DEEP_ARCHIVE"; "GLACIER"]).
Proof.
  intros Hdir Hslash Hcolon Hreg Hentry.
  assert (Hrow : archive_json_get_row
                   (archive_json_file
                      (snd (_archive_json_add_entry (Py.rstrip Py.slash folder) e w)))
                   (Py.rstrip Py.slash folder) = Ok (Some e)).
  { unfold _archive_json_add_entry.
    destruct (archive_json_file w) as [| |data]; [|contradiction|];
      cbn [snd set_archive_json_file archive_json_file archive_json_get_row];
      now rewrite lookup_insert_eq. }
  unfold archive_get_bucket_info. rewrite Hrow. cbn [obind].
  destruct (new_entry_fields _ _ _ _ _ _ _ _ Hentry) as (_ & Hfolder & Hclass & Hmode).
  rewrite Hmode. unfold getitem. rewrite Hclass, Hfolder. cbn [obind].
  rewrite (archive_s3_dest_shape _ _ Hdir Hslash).
  change ("/" ++ Py.os_path_join (archive_dir (cfg a)) (Py.lstrip Py.slash folder))
    with (String Py.slash (Py.os_path_join (archive_dir (cfg a)) (Py.lstrip Py.slash folder))).
  rewrite split1_at_first.
  - rewrite (replace_s3_marker _ Hcolon). now destruct is_recursive.
  - simpl. exact Hslash.
Qed.

Lemma archived_entry_gives_back_bucket_and_prefix_witness :
  exists e,
    new_entry sample_archiver (sample_tools (fun _ => true)) fresh_world "/data/x"
      (archive_s3_dest (cfg sample_archiver) "/data/x") true [] = Ok e
    /\ archive_get_bucket_info
         (archive_json_file
            (snd (_archive_json_add_entry (Py.rstrip Py.slash "/data/x") e fresh_world)))
         (Py.rstrip Py.slash "/data/x")
       = Ok (Some "bucket", Some "archive/data/x/", true, true).
Proof.
  eexists. split; [reflexivity|].
  apply (archived_entry_gives_back_bucket_and_prefix sample_archiver
           (sample_tools (fun _ => true)) fresh_world "/data/x" true []).
  - reflexivity.
  - reflexivity.
  - reflexivity.
  - discriminate.
  - reflexivity.
Defined.

(* --------------------------------------------------------------------- *)
(** ** What restore refuses                                               *)
(* --------------------------------------------------------------------- *)

(** A row that the lookup returns is the folder's own or that of a
    Recursive ancestor. *)
Lemma archive_json_get_row_found (data : gmap string entry) (folder : string) (row : entry) :
  archive_json_get_row (JsonDict data) folder = Ok (Some row) ->
  data !! folder = Some row
  \/ row !! "archive_mode" = Some "Recursive".
Proof.
  cbn [archive_json_get_row]. destruct (data !! folder) as [e|].
  - intros [= <-]. now left.
  - intros H. apply first_recursive_parent_found in H as (B & _ & _ & Hmode). now right.
Qed.

(** X4.  On a readable registry whose entries
    are keyed by their [local_folder], [restore] returns [False] exactly
    when the registry has no row for the folder: every other outcome is a
    restore triggered, a restore ongoing, a download, or an exception. *)
Theorem restore_returns_false_only_when_not_registered
    (data : gmap string entry) (s3 : s3_client) (args : restore_args)
    (folder : string) (recursive : bool) :
  map_Forall (fun k (e : entry) => e !! "local_folder" = Some k) data ->
  restore (JsonDict data) s3 args folder recursive = Ok RetFalse
  <-> archive_json_get_row (JsonDict data) folder = Ok None.
Proof.
  intros Hkeyed. unfold restore.
  destruct (archive_json_get_row (JsonDict data) folder) as [[row|]|err] eqn:Hrow;
    cbn [obind]; [|easy|easy].
  split; [|discriminate]. intros Hfalse. exfalso. revert Hfalse.
  assert (Hskip : forall local_folder,
             row !! "local_folder" = Some local_folder ->
             negb (String.eqb folder local_folder)
             && negb match row !! "archive_mode" with
                     | Some mode => if String.eqb mode "Recursive" then true else recursive
                     | None => recursive
                     end = false).
  { intros local_folder Hlocal.
    destruct (archive_json_get_row_found _ _ _ Hrow) as [Hdirect | Hmode].
    - pose proof (Hkeyed _ _ Hdirect) as Hk. cbn in Hk. rewrite Hk in Hlocal.
      injection Hlocal as <-. now rewrite String.eqb_refl.
    - rewrite Hmode. cbn. apply andb_false_r. }
  unfold getitem at 1. destruct (row !! "local_folder") as [local_folder|]; cbn [obind];
    [|discriminate].
  rewrite (Hskip local_folder eq_refl).
  destruct (getitem row "archive_folder") as [archive_folder|]; cbn [obind]; [|discriminate].
  destruct (archive_get_bucket_info (JsonDict data) folder) as [[[[buc pre] recur] isglacier]|];
    cbn [obind]; [|discriminate].
  assert (Hafter : (if nodownload args then Ok (RetInt (-1)) else Raised TypeError)
                   <> Ok RetFalse).
  { destruct (nodownload args); discriminate. }
  destruct isglacier; [|exact Hafter].
  destruct (_glacier_restore _ _ _ _ _ _) as [t|]; cbn [obind]; [|discriminate].
  destruct (unpack4 t) as [[[[trig rest] done] notg]|]; cbn [obind]; [|discriminate].
  destruct (_ || _); [discriminate | exact Hafter].
Qed.

Lemma restore_returns_false_only_when_not_registered_witness :
  restore (JsonDict sample_registry) denied_s3 sample_restore_args "/scratch/new" false
  = Ok RetFalse
  <-> archive_json_get_row (JsonDict sample_registry) "/scratch/new" = Ok None.
Proof.
  apply (restore_returns_false_only_when_not_registered sample_registry denied_s3
           sample_restore_args "/scratch/new" false).
  refine (bool_decide_unpack _ _). vm_compute. exact I.
Defined.

(* --------------------------------------------------------------------- *)
(** ** The lists of the Glacier controller                                *)
(* --------------------------------------------------------------------- *)

Section Glacier.

Variable s3 : s3_client.
Variables bucket prefix : string.
Variable keep_days : Z.
Variable ret_opt : string.
Variable recursive : bool.

Lemma glacier_class_spec (sc : string) :
  existsb (String.eqb sc) glacier_classes = true <-> sc ∈ glacier_classes.
Proof.
  rewrite existsb_exists, list_elem_of_In. split.
  - intros (x & Hin & Heq). apply String.eqb_eq in Heq. now subst.
  - intros Hin. exists sc. split; [exact Hin | apply String.eqb_refl].
Qed.

Lemma glacier_visit_key_right (among : string -> Prop) (acc acc' : key_lists) (k : string) :
  among k ->
  lists_are_right s3 bucket prefix keep_days ret_opt recursive among acc ->
  glacier_visit_key s3 bucket prefix keep_days ret_opt recursive acc k = Ok acc' ->
  lists_are_right s3 bucket prefix keep_days ret_opt recursive among acc'.
Proof.
  intros Hk Hacc. unfold glacier_visit_key.
  destruct (Py.contains "/" (Py.drop (String.length prefix) k) && negb recursive) eqn:Hskip;
    [now intros [= <-]|].
  assert (Hvisited : key_is_visited prefix recursive k = true).
  { unfold key_is_visited. now rewrite Hskip. }
  destruct (head_object s3 bucket k) as [h|] eqn:Hhead; cbn [obind]; [|discriminate].
  destruct (StorageClass h) as [sc|] eqn:Hsc; [|now intros [= <-]].
  assert (Hadd : forall r0 (new : key_lists),
             (forall r, reported r new
                        = (reported r acc ++ if decide (r = r0) then [k] else [])%list) ->
             report_is_right s3 bucket prefix keep_days ret_opt recursive r0 k ->
             lists_are_right s3 bucket prefix keep_days ret_opt recursive among new).
  { intros r0 new Hnew Hright r k'. rewrite Hnew.
    intros [Hin | Hin]%elem_of_app; [now apply Hacc|].
    destruct (decide (r = r0)) as [->|_]; [|inversion Hin].
    apply list_elem_of_singleton in Hin. now subst k'. }
  destruct (existsb (String.eqb sc) glacier_classes) eqn:Hclass; cbn [negb].
  2:{ intros [= <-]. apply (Hadd NotGlacier).
      - intros []; cbn; now rewrite ?app_nil_r.
      - split; [exact Hvisited|]. exists h, sc. repeat split; try assumption.
        rewrite <- glacier_class_spec, Hclass. discriminate. }
  apply glacier_class_spec in Hclass.
  fold (says_ongoing h "true"). fold (says_ongoing h "false").
  destruct (says_ongoing h "true") eqn:Htrue.
  { intros [= <-]. apply (Hadd Restoring).
    - intros []; cbn; now rewrite ?app_nil_r.
    - split; [exact Hvisited|]. exists h, sc. repeat split; try assumption. now left. }
  destruct (says_ongoing h "false") eqn:Hfalse.
  { intros [= <-]. apply (Hadd Restored).
    - intros []; cbn; now rewrite ?app_nil_r.
    - split; [exact Hvisited|]. exists h, sc. repeat split; assumption. }
  destruct (restore_object s3 bucket k keep_days ret_opt) as [[]|err] eqn:Hrestore.
  { intros [= <-]. apply (Hadd Triggered).
    - intros []; cbn; now rewrite ?app_nil_r.
    - split; [exact Hvisited|]. exists h, sc. repeat split; assumption. }
  destruct err; try now intros [= <-].
  destruct (String.eqb code "RestoreAlreadyInProgress") eqn:Hcode; [|now intros [= <-]].
  apply String.eqb_eq in Hcode. subst code.
  intros [= <-]. apply (Hadd Restoring).
  - intros []; cbn; now rewrite ?app_nil_r.
  - split; [exact Hvisited|]. exists h, sc. repeat split; try assumption. now right.
Qed.

Lemma lists_are_right_weaken (among among' : string -> Prop) (l : key_lists) :
  (forall k, among k -> among' k) ->
  lists_are_right s3 bucket prefix keep_days ret_opt recursive among l ->
  lists_are_right s3 bucket prefix keep_days ret_opt recursive among' l.
Proof. intros Himpl Hl r k Hin. destruct (Hl r k Hin) as [Hk Hr]. split; auto. Qed.

Lemma glacier_visit_keys_right (among : string -> Prop) (keys : list string) :
  forall acc acc',
    (forall k, k ∈ keys -> among k) ->
    lists_are_right s3 bucket prefix keep_days ret_opt recursive among acc ->
    glacier_visit_keys s3 bucket prefix keep_days ret_opt recursive acc keys = Ok acc' ->
    lists_are_right s3 bucket prefix keep_days ret_opt recursive among acc'.
Proof.
  induction keys as [|k keys IH]; intros acc acc' Hkeys Hacc; cbn [glacier_visit_keys].
  - now intros [= <-].
  - destruct (glacier_visit_key s3 bucket prefix keep_days ret_opt recursive acc k)
      as [acc1|] eqn:Hstep; cbn [obind]; [|discriminate].
    apply IH.
    + intros k' Hin. apply Hkeys. now right.
    + apply (glacier_visit_key_right among acc acc1 k); [apply Hkeys; left | assumption..].
Qed.

Lemma glacier_visit_pages_right (among : string -> Prop)
    (pages : list (option (list string))) :
  forall acc acc',
    (forall keys k, Some keys ∈ pages -> k ∈ keys -> among k) ->
    lists_are_right s3 bucket prefix keep_days ret_opt recursive among acc ->
    glacier_visit_pages s3 bucket prefix keep_days ret_opt recursive acc pages = Ok acc' ->
    lists_are_right s3 bucket prefix keep_days ret_opt recursive among acc'.
Proof.
  induction pages as [|[keys|] pages IH]; intros acc acc' Hpages Hacc;
    cbn [glacier_visit_pages].
  - now intros [= <-].
  - destruct (glacier_visit_keys s3 bucket prefix keep_days ret_opt recursive acc keys)
      as [acc1|] eqn:Hkeys; cbn [obind]; [|discriminate].
    apply IH.
    + intros keys' k Hin. apply Hpages. now right.
    + apply (glacier_visit_keys_right among keys acc acc1); try assumption.
      intros k Hk. apply (Hpages keys k); [left | exact Hk].
  - apply IH; [|exact Hacc]. intros keys' k Hin. apply Hpages. now right.
Qed.

End Glacier.

(** X5.  When [_glacier_restore] returns its four
    lists, each key is on the list that matches what the object store said
    of it.  A triggered key has a Glacier class, no [ongoing-request] in its
    header and an accepted restore request; a key reported as restoring has
    a Glacier class and either [ongoing-request="true"] or a request refused
    with [RestoreAlreadyInProgress]; a restored key has a Glacier class and
    [ongoing-request="false"]; a key of the last list has a storage class
    that is not a Glacier class. *)
Theorem glacier_restore_reports_each_key_by_its_state
    (s3 : s3_client) (bucket prefix : string) (keep_days : Z) (ret_opt : string)
    (recursive : bool) (trig rest done notg : list string) :
  _glacier_restore s3 bucket prefix keep_days ret_opt recursive
  = Ok [trig; rest; done; notg] ->
  forall k,
    (k ∈ trig ->
     exists h sc,
       head_object s3 bucket k = Ok h /\ StorageClass h = Some sc
       /\ sc ∈ glacier_classes
       /\ says_ongoing h "true" = false /\ says_ongoing h "false" = false
       /\ restore_object s3 bucket k keep_days ret_opt = Ok tt)
    /\ (k ∈ rest ->
        exists h sc,
          head_object s3 bucket k = Ok h /\ StorageClass h = Some sc
          /\ sc ∈ glacier_classes
          /\ (says_ongoing h "true" = true
              \/ restore_object s3 bucket k keep_days ret_opt
                 = Raised (ClientError "RestoreAlreadyInProgress")))
    /\ (k ∈ done ->
        exists h sc,
          head_object s3 bucket k = Ok h /\ StorageClass h = Some sc
          /\ sc ∈ glacier_classes
          /\ says_ongoing h "true" = false /\ says_ongoing h "false" = true)
    /\ (k ∈ notg ->
        exists h sc,
          head_object s3 bucket k = Ok h /\ StorageClass h = Some sc
          /\ sc ∉ glacier_classes).
Proof.
  unfold _glacier_restore.
  destruct (paginate s3 bucket prefix) as [[]|err].
  2:{ destruct err; discriminate. }
  destruct (list_pages s3 bucket prefix) as [pages|err] eqn:Hpages; cbn [obind];
    [|discriminate].
  destruct (glacier_visit_pages _ _ _ _ _ _ _ pages) as [l|] eqn:Hvisit; cbn [obind];
    [|discriminate].
  intros [= <- <- <- <-] k.
  assert (Hright : lists_are_right s3 bucket prefix keep_days ret_opt recursive
                     (fun _ => True) l).
  { eapply (glacier_visit_pages_right s3 bucket prefix keep_days ret_opt recursive
              (fun _ => True) pages); [easy | | exact Hvisit].
    intros r k' Hin. destruct r; inversion Hin. }
  repeat split.
  - intros Hin. destruct (Hright Triggered k Hin) as (_ & _ & h & sc & H). exists h, sc. tauto.
  - intros Hin. destruct (Hright Restoring k Hin) as (_ & _ & h & sc & H). exists h, sc. tauto.
  - intros Hin. destruct (Hright Restored k Hin) as (_ & _ & h & sc & H). exists h, sc. tauto.
  - intros Hin. destruct (Hright NotGlacier k Hin) as (_ & _ & h & sc & H). exists h, sc. tauto.
Qed.

(** X6.  Every key on one of the four lists of
    [_glacier_restore] comes from a page of the listing of the prefix that
    has contents, and without the recursive switch no reported key has a
    [/] after the first [len(prefix)] characters: objects of sub-folders
    are never requested. *)
Theorem glacier_restore_reports_only_listed_keys
    (s3 : s3_client) (bucket prefix : string) (keep_days : Z) (ret_opt : string)
    (recursive : bool) (trig rest done notg : list string) :
  _glacier_restore s3 bucket prefix keep_days ret_opt recursive
  = Ok [trig; rest; done; notg] ->
  forall k, k ∈ (trig ++ rest ++ done ++ notg)%list ->
    (exists pages keys,
       list_pages s3 bucket prefix = Ok pages /\ Some keys ∈ pages /\ k ∈ keys)
    /\ (recursive = false ->
        Py.contains "/" (Py.drop (String.length prefix) k) = false).
Proof.
  unfold _glacier_restore.
  destruct (paginate s3 bucket prefix) as [[]|err].
  2:{ destruct err; discriminate. }
  destruct (list_pages s3 bucket prefix) as [pages|err] eqn:Hpages; cbn [obind];
    [|discriminate].
  destruct (glacier_visit_pages _ _ _ _ _ _ _ pages) as [l|] eqn:Hvisit; cbn [obind];
    [|discriminate].
  intros [= <- <- <- <-] k Hin.
  assert (Hright : lists_are_right s3 bucket prefix keep_days ret_opt recursive
                     (fun k => exists keys, Some keys ∈ pages /\ k ∈ keys) l).
  { eapply (glacier_visit_pages_right s3 bucket prefix keep_days ret_opt recursive
              _ pages); [| | exact Hvisit].
    - intros keys k' Hkeys Hk'. now exists keys.
    - intros r k' Hin'. destruct r; inversion Hin'. }
  assert (Hk : exists r, (exists keys, Some keys ∈ pages /\ k ∈ keys)
                         /\ report_is_right s3 bucket prefix keep_days ret_opt recursive r k).
  { rewrite !elem_of_app in Hin. destruct Hin as [Hin | [Hin | [Hin | Hin]]].
    - exists Triggered. now apply (Hright Triggered).
    - exists Restoring. now apply (Hright Restoring).
    - exists Restored. now apply (Hright Restored).
    - exists NotGlacier. now apply (Hright NotGlacier). }
  destruct Hk as (r & (keys & Hkeys & Hkin) & Hvisited & _). split.
  - now exists pages, keys.
  - intros ->. unfold key_is_visited in Hvisited.
    rewrite andb_true_r in Hvisited. now apply negb_true_iff in Hvisited.
Qed.

Lemma glacier_restore_reports_each_key_by_its_state_witness :
  let k := "archive/data/x/a.bin" in
  let s3 := sample_s3 in
  (k ∈ ["archive/data/x/a.bin"] ->
     exists h sc,
       head_object s3 "bucket" k = Ok h /\ StorageClass h = Some sc
       /\ sc ∈ glacier_classes
       /\ says_ongoing h "true" = false /\ says_ongoing h "false" = false
       /\ restore_object s3 "bucket" k 30 "Bulk" = Ok tt)
    /\ (k ∈ ["archive/data/x/exact.bin"] ->
        exists h sc,
          head_object s3 "bucket" k = Ok h /\ StorageClass h = Some sc
          /\ sc ∈ glacier_classes
          /\ (says_ongoing h "true" = true
              \/ restore_object s3 "bucket" k 30 "Bulk"
                 = Raised (ClientError "RestoreAlreadyInProgress")))
    /\ (k ∈ ["archive/data/x/Froster.smallfiles.tar"] ->
        exists h sc,
          head_object s3 "bucket" k = Ok h /\ StorageClass h = Some sc
          /\ sc ∈ glacier_classes
          /\ says_ongoing h "true" = false /\ says_ongoing h "false" = true)
    /\ (k ∈ ["archive/data/x/Froster.allfiles.csv"] ->
        exists h sc,
          head_object s3 "bucket" k = Ok h /\ StorageClass h = Some sc
          /\ sc ∉ glacier_classes).
Proof.
  apply (glacier_restore_reports_each_key_by_its_state sample_s3 "bucket"
           "archive/data/x/" 30 "Bulk" false).
  vm_compute. reflexivity.
Defined.

Lemma glacier_restore_reports_only_listed_keys_witness :
  (exists pages keys,
     list_pages sample_s3 "bucket" "archive/data/x/" = Ok pages
     /\ Some keys ∈ pages /\ "archive/data/x/Froster.allfiles.csv" ∈ keys)
  /\ (false = false ->
      Py.contains "/" (Py.drop (String.length "archive/data/x/")
                         "archive/data/x/Froster.allfiles.csv") = false).
Proof.
  apply (glacier_restore_reports_only_listed_keys sample_s3 "bucket"
           "archive/data/x/" 30 "Bulk" false
           ["archive/data/x/a.bin"] ["archive/data/x/exact.bin"]
           ["archive/data/x/Froster.smallfiles.tar"]
           ["archive/data/x/Froster.allfiles.csv"]).
  - vm_compute. reflexivity.
  - rewrite !elem_of_app, !list_elem_of_singleton. tauto.
Defined.

(* --------------------------------------------------------------------- *)
(** ** The walker                                                         *)
(* --------------------------------------------------------------------- *)

Lemma walk_roots_step (m : gmap string (list file)) (skip : list string) (fuel : nat) :
  forall top root,
    root ∈ walk_roots m skip fuel top ->
    root = top
    \/ exists parent l f,
         parent ∈ walk_roots m skip fuel top
         /\ m !! parent = Some l /\ f ∈ l
         /\ fkind f = Directory
         /\ (fname f ∉ skip)
         /\ root = Py.os_path_join parent (fname f).
Proof.
  induction fuel as [|fuel IH]; intros top root; cbn [walk_roots]; [intros H; inversion H|].
  destruct (m !! top) as [l|] eqn:Hl; [|intros H; inversion H].
  intros [-> | Hin]%elem_of_cons; [now left|]. right.
  apply list_elem_of_In, in_flat_map in Hin as (f & Hf & Hin).
  destruct (fkind f) eqn:Hkind; try (now inversion Hin).
  destruct (existsb (String.eqb (fname f)) skip) eqn:Hskip; [inversion Hin|].
  assert (Hnot : fname f ∉ skip).
  { intros Hsk. apply not_true_iff_false in Hskip. apply Hskip.
    apply existsb_exists. exists (fname f). split; [now apply list_elem_of_In|].
    apply String.eqb_refl. }
  assert (Hsub : forall r, r ∈ walk_roots m skip fuel (Py.os_path_join top (fname f)) ->
                   r ∈ (top :: flat_map
                          (fun f0 => match fkind f0 with
                                     | Directory =>
                                         if existsb (String.eqb (fname f0)) skip then []
                                         else walk_roots m skip fuel
                                                (Py.os_path_join top (fname f0))
                                     | _ => []
                                     end) l)).
  { intros r Hr. right. apply list_elem_of_In, in_flat_map. exists f. split; [exact Hf|].
    rewrite Hkind, Hskip. now apply list_elem_of_In. }
  apply list_elem_of_In in Hin.
  destruct (IH _ _ Hin) as [-> | (parent & l' & g & Hparent & Hl' & Hg & Hgk & Hgs & ->)].
  - exists top, l, f. repeat split; try assumption; [left | now apply list_elem_of_In].
  - exists parent, l', g. repeat split; try assumption. now apply Hsub.
Qed.

(** X7.  Every root the walker yields is the top folder or
    a sub-directory, not named [.snapshot], of a root the walker yields: no
    directory reached only through a [.snapshot] directory is visited. *)
Theorem walker_never_descends_into_snapshot (w : world) (top root : string) :
  root ∈ _walker_roots w top ->
  root = top
  \/ exists parent l f,
       parent ∈ _walker_roots w top
       /\ fs w !! parent = Some l /\ f ∈ l
       /\ fkind f = Directory
       /\ fname f <> ".snapshot"
       /\ root = Py.os_path_join parent (fname f).
Proof.
  intros Hin. destruct (walk_roots_step _ _ _ _ _ Hin)
    as [-> | (parent & l & f & H1 & H2 & H3 & H4 & H5 & H6)]; [now left|].
  right. exists parent, l, f. repeat split; try assumption.
  intros Heq. apply H5. rewrite Heq. left.
Qed.

Lemma walker_never_descends_into_snapshot_witness :
  "/data/x/y/z" = "/data/x"
  \/ exists parent l f,
       parent ∈ _walker_roots tree_world "/data/x"
       /\ fs tree_world !! parent = Some l /\ f ∈ l
       /\ fkind f = Directory
       /\ fname f <> ".snapshot"
       /\ "/data/x/y/z" = Py.os_path_join parent (fname f).
Proof.
  apply (walker_never_descends_into_snapshot tree_world "/data/x" "/data/x/y/z").
  vm_compute. right. right. left.
Defined.

(* --------------------------------------------------------------------- *)
(** ** What the procedures leave as it is                                 *)
(* --------------------------------------------------------------------- *)

Lemma quiet_say (m : message) : quiet (say m).
Proof. intros w. now split. Qed.

Lemma quiet_print_error (e : exn) : quiet (print_error e).
Proof. intros w. now split. Qed.

Lemma quiet_run_rclone_command (t : tools) (envrn : gmap string string)
    (command : list string) : quiet (_run_rclone_command t envrn command).
Proof. intros w. now split. Qed.

Lemma quiet_os_lstat (folder name : string) : quiet (os_lstat folder name).
Proof. intros w. unfold os_lstat. now destruct (lookup_path w folder name). Qed.

Ltac quiet_prim :=
  first [ apply quiet_say | apply quiet_print_error | apply quiet_run_rclone_command
        | apply quiet_os_lstat ].

Lemma respects_quiet {A} (R : world -> world -> Prop) (m : M A) :
  (forall w w', fs w' = fs w -> archive_json_file w' = archive_json_file w -> R w w') ->
  quiet m -> respects R m.
Proof. intros HR Hm w. destruct (Hm w). now apply HR. Qed.

(** *** The registry *)

Lemma same_registry_refl (w : world) : same_registry w w.
Proof. reflexivity. Qed.

Lemma same_registry_trans (w1 w2 w3 : world) :
  same_registry w1 w2 -> same_registry w2 w3 -> same_registry w1 w3.
Proof. unfold same_registry. congruence. Qed.

Lemma same_registry_quiet (w w' : world) :
  fs w' = fs w -> archive_json_file w' = archive_json_file w -> same_registry w w'.
Proof. now intros _ H. Qed.

Lemma registry_os_remove (folder name : string) : respects same_registry (os_remove folder name).
Proof.
  intros w. unfold os_remove. destruct (fs w !! folder) as [l|]; [|reflexivity].
  destruct (find_file name l) as [f|]; [|reflexivity]. now destruct (fkind f).
Qed.

Lemma registry_write_file (t : tools) (folder name : string) (data : content) :
  respects same_registry (write_file t folder name data).
Proof.
  intros w. unfold write_file. destruct (fs w !! folder) as [l|]; [|reflexivity].
  destruct (find_file name l) as [f|]; [|reflexivity]. now destruct (is_dir_kind (fkind f)).
Qed.

Lemma registry_extract_member (t : tools) (root : string) (m : file) :
  respects same_registry (extract_member t root m).
Proof.
  intros w. unfold extract_member. destruct (fs w !! root) as [l|]; [|reflexivity].
  destruct (find_file (fname m) l) as [f|]; [|reflexivity]. now destruct (fkind f).
Qed.

Ltac registry_prim :=
  first [ apply (respects_quiet same_registry _ same_registry_quiet); quiet_prim
        | apply registry_os_remove | apply registry_write_file
        | apply registry_extract_member ].

Ltac registry_step :=
  respects_step same_registry_refl same_registry_trans registry_prim.

(** *** The other directories *)

Lemma same_elsewhere_refl (folder : string) (w : world) : same_elsewhere folder w w.
Proof. now intros other _. Qed.

Lemma same_elsewhere_trans (folder : string) (w1 w2 w3 : world) :
  same_elsewhere folder w1 w2 -> same_elsewhere folder w2 w3 -> same_elsewhere folder w1 w3.
Proof. intros H1 H2 other Hne. now rewrite H2, H1. Qed.

Lemma same_elsewhere_quiet (folder : string) (w w' : world) :
  fs w' = fs w -> archive_json_file w' = archive_json_file w -> same_elsewhere folder w w'.
Proof. intros H _ other _. now rewrite H. Qed.

Lemma elsewhere_os_remove (folder name : string) :
  respects (same_elsewhere folder) (os_remove folder name).
Proof.
  intros w other Hne. unfold os_remove. destruct (fs w !! folder) as [l|]; [|reflexivity].
  destruct (find_file name l) as [f|]; [|reflexivity].
  destruct (fkind f); cbn [snd fs set_fs]; first [reflexivity | now rewrite lookup_insert_ne].
Qed.

Lemma elsewhere_write_file (t : tools) (folder name : string) (data : content) :
  respects (same_elsewhere folder) (write_file t folder name data).
Proof.
  intros w other Hne. unfold write_file. destruct (fs w !! folder) as [l|]; [|reflexivity].
  destruct (find_file name l) as [f|].
  - destruct (is_dir_kind (fkind f)); cbn [snd fs set_fs];
      first [reflexivity | now rewrite lookup_insert_ne].
  - cbn [snd fs set_fs]. now rewrite lookup_insert_ne.
Qed.

Lemma elsewhere_extract_member (t : tools) (root : string) (m : file) :
  respects (same_elsewhere root) (extract_member t root m).
Proof.
  intros w other Hne. unfold extract_member. destruct (fs w !! root) as [l|]; [|reflexivity].
  destruct (find_file (fname m) l) as [f|].
  - destruct (fkind f); cbn [snd fs set_fs];
      first [reflexivity | now rewrite lookup_insert_ne].
  - cbn [snd fs set_fs]. now rewrite lookup_insert_ne.
Qed.

Lemma elsewhere_archive_json_add_entry (folder key : string) (value : entry) :
  respects (same_elsewhere folder) (_archive_json_add_entry key value).
Proof.
  intros w other _. unfold _archive_json_add_entry. now destruct (archive_json_file w).
Qed.

Ltac elsewhere_prim :=
  first [ apply (respects_quiet (same_elsewhere _) _ (same_elsewhere_quiet _)); quiet_prim
        | apply elsewhere_os_remove | apply elsewhere_write_file
        | apply elsewhere_extract_member | apply elsewhere_archive_json_add_entry ].

Ltac elsewhere_step folder :=
  respects_step (same_elsewhere_refl folder) (same_elsewhere_trans folder) elsewhere_prim.

(** *** One entry of one directory *)

Section Keeps.

Variable Q : option file -> Prop.
Variables folder name : string.

Lemma keeps_refl (w : world) : keeps Q folder name w w.
Proof. now intros H. Qed.

Lemma keeps_trans (w1 w2 w3 : world) :
  keeps Q folder name w1 w2 -> keeps Q folder name w2 w3 -> keeps Q folder name w1 w3.
Proof. unfold keeps. auto. Qed.

Lemma keeps_lookup (w w' : world) :
  lookup_path w' folder name = lookup_path w folder name -> keeps Q folder name w w'.
Proof. unfold keeps. now intros ->. Qed.

Lemma keeps_quiet (w w' : world) :
  fs w' = fs w -> archive_json_file w' = archive_json_file w -> keeps Q folder name w w'.
Proof. intros H _. apply keeps_lookup. unfold lookup_path. now rewrite H. Qed.

Lemma keeps_archive_json_add_entry (key : string) (value : entry) :
  respects (keeps Q folder name) (_archive_json_add_entry key value).
Proof.
  intros w. apply keeps_lookup. unfold _archive_json_add_entry.
  now destruct (archive_json_file w).
Qed.

Lemma lookup_os_remove_other_folder (folder' name' : string) (w : world) :
  folder' <> folder ->
  lookup_path (snd (os_remove folder' name' w)) folder name = lookup_path w folder name.
Proof.
  intros Hne. unfold os_remove. destruct (fs w !! folder') as [l|]; [|reflexivity].
  destruct (find_file name' l) as [f|]; [|reflexivity].
  destruct (fkind f); first [reflexivity | now apply lookup_path_set_fs_other].
Qed.

Lemma os_remove_raised (folder' name' : string) (w w' : world) (e : exn) :
  os_remove folder' name' w = (Raised e, w') -> w' = w.
Proof.
  unfold os_remove. destruct (fs w !! folder') as [l|]; [|now intros [= _ <-]].
  destruct (find_file name' l) as [f|]; [|now intros [= _ <-]].
  destruct (fkind f); first [discriminate | now intros [= _ <-]].
Qed.

Lemma keeps_os_remove (folder' name' : string) :
  name <> name' \/ folder' <> folder \/ Q None ->
  respects (keeps Q folder name) (os_remove folder' name').
Proof.
  intros [Hname | [Hfolder | Habsent]] w.
  - apply keeps_lookup. now apply lookup_os_remove_other.
  - apply keeps_lookup. now apply lookup_os_remove_other_folder.
  - destruct (decide (name = name')) as [<-|Hname];
      [|apply keeps_lookup; now apply lookup_os_remove_other].
    destruct (decide (folder' = folder)) as [->|Hfolder];
      [|apply keeps_lookup; now apply lookup_os_remove_other_folder].
    destruct (os_remove folder name w) as [[[]|e] w1] eqn:Hrun; cbn [snd].
    + intros _. now rewrite (lookup_os_remove_same _ _ _ _ Hrun).
    + apply os_remove_raised in Hrun. subst w1. apply keeps_refl.
Qed.

Lemma keeps_write_file (t : tools) (folder' name' : string) (data : content) :
  name <> name' \/ folder' <> folder
  \/ (forall f, fdata f = data -> is_dir_kind (fkind f) = false -> Q (Some f)) ->
  respects (keeps Q folder name) (write_file t folder' name' data).
Proof.
  intros [Hname | [Hfolder | Hdata]] w.
  - apply keeps_lookup. now apply lookup_write_file_other.
  - apply keeps_lookup. now apply lookup_write_file_other_folder.
  - destruct (decide (name = name')) as [<-|Hname];
      [|apply keeps_lookup; now apply lookup_write_file_other].
    destruct (decide (folder' = folder)) as [->|Hfolder];
      [|apply keeps_lookup; now apply lookup_write_file_other_folder].
    destruct (write_file t folder name data w) as [[[]|e] w1] eqn:Hrun; cbn [snd].
    + intros _. destruct (lookup_write_file_same _ _ _ _ _ _ Hrun) as (f & -> & _ & Hf & Hkind).
      now apply Hdata.
    + apply write_file_raised in Hrun. subst w1. apply keeps_refl.
Qed.

End Keeps.

Lemma file_or_absent_None : file_or_absent None.
Proof. intros f. discriminate. Qed.

Lemma tar_or_absent_None : tar_or_absent None.
Proof. intros f. discriminate. Qed.

(** The side condition of a write or a removal: another name, or a result
    that the kept property allows. *)
Ltac keeps_side :=
  first
    [ left; discriminate
    | left; congruence
    | right; left; congruence
    | right; right; first [ reflexivity | apply file_or_absent_None | apply tar_or_absent_None ]
    | right; right; intros ? ? ?;
      first [ intros ? [= <-]; assumption
            | intros ? [= <-]; split; [assumption | eexists; eassumption] ] ].

Ltac keeps_prim :=
  first [ apply (respects_quiet (keeps _ _ _) _ (keeps_quiet _ _ _)); quiet_prim
        | apply keeps_archive_json_add_entry
        | apply keeps_os_remove; keeps_side
        | apply keeps_write_file; keeps_side ].

Ltac keeps_step Q folder name :=
  respects_step (keeps_refl Q folder name) (keeps_trans Q folder name) keeps_prim.

Lemma registry_gen_allfiles_and_tar (a : archiver) (t : tools) (directory : string)
    (smallsize : Z) (is_tar : bool) :
  respects same_registry (_gen_allfiles_and_tar a t directory smallsize is_tar).
Proof. unfold _gen_allfiles_and_tar, pack_file. repeat registry_step. Qed.

Lemma registry_gen_md5sums (t : tools) (directory hash_file : string) :
  respects same_registry (_gen_md5sums t directory hash_file).
Proof. unfold _gen_md5sums, md5sum. repeat registry_step. Qed.

Lemma registry_reset_root (t : tools) (root : string) :
  respects same_registry (reset_root t root).
Proof. unfold reset_root. repeat registry_step. Qed.

Lemma registry_reset_folder (t : tools) (directory : string) (recursive : bool) :
  respects same_registry (reset_folder t directory recursive).
Proof. unfold reset_folder. repeat registry_step. Qed.

Lemma registry_delete_locally (a : archiver) (t : tools) (folder : string) :
  respects same_registry (delete_locally a t folder).
Proof. unfold delete_locally, delete_file, rclone_checksum. repeat registry_step. Qed.

Lemma elsewhere_gen_allfiles_and_tar (a : archiver) (t : tools) (directory : string)
    (smallsize : Z) (is_tar : bool) :
  respects (same_elsewhere directory) (_gen_allfiles_and_tar a t directory smallsize is_tar).
Proof. unfold _gen_allfiles_and_tar, pack_file. repeat elsewhere_step directory. Qed.

Lemma elsewhere_gen_md5sums (t : tools) (directory hash_file : string) :
  respects (same_elsewhere directory) (_gen_md5sums t directory hash_file).
Proof. unfold _gen_md5sums, md5sum. repeat elsewhere_step directory. Qed.

Lemma elsewhere_reset_root (t : tools) (root : string) :
  respects (same_elsewhere root) (reset_root t root).
Proof. unfold reset_root. repeat elsewhere_step root. Qed.

Lemma elsewhere_delete_locally (a : archiver) (t : tools) (folder : string) :
  respects (same_elsewhere folder) (delete_locally a t folder).
Proof. unfold delete_locally, delete_file, rclone_checksum. repeat elsewhere_step folder. Qed.

Lemma absent_gen_allfiles_and_tar (a : archiver) (t : tools) (directory : string)
    (smallsize : Z) (is_tar : bool) (name : string) :
  name <> smallfiles_tar_filename -> name <> allfiles_csv_filename ->
  respects (keeps (fun o => o = None) directory name)
    (_gen_allfiles_and_tar a t directory smallsize is_tar).
Proof.
  intros Htar Hcsv. unfold _gen_allfiles_and_tar, pack_file.
  repeat keeps_step (fun o : option file => o = None) directory name.
Qed.

Lemma tar_gen_allfiles_and_tar (a : archiver) (t : tools) (directory : string)
    (smallsize : Z) (is_tar : bool) :
  respects (keeps tar_or_absent directory smallfiles_tar_filename)
    (_gen_allfiles_and_tar a t directory smallsize is_tar).
Proof.
  unfold _gen_allfiles_and_tar, pack_file.
  repeat keeps_step tar_or_absent directory smallfiles_tar_filename.
Qed.

Lemma csv_gen_allfiles_and_tar (a : archiver) (t : tools) (directory : string)
    (smallsize : Z) (is_tar : bool) :
  respects (keeps file_or_absent directory allfiles_csv_filename)
    (_gen_allfiles_and_tar a t directory smallsize is_tar).
Proof.
  unfold _gen_allfiles_and_tar, pack_file.
  repeat keeps_step file_or_absent directory allfiles_csv_filename.
Qed.

(** *** Directories stay *)

Lemma still_listed_refl (folder : string) (w : world) : still_listed folder w w.
Proof. now intros H. Qed.

Lemma still_listed_trans (folder : string) (w1 w2 w3 : world) :
  still_listed folder w1 w2 -> still_listed folder w2 w3 -> still_listed folder w1 w3.
Proof. unfold still_listed. auto. Qed.

Lemma still_listed_quiet (folder : string) (w w' : world) :
  fs w' = fs w -> archive_json_file w' = archive_json_file w -> still_listed folder w w'.
Proof. intros H _. unfold still_listed. now rewrite H. Qed.

Lemma still_listed_insert (folder folder' : string) (l : list file) (w : world) :
  still_listed folder w (set_fs (<[folder' := l]> (fs w)) w).
Proof.
  intros Hw. cbn [fs set_fs]. destruct (decide (folder' = folder)) as [->|Hne].
  - rewrite lookup_insert_eq. eauto.
  - now rewrite lookup_insert_ne.
Qed.

Lemma listed_os_remove (folder folder' name : string) :
  respects (still_listed folder) (os_remove folder' name).
Proof.
  intros w. unfold os_remove. destruct (fs w !! folder') as [l|]; [|apply still_listed_refl].
  destruct (find_file name l) as [f|]; [|apply still_listed_refl].
  destruct (fkind f); first [apply still_listed_refl | apply still_listed_insert].
Qed.

Lemma listed_write_file (t : tools) (folder folder' name : string) (data : content) :
  respects (still_listed folder) (write_file t folder' name data).
Proof.
  intros w. unfold write_file. destruct (fs w !! folder') as [l|]; [|apply still_listed_refl].
  destruct (find_file name l) as [f|]; [|apply still_listed_insert].
  destruct (is_dir_kind (fkind f)); first [apply still_listed_refl | apply still_listed_insert].
Qed.

Ltac listed_prim :=
  first [ apply (respects_quiet (still_listed _) _ (still_listed_quiet _)); quiet_prim
        | apply listed_os_remove | apply listed_write_file ].

Ltac listed_step folder :=
  respects_step (still_listed_refl folder) (still_listed_trans folder) listed_prim.

Lemma listed_gen_allfiles_and_tar (a : archiver) (t : tools) (directory folder : string)
    (smallsize : Z) (is_tar : bool) :
  respects (still_listed folder) (_gen_allfiles_and_tar a t directory smallsize is_tar).
Proof. unfold _gen_allfiles_and_tar, pack_file. repeat listed_step folder. Qed.

(* --------------------------------------------------------------------- *)
(** ** Reset after packing                                                *)
(* --------------------------------------------------------------------- *)

Lemma find_file_app_list (name : string) (l l' : list file) :
  find_file name (l ++ l')
  = match find_file name l with
    | Some g => Some g
    | None => find_file name l'
    end.
Proof.
  induction l as [|g l IH]; [reflexivity|].
  cbn [app find_file List.find].
  destruct (String.eqb (fname g) name); [reflexivity | exact IH].
Qed.

Lemma find_file_None (name : string) (l : list file) :
  find_file name l = None <-> forall f, f ∈ l -> fname f <> name.
Proof.
  unfold find_file. split.
  - intros Hnone f Hin Heq. apply list_elem_of_In in Hin.
    pose proof (find_none _ _ Hnone f Hin) as H. cbn in H.
    rewrite Heq, String.eqb_refl in H. discriminate.
  - intros Hall. destruct (List.find _ l) as [g|] eqn:Hg; [|reflexivity].
    apply find_some in Hg as [Hin Heq]. apply String.eqb_eq in Heq.
    now destruct (Hall g (proj2 (list_elem_of_In _ _) Hin)).
Qed.

Lemma extracted_is_extracted_from (t : tools) (w : world) (root : string) (m : file) :
  extracted_from m (extracted t w root m).
Proof.
  unfold extracted_from, extracted, extracted_stat.
  cbn [fname fkind fdata fstat st_size st_mode st_mtime st_atime].
  repeat (split; [reflexivity|]).
  intros ->. repeat split.
Qed.

(** Where the members are looked up by name, so are the entries they
    leave. *)
Lemma find_file_extracted (n : string) (members l' : list file) :
  Forall2 extracted_from members l' ->
  match find_file n members with
  | Some m => exists f', find_file n l' = Some f' /\ extracted_from m f'
  | None => find_file n l' = None
  end.
Proof.
  induction 1 as [|m f' members l' Hm _ IH]; [reflexivity|].
  unfold find_file in *. cbn [List.find].
  destruct Hm as (Hname & Hrest). rewrite Hname.
  destruct (String.eqb (fname m) n); [|exact IH].
  exists f'. split; [reflexivity|]. split; [exact Hname | exact Hrest].
Qed.

(** Extracting members whose names are new to the directory appends what
    they leave. *)
Lemma extract_members_run (t : tools) (root : string) (members : list file) :
  forall (w : world) (l : list file),
    fs w !! root = Some l ->
    NoDup (List.map fname members) ->
    (forall m, m ∈ members -> find_file (fname m) l = None) ->
    exists w' l',
      for_each members (extract_member t root) w = (Ok tt, w')
      /\ fs w' !! root = Some (l ++ l')%list
      /\ Forall2 extracted_from members l'
      /\ archive_json_file w' = archive_json_file w.
Proof.
  induction members as [|m members IH]; intros w l Hl Hnodup Hnew.
  - exists w, []. cbn [for_each ret]. rewrite app_nil_r. repeat split; [exact Hl | constructor].
  - cbn [List.map] in Hnodup. apply NoDup_cons in Hnodup as [Hm Hnodup].
    cbn [for_each].
    set (f' := extracted t w root m).
    assert (Hstep : extract_member t root m w
                    = (Ok tt, set_fs (<[root := (l ++ [f'])%list]> (fs w)) w)).
    { unfold extract_member. rewrite Hl, (Hnew m); [reflexivity | left]. }
    rewrite (bind_run _ _ _ _ _ Hstep).
    destruct (IH (set_fs (<[root := (l ++ [f'])%list]> (fs w)) w) (l ++ [f'])%list)
      as (w' & l' & Hrun & Hfs & Hall & Hreg).
    + cbn [fs set_fs]. apply lookup_insert_eq.
    + exact Hnodup.
    + intros m' Hin. rewrite find_file_app, (Hnew m') by now right.
      change (fname f') with (fname m).
      destruct (String.eqb (fname m) (fname m')) eqn:Heq; [|reflexivity].
      apply String.eqb_eq in Heq. destruct Hm. rewrite Heq.
      apply list_elem_of_In, in_map, list_elem_of_In, Hin.
    + exists w', (f' :: l'). split; [exact Hrun|]. split; [|split; [|exact Hreg]].
      * rewrite Hfs, <- app_assoc. reflexivity.
      * constructor; [apply extracted_is_extracted_from | exact Hall].
Qed.

(** The loop of [reset_root] over the names of froster's own files. *)
Lemma remove_meta_files_run (root : string) (names : list string) :
  forall w : world,
    (forall n f, n ∈ names -> lookup_path w root n = Some f -> fkind f <> Directory) ->
    exists w',
      for_each names
        (fun file =>
           bind get (fun w' =>
             if os_path_exists w' root file
             then bind (os_remove root file) (fun _ => say (MsgRemoving file true))
             else say (MsgRemoving file false))) w
      = (Ok tt, w')
      /\ (forall n, n ∈ names -> lookup_path w' root n = None)
      /\ (forall n, n ∉ names -> lookup_path w' root n = lookup_path w root n).
Proof.
  induction names as [|n names IH]; intros w Hkind.
  - exists w. cbn [for_each ret]. repeat split. intros n Hin. inversion Hin.
  - cbn [for_each]. rewrite bind_assoc, bind_get. unfold os_path_exists.
    destruct (lookup_path w root n) as [f|] eqn:Hn.
    + assert (Hrm : exists w1, os_remove root n w = (Ok tt, w1)).
      { assert (Hk : fkind f <> Directory) by (apply (Hkind n f); [left | exact Hn]).
        unfold os_remove. unfold lookup_path in Hn.
        destruct (fs w !! root) as [l|]; [|discriminate]. rewrite Hn.
        destruct (fkind f) eqn:Hf; try (eexists; reflexivity).
        now destruct Hk. }
      destruct Hrm as [w1 Hrm].
      rewrite bind_assoc, (bind_run _ _ _ _ _ Hrm), bind_say.
      pose proof (lookup_os_remove_other root n w root) as Hother.
      rewrite Hrm in Hother. cbn [snd] in Hother.
      pose proof (lookup_os_remove_same _ _ _ _ Hrm) as Hsame.
      destruct (IH (emit (Said (MsgRemoving n true)) w1)) as (w' & Hrun & Hgone & Hkept).
      { intros n' f' Hin. change (lookup_path (emit (Said (MsgRemoving n true)) w1) root n')
          with (lookup_path w1 root n').
        destruct (decide (n' = n)) as [->|Hne]; [rewrite Hsame; discriminate|].
        rewrite Hother by exact Hne. apply Hkind. now right. }
      exists w'. split; [exact Hrun|]. split.
      * intros n' [-> | Hin]%elem_of_cons; [|now apply Hgone].
        destruct (decide (n ∈ names)) as [Hin | Hnin]; [now apply Hgone|].
        rewrite (Hkept n Hnin). exact Hsame.
      * intros n' Hnin. apply not_elem_of_cons in Hnin as [Hne Hnin].
        rewrite (Hkept n' Hnin). now apply Hother.
    + rewrite bind_say.
      destruct (IH (emit (Said (MsgRemoving n false)) w)) as (w' & Hrun & Hgone & Hkept).
      { intros n' f' Hin. apply Hkind. now right. }
      exists w'. split; [exact Hrun|]. split.
      * intros n' [-> | Hin]%elem_of_cons; [|now apply Hgone].
        destruct (decide (n ∈ names)) as [Hin | Hnin]; [now apply Hgone|].
        rewrite (Hkept n Hnin). exact Hn.
      * intros n' Hnin. apply not_elem_of_cons in Hnin as [Hne Hnin].
        now rewrite (Hkept n' Hnin).
Qed.

Lemma packed_of_names (smallsize : Z) (is_tar : bool) (l0 : list file)
    (files : list string) (n : string) :
  n ∈ List.map fname (packed_of smallsize is_tar l0 files) -> n ∈ files.
Proof.
  intros Hin. apply list_elem_of_In, in_map_iff in Hin as (f & <- & Hf).
  apply list_elem_of_In, elem_of_packed_of in Hf as (n & Hn & _ & Hfind & _).
  now apply find_file_Some_name in Hfind as [-> _].
Qed.

Lemma NoDup_packed_of (smallsize : Z) (is_tar : bool) (l0 : list file)
    (files : list string) :
  NoDup files -> NoDup (List.map fname (packed_of smallsize is_tar l0 files)).
Proof.
  induction files as [|n files IH]; intros Hnodup; [constructor|].
  apply NoDup_cons in Hnodup as [Hn Hnodup].
  cbn [packed_of flat_map]. fold (packed_of smallsize is_tar l0 files).
  destruct (String.eqb n allfiles_csv_filename); [now apply IH|].
  destruct (find_file n l0) as [f|] eqn:Hfind; [|now apply IH].
  destruct (is_small smallsize is_tar f); [|now apply IH].
  cbn [app List.map]. apply NoDup_cons. split; [|now apply IH].
  apply find_file_Some_name in Hfind as [-> _].
  intros Hin. apply Hn. now apply packed_of_names in Hin.
Qed.

Lemma walker_roots_first (w : world) (directory : string) (l : list file) :
  fs w !! directory = Some l ->
  firstn 1 (_walker_roots w directory) = [directory].
Proof.
  intros Hl. unfold _walker_roots.
  destruct (size (fs w)) as [|n] eqn:Hsize.
  - apply map_size_empty_iff in Hsize. rewrite Hsize in Hl. now rewrite lookup_empty in Hl.
  - cbn [walk_roots]. now rewrite Hl.
Qed.

(** X8.  In a folder that is not archived, with distinct entry
    names none of which is a name of [dirmetafiles], the packing step
    followed by [reset_folder] both succeed and every file the folder held
    is there again: a file that was not packed is as it was, a file that
    was packed is back with its name, kind, contents and size, and a
    regular one with its mode and its modification time, which is now its
    access time as well.  None of the files of [dirmetafiles] is left. *)
Theorem reset_folder_undoes_packing (a : archiver) (t : tools) (directory : string)
    (smallsize : Z) (is_tar : bool) (w : world) (l0 : list file) :
  fs w !! directory = Some l0 ->
  NoDup (List.map fname l0) ->
  (forall f, f ∈ l0 -> fname f ∉ dirmetafiles) ->
  _is_folder_archived (archive_json_file w) (Py.rstrip Py.slash directory) = Ok false ->
  exists w1 w2,
    _gen_allfiles_and_tar a t directory smallsize is_tar w = (Ok true, w1)
    /\ reset_folder t directory false w1 = (Ok tt, w2)
    /\ (forall f, f ∈ l0 -> is_dir_kind (fkind f) = false ->
          if is_small smallsize is_tar f
          then exists f', lookup_path w2 directory (fname f) = Some f'
                          /\ extracted_from f f'
          else lookup_path w2 directory (fname f) = Some f)
    /\ (forall n, n ∈ dirmetafiles -> lookup_path w2 directory n = None).
Proof.
  intros Hl0 Hnodup Hpristine Harch.
  assert (Hmeta0 : forall n, n ∈ dirmetafiles -> find_file n l0 = None).
  { intros n Hn. apply find_file_None. intros f Hf Heq. apply (Hpristine f Hf). now rewrite Heq. }
  assert (Hlook0 : forall n, lookup_path w directory n = find_file n l0).
  { intros n. unfold lookup_path. now rewrite Hl0. }
  assert (Htarmeta : smallfiles_tar_filename ∈ dirmetafiles) by (right; left).
  assert (Hcsvmeta : allfiles_csv_filename ∈ dirmetafiles) by left.
  destruct (gen_allfiles_and_tar_run a t directory smallsize is_tar w l0 Hl0 Hnodup)
    as (w1 & Hrun & Htarred & _ & Hfiles).
  { now apply Hmeta0. }
  { intros f Hf. rewrite Hmeta0 in Hf by exact Hcsvmeta. discriminate. }
  set (P := packed_of smallsize is_tar l0 (walk_files l0)) in *.
  (* what the packing step keeps *)
  assert (Hreg1 : archive_json_file w1 = archive_json_file w).
  { pose proof (registry_gen_allfiles_and_tar a t directory smallsize is_tar w) as H.
    now rewrite Hrun in H. }
  assert (Hlisted1 : is_Some (fs w1 !! directory)).
  { pose proof (listed_gen_allfiles_and_tar a t directory directory smallsize is_tar w) as H.
    rewrite Hrun in H. apply H. rewrite Hl0. eauto. }
  destruct Hlisted1 as [l1 Hl1].
  assert (Hlook1 : forall n, lookup_path w1 directory n = find_file n l1).
  { intros n. unfold lookup_path. now rewrite Hl1. }
  assert (Htar1 : tar_or_absent (lookup_path w1 directory smallfiles_tar_filename)).
  { pose proof (tar_gen_allfiles_and_tar a t directory smallsize is_tar w) as H.
    rewrite Hrun in H. apply H. rewrite Hlook0, Hmeta0 by exact Htarmeta.
    apply tar_or_absent_None. }
  assert (Hcsv1 : file_or_absent (lookup_path w1 directory allfiles_csv_filename)).
  { pose proof (csv_gen_allfiles_and_tar a t directory smallsize is_tar w) as H.
    rewrite Hrun in H. apply H. rewrite Hlook0, Hmeta0 by exact Hcsvmeta.
    apply file_or_absent_None. }
  assert (Habsent1 : forall n, n ∈ dirmetafiles -> n <> smallfiles_tar_filename ->
                       n <> allfiles_csv_filename -> lookup_path w1 directory n = None).
  { intros n Hn Hnt Hnc.
    pose proof (absent_gen_allfiles_and_tar a t directory smallsize is_tar n Hnt Hnc w) as H.
    rewrite Hrun in H. apply H. rewrite Hlook0. now apply Hmeta0. }
  assert (Hfile1 : forall n f, n ∈ dirmetafiles -> lookup_path w1 directory n = Some f ->
                     fkind f <> Directory).
  { intros n f Hn Hf.
    assert (Hkind : is_dir_kind (fkind f) = false).
    { destruct (decide (n = smallfiles_tar_filename)) as [->|Hnt];
        [now apply Htar1|].
      destruct (decide (n = allfiles_csv_filename)) as [->|Hnc];
        [now apply Hcsv1|].
      rewrite Habsent1 in Hf by assumption. discriminate. }
    intros Hdir. rewrite Hdir in Hkind. discriminate. }
  (* the members of the tar *)
  assert (HP : forall m, m ∈ P ->
                 m ∈ l0 /\ is_dir_kind (fkind m) = false
                 /\ is_small smallsize is_tar m = true
                 /\ find_file (fname m) l0 = Some m).
  { intros m Hm. apply elem_of_packed_of in Hm as (n & Hn & _ & Hfind & Hsmall).
    apply elem_of_walk_files in Hn as (f & Hf & Hkind & <-).
    rewrite (find_file_NoDup l0 f Hnodup Hf) in Hfind. injection Hfind as ->.
    repeat split; try assumption. now apply find_file_NoDup. }
  assert (HPnodup : NoDup (List.map fname P)).
  { apply NoDup_packed_of. now apply NoDup_walk_files. }
  assert (HPmeta : forall n, n ∈ dirmetafiles -> find_file n P = None).
  { intros n Hn. apply find_file_None. intros m Hm Heq.
    destruct (HP m Hm) as (Hin & _). apply (Hpristine m Hin). now rewrite Heq. }
  assert (HPnew : forall m, m ∈ P -> find_file (fname m) l1 = None).
  { intros m Hm. destruct (HP m Hm) as (Hin & Hkind & Hsmall & _).
    rewrite <- Hlook1, (Hfiles m Hin Hkind), Hsmall; [reflexivity|].
    intros Heq. apply (Hpristine m Hin). rewrite Heq. exact Hcsvmeta. }
  (* the reset of the one root *)
  assert (Hreset :
            exists w3 P',
              reset_root t directory w1 = (Ok tt, emit (Said (MsgResetDone directory)) w3)
              /\ Forall2 extracted_from P P'
              /\ (forall n, n ∈ dirmetafiles -> lookup_path w3 directory n = None)
              /\ (forall n, n ∉ dirmetafiles ->
                    lookup_path w3 directory n
                    = match lookup_path w1 directory n with
                      | Some g => Some g
                      | None => find_file n P'
                      end)).
  { unfold reset_root, try_except.
    rewrite bind_say, bind_get. cbn [archive_json_file emit].
    rewrite Hreg1, Harch, bind_lift_ok. cbv iota.
    set (w1e := emit (Said (MsgResetting directory)) w1).
    assert (Hlook1e : forall n, lookup_path w1e directory n = lookup_path w1 directory n)
      by reflexivity.
    (* untarring *)
    assert (Huntar :
              exists w2 P',
                (if os_path_exists w1e directory smallfiles_tar_filename
                 then bind (say MsgUntarring) (fun _ =>
                        bind (os_lstat directory smallfiles_tar_filename) (fun f =>
                          match fkind f, fdata f with
                          | Directory, _ => raise (OSError "IsADirectoryError")
                          | _, TarFile members =>
                              bind (for_each members (extract_member t directory))
                                   (fun _ => say MsgDone)
                          | _, _ => raise (OSError "ReadError")
                          end))
                 else ret tt) w1e = (Ok tt, w2)
                /\ Forall2 extracted_from P P'
                /\ forall n, lookup_path w2 directory n
                             = match lookup_path w1 directory n with
                               | Some g => Some g
                               | None => find_file n P'
                               end).
    { unfold os_path_exists. rewrite Hlook1e.
      destruct (lookup_path w1 directory smallfiles_tar_filename) as [T|] eqn:HT.
      - destruct (Htar1 T eq_refl) as [HTkind [members HTdata]].
        assert (members = P) as ->.
        { unfold tar_contents in Htarred. now rewrite HT, HTdata in Htarred. }
        rewrite bind_say.
        assert (Hstat : os_lstat directory smallfiles_tar_filename
                          (emit (Said MsgUntarring) w1e)
                        = (Ok T, emit (Said MsgUntarring) w1e)).
        { unfold os_lstat.
          change (lookup_path (emit (Said MsgUntarring) w1e) directory smallfiles_tar_filename)
            with (lookup_path w1 directory smallfiles_tar_filename).
          now rewrite HT. }
        rewrite (bind_run _ _ _ _ _ Hstat), HTdata.
        destruct (extract_members_run t directory P (emit (Said MsgUntarring) w1e) l1)
          as (w2 & P' & Hext & Hfs2 & HP' & _); [exact Hl1 | exact HPnodup | exact HPnew |].
        assert (Hbody : bind (for_each P (extract_member t directory))
                          (fun _ => say MsgDone) (emit (Said MsgUntarring) w1e)
                        = (Ok tt, emit (Said MsgDone) w2)).
        { now rewrite (bind_run _ _ _ _ _ Hext). }
        exists (emit (Said MsgDone) w2), P'. split; [|split; [exact HP'|]].
        + destruct (fkind T); try discriminate; exact Hbody.
        + intros n. unfold lookup_path at 1. cbn [fs emit]. rewrite Hfs2.
          rewrite find_file_app_list, Hlook1. reflexivity.
      - assert (P = []) as HPnil.
        { unfold tar_contents in Htarred. now rewrite HT in Htarred. }
        exists w1e, []. split; [reflexivity|]. split; [rewrite HPnil; constructor|].
        intros n. rewrite Hlook1e.
        now destruct (lookup_path w1 directory n). }
    destruct Huntar as (w2 & P' & Huntar & HP' & Hlook2).
    rewrite (bind_run _ _ _ _ _ Huntar).
    (* froster's own files are removed *)
    assert (Hmeta2 : forall n, n ∈ dirmetafiles ->
                       lookup_path w2 directory n = lookup_path w1 directory n).
    { intros n Hn. rewrite Hlook2.
      pose proof (find_file_extracted n P P' HP') as Hfind. rewrite (HPmeta n Hn) in Hfind.
      rewrite Hfind. now destruct (lookup_path w1 directory n). }
    destruct (remove_meta_files_run directory dirmetafiles w2) as (w3 & Hloop & Hgone & Hkept).
    { intros n f Hn. rewrite (Hmeta2 n Hn). now apply Hfile1. }
    rewrite (bind_run _ _ _ _ _ Hloop). cbn [say caught].
    exists w3, P'. split; [reflexivity|]. split; [exact HP'|]. split; [exact Hgone|].
    intros n Hn. now rewrite (Hkept n Hn), Hlook2. }
  destruct Hreset as (w3 & P' & Hreset & HP' & Hgone & Hkept).
  exists w1, (emit (Said (MsgResetDone directory)) w3).
  split; [exact Hrun|]. split.
  { unfold reset_folder. rewrite bind_get, (walker_roots_first w1 directory l1 Hl1).
    cbn [for_each]. now rewrite (bind_run _ _ _ _ _ Hreset). }
  split.
  - intros f Hf Hkind.
    change (lookup_path (emit (Said (MsgResetDone directory)) w3) directory (fname f))
      with (lookup_path w3 directory (fname f)).
    assert (Hnotmeta : fname f ∉ dirmetafiles) by now apply Hpristine.
    rewrite (Hkept _ Hnotmeta), (Hfiles f Hf Hkind).
    + destruct (is_small smallsize is_tar f) eqn:Hsmall; [|reflexivity].
      assert (Hpacked : find_file (fname f) P = Some f).
      { apply find_file_NoDup; [exact HPnodup|].
        apply elem_of_packed_of. exists (fname f). repeat split.
        * apply elem_of_walk_files. now exists f.
        * intros Heq. apply Hnotmeta. rewrite Heq. exact Hcsvmeta.
        * now apply find_file_NoDup.
        * exact Hsmall. }
      pose proof (find_file_extracted (fname f) P P' HP') as Hfind.
      rewrite Hpacked in Hfind. exact Hfind.
    + intros Heq. apply Hnotmeta. rewrite Heq. exact Hcsvmeta.
  - intros n Hn.
    change (lookup_path (emit (Said (MsgResetDone directory)) w3) directory n)
      with (lookup_path w3 directory n).
    now apply Hgone.
Qed.

Lemma reset_folder_undoes_packing_witness :
  exists w1 w2,
    _gen_allfiles_and_tar sample_archiver (sample_tools (fun _ => true)) "/data/s" 1024 true
      shared_world = (Ok true, w1)
    /\ reset_folder (sample_tools (fun _ => true)) "/data/s" false w1 = (Ok tt, w2)
    /\ (forall f, f ∈ [a_bin; old_txt] -> is_dir_kind (fkind f) = false ->
          if is_small 1024 true f
          then exists f', lookup_path w2 "/data/s" (fname f) = Some f'
                          /\ extracted_from f f'
          else lookup_path w2 "/data/s" (fname f) = Some f)
    /\ (forall n, n ∈ dirmetafiles -> lookup_path w2 "/data/s" n = None).
Proof.
  apply (reset_folder_undoes_packing sample_archiver (sample_tools (fun _ => true))
           "/data/s" 1024 true shared_world [a_bin; old_txt]).
  - vm_compute. reflexivity.
  - refine (bool_decide_unpack _ _). vm_compute. exact I.
  - intros f Hf. rewrite !elem_of_cons, elem_of_nil in Hf.
    destruct Hf as [-> | [-> | []]];
      refine (bool_decide_unpack _ _); vm_compute; exact I.
  - reflexivity.
Defined.

(** The packed file of [shared_world] after the reset, run by another user
    than its owner: it is that user's, and its access time is its
    modification time. *)
Example reset_changes_owner_and_access_time :
  let t := sample_tools (fun _ => true) in
  let w1 := snd (_gen_allfiles_and_tar sample_archiver t "/data/s" 1024 true shared_world) in
  let w2 := snd (reset_folder t "/data/s" false w1) in
  option_map fstat (lookup_path w2 "/data/s" "old.txt")
  = Some {| st_size := 100; st_mtime := 1600000000; st_atime := 1600000000;
            st_uid := 1000; st_gid := 1000; st_mode := 33188 |}
  /\ lookup_path w2 "/data/s" "a.bin" = Some a_bin.
Proof. vm_compute. split; reflexivity. Qed.

(* --------------------------------------------------------------------- *)
(** ** The manifest                                                       *)
(* --------------------------------------------------------------------- *)

Lemma hash_file_size_nonneg (lines : list (string * string)) :
  (0 <= hash_file_size lines)%Z.
Proof. induction lines as [|line lines IH]; cbn [hash_file_size fold_right]; [lia|].
  fold (hash_file_size lines). lia. Qed.

Lemma hash_file_size_zero (lines : list (string * string)) :
  Z.eqb (hash_file_size lines) 0 = true <-> lines = [].
Proof.
  rewrite Z.eqb_eq. destruct lines as [|line lines]; [easy|].
  cbn [hash_file_size fold_right]. fold (hash_file_size lines).
  pose proof (hash_file_size_nonneg lines). split; [lia | discriminate].
Qed.

(** Hashing entries that are there: one line each, the state as it was. *)
Lemma map_m_md5sum_run (t : tools) (directory : string) (w : world) (l : list file) :
  (forall f, f ∈ l -> lookup_path w directory (fname f) = Some f) ->
  map_m (fun file => bind (md5sum t directory file) (fun md5 => ret (md5, file)))
    (List.map fname l) w
  = (Ok (List.map (fun f => (digest_of t f, fname f)) l), w).
Proof.
  induction l as [|f l IH]; intros Hthere; [reflexivity|].
  cbn [List.map map_m].
  assert (Hmd5 : md5sum t directory (fname f) w = (Ok (digest_of t f), w)).
  { unfold md5sum, os_lstat, bind. rewrite (Hthere f) by left. reflexivity. }
  rewrite bind_assoc, (bind_run _ _ _ _ _ Hmd5), bind_ret.
  rewrite (bind_run _ _ _ _ _ (IH (fun g Hg => Hthere g (list_elem_of_further _ _ _ Hg)))).
  reflexivity.
Qed.

Lemma filter_map_fname (p : string -> bool) (l : list file) :
  List.filter p (List.map fname l) = List.map fname (List.filter (fun f => p (fname f)) l).
Proof.
  induction l as [|f l IH]; [reflexivity|]. cbn [List.map List.filter].
  destruct (p (fname f)); cbn [List.map]; now rewrite IH.
Qed.

Lemma filter_filter_and {A} (p q : A -> bool) (l : list A) :
  List.filter p (List.filter q l) = List.filter (fun x => q x && p x) l.
Proof.
  induction l as [|x l IH]; [reflexivity|]. cbn [List.filter].
  destruct (q x); cbn [andb List.filter]; [destruct (p x)|]; now rewrite IH.
Qed.

(** What [_gen_md5sums] does in a directory whose entries have distinct
    names and whose hash-file name is not taken by a directory. *)
Lemma gen_md5sums_run (t : tools) (directory hash_file : string) (w : world)
    (l0 : list file) :
  fs w !! directory = Some l0 ->
  NoDup (List.map fname l0) ->
  file_or_absent (find_file hash_file l0) ->
  exists w',
    _gen_md5sums t directory hash_file w
    = (Ok (match manifest_of t hash_file l0 with [] => false | _ => true end), w')
    /\ (forall n, n <> hash_file -> lookup_path w' directory n = lookup_path w directory n)
    /\ match manifest_of t hash_file l0 with
       | [] => lookup_path w' directory hash_file = None
       | lines =>
           exists f, lookup_path w' directory hash_file = Some f
                     /\ fdata f = HashFile lines /\ is_dir_kind (fkind f) = false
       end.
Proof.
  intros Hl0 Hnodup Hhash.
  assert (Hlook0 : forall n, lookup_path w directory n = find_file n l0).
  { intros n. unfold lookup_path. now rewrite Hl0. }
  unfold _gen_md5sums, try_except. rewrite bind_get. unfold _walker_first. rewrite Hl0.
  (* the hash file is opened *)
  destruct (write_file_returns t directory hash_file (HashFile []) w) as [w1 Hw1].
  { rewrite Hl0. eauto. }
  { intros f. rewrite Hlook0. apply Hhash. }
  rewrite (bind_run _ _ _ _ _ Hw1), bind_get.
  destruct (lookup_write_file_same _ _ _ _ _ _ Hw1) as (H0 & HH0 & _ & _ & HH0kind).
  assert (Hlook1 : forall n, n <> hash_file ->
                             lookup_path w1 directory n = lookup_path w directory n).
  { intros n Hn.
    pose proof (lookup_write_file_other t directory hash_file (HashFile []) w directory n Hn)
      as H. now rewrite Hw1 in H. }
  (* the files that pass the test *)
  assert (Hfilter : List.filter (is_hashed w1 directory hash_file) (walk_files l0)
                    = List.map fname (List.filter (is_listed hash_file) l0)).
  { unfold walk_files. rewrite filter_map_fname, filter_filter_and. f_equal.
    apply filter_ext_in. intros f Hf. apply list_elem_of_In in Hf.
    unfold is_hashed, is_listed, os_path_isfile.
    destruct (String.eqb (fname f) hash_file) eqn:Heq.
    - cbn [negb andb]. rewrite !andb_false_r. reflexivity.
    - apply String.eqb_neq in Heq.
      rewrite (Hlook1 _ Heq), Hlook0, (find_file_NoDup l0 f Hnodup Hf).
      destruct (is_dir_kind (fkind f)); reflexivity. }
  rewrite Hfilter.
  assert (Hlines : map_m (fun file => bind (md5sum t directory file) (fun md5 => ret (md5, file)))
                     (List.map fname (List.filter (is_listed hash_file) l0)) w1
                   = (Ok (manifest_of t hash_file l0), w1)).
  { apply map_m_md5sum_run. intros f Hf.
    apply list_elem_of_In, filter_In in Hf as [Hf Hlisted]. apply list_elem_of_In in Hf.
    assert (Hne : fname f <> hash_file).
    { unfold is_listed in Hlisted. intros Heq. apply String.eqb_eq in Heq.
      rewrite Heq in Hlisted. cbn [negb andb] in Hlisted.
      rewrite andb_false_r in Hlisted. discriminate. }
    rewrite (Hlook1 _ Hne), Hlook0. now apply find_file_NoDup. }
  rewrite (bind_run _ _ _ _ _ Hlines).
  (* the hash file is closed *)
  destruct (write_file_ok t directory hash_file (HashFile (manifest_of t hash_file l0))
              w1 H0 HH0 HH0kind) as [w2 Hw2].
  rewrite (bind_run _ _ _ _ _ Hw2).
  destruct (lookup_write_file_same _ _ _ _ _ _ Hw2) as (H1 & HH1 & _ & HH1data & HH1kind).
  assert (Hlook2 : forall n, n <> hash_file ->
                             lookup_path w2 directory n = lookup_path w directory n).
  { intros n Hn. rewrite <- (Hlook1 n Hn).
    pose proof (lookup_write_file_other t directory hash_file
                  (HashFile (manifest_of t hash_file l0)) w1 directory n Hn) as H.
    now rewrite Hw2 in H. }
  destruct (Z.eqb (hash_file_size (manifest_of t hash_file l0)) 0) eqn:Hsize.
  - apply hash_file_size_zero in Hsize. rewrite Hsize in *.
    destruct (os_remove_ok directory hash_file w2 H1 HH1 HH1kind) as [w3 Hw3].
    rewrite (bind_run _ _ _ _ _ Hw3). cbn [ret caught].
    exists w3. split; [reflexivity|]. split.
    + intros n Hn. rewrite <- (Hlook2 n Hn).
      pose proof (lookup_os_remove_other directory hash_file w2 directory n Hn) as H.
      now rewrite Hw3 in H.
    + exact (lookup_os_remove_same _ _ _ _ Hw3).
  - cbn [ret caught]. exists w2.
    destruct (manifest_of t hash_file l0) as [|line lines] eqn:Hm.
    { now rewrite (proj2 (hash_file_size_zero []) eq_refl) in Hsize. }
    split; [reflexivity|]. split; [exact Hlook2|]. now exists H1.
Qed.

(** X9.  When the folder holds at least one file to hash,
    [_gen_md5sums] returns [True] and leaves a manifest whose lines are,
    in some order, one line per direct file with the digest of that file,
    skipping directories, the manifest itself, the placeholder and the two
    standard manifests; no other entry of the folder changes. *)
Theorem gen_md5sums_writes_one_line_per_file (t : tools) (directory hash_file : string)
    (w : world) (l0 : list file) :
  fs w !! directory = Some l0 ->
  NoDup (List.map fname l0) ->
  file_or_absent (find_file hash_file l0) ->
  manifest_of t hash_file l0 <> [] ->
  exists w',
    _gen_md5sums t directory hash_file w = (Ok true, w')
    /\ manifest_lines w' directory hash_file ≡ₚ manifest_of t hash_file l0
    /\ forall n, n <> hash_file -> lookup_path w' directory n = lookup_path w directory n.
Proof.
  intros Hl0 Hnodup Hhash Hsome.
  destruct (gen_md5sums_run t directory hash_file w l0 Hl0 Hnodup Hhash)
    as (w' & Hrun & Hother & Hfile).
  destruct (manifest_of t hash_file l0) as [|line lines]; [contradiction|].
  destruct Hfile as (f & Hf & Hdata & _).
  exists w'. split; [exact Hrun|]. split; [|exact Hother].
  unfold manifest_lines. now rewrite Hf, Hdata.
Qed.

Lemma gen_md5sums_writes_one_line_per_file_witness :
  exists w',
    _gen_md5sums (sample_tools (fun _ => true)) "/data/x" md5sum_filename cataloged_world
    = (Ok true, w')
    /\ manifest_lines w' "/data/x" md5sum_filename
       ≡ₚ manifest_of (sample_tools (fun _ => true)) md5sum_filename
           (default [] (fs cataloged_world !! "/data/x"))
    /\ forall n, n <> md5sum_filename ->
                 lookup_path w' "/data/x" n = lookup_path cataloged_world "/data/x" n.
Proof.
  apply (gen_md5sums_writes_one_line_per_file (sample_tools (fun _ => true)) "/data/x"
           md5sum_filename cataloged_world).
  - vm_compute. reflexivity.
  - refine (bool_decide_unpack _ _). vm_compute. exact I.
  - intros f Hf. vm_compute in Hf. discriminate Hf.
  - vm_compute. discriminate.
Defined.

(** X10.  When the folder holds no file to
    hash, [_gen_md5sums] returns [False] and leaves no manifest, also when
    one was there before: the empty manifest it wrote is removed.  No other
    entry of the folder changes. *)
Theorem gen_md5sums_without_files_leaves_no_manifest (t : tools)
    (directory hash_file : string) (w : world) (l0 : list file) :
  fs w !! directory = Some l0 ->
  NoDup (List.map fname l0) ->
  file_or_absent (find_file hash_file l0) ->
  (forall f, f ∈ l0 -> is_listed hash_file f = false) ->
  exists w',
    _gen_md5sums t directory hash_file w = (Ok false, w')
    /\ lookup_path w' directory hash_file = None
    /\ forall n, n <> hash_file -> lookup_path w' directory n = lookup_path w directory n.
Proof.
  intros Hl0 Hnodup Hhash Hnone.
  destruct (gen_md5sums_run t directory hash_file w l0 Hl0 Hnodup Hhash)
    as (w' & Hrun & Hother & Hfile).
  assert (Hempty : manifest_of t hash_file l0 = []).
  { unfold manifest_of. replace (List.filter (is_listed hash_file) l0) with (@nil file);
      [reflexivity|].
    symmetry. clear -Hnone. induction l0 as [|f l IH]; [reflexivity|].
    cbn [List.filter]. rewrite (Hnone f) by left. apply IH.
    intros g Hg. apply Hnone. now right. }
  rewrite Hempty in Hrun, Hfile. now exists w'.
Qed.

Lemma gen_md5sums_without_files_leaves_no_manifest_witness :
  exists w',
    _gen_md5sums (sample_tools (fun _ => true)) "/data/x" md5sum_filename
      only_subfolder_world = (Ok false, w')
    /\ lookup_path w' "/data/x" md5sum_filename = None
    /\ forall n, n <> md5sum_filename ->
                 lookup_path w' "/data/x" n = lookup_path only_subfolder_world "/data/x" n.
Proof.
  eapply (gen_md5sums_without_files_leaves_no_manifest (sample_tools (fun _ => true))
            "/data/x" md5sum_filename only_subfolder_world).
  - vm_compute. reflexivity.
  - refine (bool_decide_unpack _ _). vm_compute. exact I.
  - intros f Hf. vm_compute in Hf. injection Hf as <-. reflexivity.
  - intros f Hf. rewrite !elem_of_cons, elem_of_nil in Hf.
    destruct Hf as [-> | [-> | []]]; reflexivity.
Defined.

(* --------------------------------------------------------------------- *)
(** ** A successful delete                                                *)
(* --------------------------------------------------------------------- *)

(** The loop of [delete_locally] over names whose entries are files: it
    returns, removes the names it does not pass over, and reports them in
    order. *)
Lemma delete_loop (root : string) (files : list string) :
  forall (deleted : list string) (w : world),
    NoDup files ->
    (forall n, n ∈ files -> is_kept_by_delete n = false ->
       exists f, lookup_path w root n = Some f /\ is_dir_kind (fkind f) = false) ->
    exists w',
      fold_m (delete_file root) files deleted w
      = (Ok (deleted ++ List.filter (fun n => negb (is_kept_by_delete n)) files)%list, w')
      /\ (forall n, n ∈ files -> is_kept_by_delete n = false ->
            lookup_path w' root n = None)
      /\ (forall n, ~ (n ∈ files /\ is_kept_by_delete n = false) ->
            lookup_path w' root n = lookup_path w root n)
      /\ archive_json_file w' = archive_json_file w
      /\ terminal w' = terminal w.
Proof.
  induction files as [|n files IH]; intros deleted w Hnodup Hthere.
  - exists w. cbn [fold_m ret List.filter]. rewrite app_nil_r. repeat split.
    intros n Hin. inversion Hin.
  - apply NoDup_cons in Hnodup as [Hn Hnodup].
    cbn [fold_m List.filter]. unfold delete_file at 1.
    destruct (is_kept_by_delete n) eqn:Hkept; cbn [negb].
    + rewrite bind_ret.
      destruct (IH deleted w Hnodup) as (w' & Hrun & Hgone & Hsame & Hreg & Hterm).
      { intros m Hm. apply Hthere. now right. }
      exists w'. split; [exact Hrun|]. repeat split; try assumption.
      * intros m [-> | Hm]%elem_of_cons Hk; [congruence | now apply Hgone].
      * intros m Hm. apply Hsame. intros [Hin Hk]. apply Hm. split; [now right | exact Hk].
    + destruct (Hthere n) as (f & Hf & Hkind); [left | exact Hkept |].
      destruct (os_remove_ok _ _ _ _ Hf Hkind) as [w1 Hrm].
      rewrite bind_assoc, (bind_run _ _ _ _ _ Hrm), bind_ret.
      pose proof (lookup_os_remove_other root n w root) as Hother.
      rewrite Hrm in Hother. cbn [snd] in Hother.
      assert (Hquiet : archive_json_file w1 = archive_json_file w /\ terminal w1 = terminal w).
      { revert Hrm. unfold os_remove. destruct (fs w !! root) as [l|]; [|discriminate].
        destruct (find_file n l) as [g|]; [|discriminate].
        destruct (fkind g); try discriminate; now intros [= <-]. }
      destruct Hquiet as [Hreg1 Hterm1].
      destruct (IH (deleted ++ [n])%list w1 Hnodup) as (w' & Hrun & Hgone & Hsame & Hreg & Hterm).
      { intros m Hm Hk. destruct (Hthere m) as (g & Hg & Hgk); [now right | exact Hk |].
        exists g. rewrite Hother; [easy|]. intros ->. contradiction. }
      exists w'. rewrite Hrun, <- app_assoc. cbn [app]. split; [reflexivity|].
      repeat split; try congruence.
      * intros m [-> | Hm]%elem_of_cons Hk; [|now apply Hgone].
        rewrite Hsame; [exact (lookup_os_remove_same _ _ _ _ Hrm)|].
        intros [Hin _]. contradiction.
      * intros m Hm. destruct (decide (m = n)) as [->|Hne].
        -- destruct Hm. split; [left | exact Hkept].
        -- rewrite Hsame; [now apply Hother|].
           intros [Hin Hk]. apply Hm. split; [now right | exact Hk].
Qed.

(** X11.  For a registered folder with a local
    manifest whose checksum run succeeds, [delete_locally] returns after
    its completion notice, which counts the deleted files; every direct file
    outside the four kept names is gone, sub-directories and kept files are
    as they were, and [Where-did-the-files-go.txt] holds the archive
    location, profile, archiver, restore command, deletion date and the
    first ten deleted names. *)
Theorem delete_locally_removes_files_and_leaves_note
    (a : archiver) (t : tools) (folder : string) (w : world) (l0 : list file)
    (info : entry) (hashfile local_folder archive_folder profile user : string) :
  archive_json_get_row (archive_json_file w) folder = Ok (Some info) ->
  info !! "local_folder" = Some local_folder ->
  info !! "archive_folder" = Some archive_folder ->
  info !! "profile" = Some profile ->
  info !! "user" = Some user ->
  delete_hashfile w folder = Some hashfile ->
  (forall w' s3_dest,
     rclone_run t w' (Rclone_envrn (cfg a)) (checksum_command hashfile s3_dest) = true) ->
  fs w !! folder = Some l0 ->
  NoDup (List.map fname l0) ->
  file_or_absent (find_file where_did_the_files_go_filename l0) ->
  let s3_dest := archive_folder ++ Py.replace folder local_folder "" in
  let deleted := List.filter (fun n => negb (is_kept_by_delete n)) (walk_files l0) in
  exists w',
    delete_locally a t folder w = (Ok tt, w')
    /\ last (terminal w')
       = Some (Said (MsgDeletingCompleted folder s3_dest (List.length deleted)))
    /\ (forall f, f ∈ l0 -> is_dir_kind (fkind f) = false ->
          is_kept_by_delete (fname f) = false ->
          lookup_path w' folder (fname f) = None)
    /\ (forall f, f ∈ l0 ->
          is_dir_kind (fkind f) = true \/ is_kept_by_delete (fname f) = true ->
          fname f <> where_did_the_files_go_filename ->
          lookup_path w' folder (fname f) = Some f)
    /\ exists note date,
         lookup_path w' folder where_did_the_files_go_filename = Some note
         /\ fdata note
            = ReadmeFile
                [ArchiveLocation s3_dest; ArchiveProfile profile; ArchiverUser user;
                 ArchiverEmail (email (cfg a)); RestoreCommand folder;
                 DeletionDate date; FirstFilesDeleted (firstn 10 deleted)].
Proof.
  intros Hrow Hlocal Harchive Hprofile Huser Hhash Hverified Hl0 Hnodup Hnote s3_dest deleted.
  set (readme := where_did_the_files_go_filename).
  assert (Hlook0 : forall n, lookup_path w folder n = find_file n l0).
  { intros n. unfold lookup_path. now rewrite Hl0. }
  unfold delete_locally. rewrite bind_say, bind_get. cbn [archive_json_file emit].
  rewrite Hrow, bind_lift_ok. unfold try_except.
  replace (delete_hashfile (emit (Said (MsgDeleting folder)) w) folder)
    with (Some hashfile) by (rewrite <- Hhash; reflexivity).
  unfold getitem. rewrite Hlocal, bind_lift_ok, Harchive, bind_lift_ok, bind_say.
  fold s3_dest. unfold rclone_checksum. rewrite bind_run_rclone_command.
  fold (checksum_command hashfile s3_dest). rewrite Hverified. cbn [negb].
  rewrite bind_say, bind_get.
  match goal with
  | |- context [_walker_first ?w4 folder] => set (w1 := w4)
  end.
  assert (Hlook1 : forall n, lookup_path w1 folder n = find_file n l0).
  { intros n. rewrite <- Hlook0. reflexivity. }
  assert (Hwalk : _walker_first w1 folder
                  = Some (List.filter (fun d => negb (String.eqb d ".snapshot")) (walk_dirs l0),
                          walk_files l0)).
  { unfold _walker_first. subst w1. cbn [fs emit]. now rewrite Hl0. }
  rewrite Hwalk. rewrite !bind_assoc, bind_say, bind_assoc.
  (* the loop *)
  destruct (delete_loop folder (walk_files l0) [] (emit (Said MsgDeletingFiles) w1))
    as (w2 & Hloop & Hgone & Hsame & _ & Hterm2).
  { now apply NoDup_walk_files. }
  { intros n Hn _. apply elem_of_walk_files in Hn as (f & Hf & Hkind & <-).
    exists f. split; [|exact Hkind].
    change (lookup_path (emit (Said MsgDeletingFiles) w1) folder (fname f))
      with (lookup_path w1 folder (fname f)).
    rewrite Hlook1. now apply find_file_NoDup. }
  cbn [app] in Hloop. fold deleted in Hloop.
  rewrite (bind_run _ _ _ _ _ Hloop), bind_assoc, bind_say, bind_ret.
  assert (Hlook2 : forall n, ~ (n ∈ walk_files l0 /\ is_kept_by_delete n = false) ->
                     lookup_path w2 folder n = find_file n l0).
  { intros n Hn. rewrite (Hsame n Hn). apply Hlook1. }
  set (w2e := emit (Said MsgDone) w2).
  (* the note *)
  assert (Hwrite : forall data w3,
             fs w3 !! folder <> None ->
             file_or_absent (lookup_path w3 folder readme) ->
             exists w4, write_file t folder readme data w3 = (Ok tt, w4)
                        /\ (exists note, lookup_path w4 folder readme = Some note
                                         /\ fdata note = data
                                         /\ is_dir_kind (fkind note) = false)
                        /\ (forall n, n <> readme ->
                              lookup_path w4 folder n = lookup_path w3 folder n)
                        /\ terminal w4 = terminal w3).
  { intros data w3 Hdir Hfile.
    destruct (write_file_returns t folder readme data w3) as [w4 Hw4].
    - destruct (fs w3 !! folder); [eauto | contradiction].
    - exact Hfile.
    - exists w4. split; [exact Hw4|].
      destruct (lookup_write_file_same _ _ _ _ _ _ Hw4) as (note & Hnote4 & _ & Hdata & Hkind).
      split; [now exists note|]. split.
      + intros n Hn.
        pose proof (lookup_write_file_other t folder readme data w3 folder n Hn) as H.
        now rewrite Hw4 in H.
      + revert Hw4. unfold write_file. destruct (fs w3 !! folder) as [l|]; [|discriminate].
        destruct (find_file readme l) as [g|];
          [destruct (is_dir_kind (fkind g)); [discriminate|]|]; now intros [= <-]. }
  assert (Hreadme_kept : ~ (readme ∈ walk_files l0 /\ is_kept_by_delete readme = false)).
  { intros [_ Hk]. discriminate Hk. }
  assert (Hsome : forall w3 note, lookup_path w3 folder readme = Some note ->
                    fs w3 !! folder <> None).
  { intros w3 note. unfold lookup_path. now destruct (fs w3 !! folder). }
  destruct (Hwrite (ReadmeFile [ArchiveLocation s3_dest]) w2e)
    as (w3 & Hw3 & (n3 & Hn3 & _ & Hn3kind) & Hother3 & Hterm3).
  { subst w2e. cbn [fs emit]. 
    assert (Hl2 : is_Some (fs w2 !! folder)).
    { pose proof (respects_fold_m (still_listed folder) (still_listed_refl folder)
                    (still_listed_trans folder) (delete_file folder) (walk_files l0) []
                    (fun s x => ltac:(unfold delete_file; repeat listed_step folder))
                    (emit (Said MsgDeletingFiles) w1)) as H.
      rewrite Hloop in H. apply H. subst w1. cbn [fs emit]. rewrite Hl0. eauto. }
    destruct Hl2 as [l2 ->]. discriminate. }
  { change (lookup_path w2e folder readme) with (lookup_path w2 folder readme).
    rewrite (Hlook2 readme Hreadme_kept). exact Hnote. }
  rewrite (bind_run _ _ _ _ _ Hw3), Hprofile, bind_lift_ok.
  destruct (Hwrite (ReadmeFile [ArchiveLocation s3_dest; ArchiveProfile profile]) w3)
    as (w4 & Hw4 & (n4 & Hn4 & _ & Hn4kind) & Hother4 & Hterm4).
  { exact (Hsome _ _ Hn3). }
  { intros g. rewrite Hn3. now intros [= <-]. }
  rewrite (bind_run _ _ _ _ _ Hw4), Huser, bind_lift_ok, bind_get.
  destruct (Hwrite (ReadmeFile
                      [ArchiveLocation s3_dest; ArchiveProfile profile; ArchiverUser user;
                       ArchiverEmail (email (cfg a)); RestoreCommand folder;
                       DeletionDate (now t w4);
                       FirstFilesDeleted (firstn 10 deleted)]) w4)
    as (w5 & Hw5 & (n5 & Hn5 & Hn5data & _) & Hother5 & Hterm5).
  { exact (Hsome _ _ Hn4). }
  { intros g. rewrite Hn4. now intros [= <-]. }
  rewrite (bind_run _ _ _ _ _ Hw5). cbn [say caught].
  eexists. split; [reflexivity|].
  assert (Hfinal : forall n, n <> readme ->
                     lookup_path (emit (Said (MsgDeletingCompleted folder s3_dest
                                                (List.length deleted))) w5) folder n
                     = lookup_path w2 folder n).
  { intros n Hn.
    change (lookup_path (emit (Said (MsgDeletingCompleted folder s3_dest
                                       (List.length deleted))) w5) folder n)
      with (lookup_path w5 folder n).
    now rewrite (Hother5 n Hn), (Hother4 n Hn), (Hother3 n Hn). }
  split; [|split; [|split]].
  - cbn [terminal emit]. apply last_snoc.
  - intros f Hf Hkind Hk. rewrite Hfinal.
    + apply Hgone; [|exact Hk]. apply elem_of_walk_files. now exists f.
    + intros Heq. rewrite Heq in Hk. discriminate Hk.
  - intros f Hf Hwhy Hne. rewrite (Hfinal _ Hne), Hlook2.
    + now apply find_file_NoDup.
    + intros [Hin Hk]. apply elem_of_walk_files in Hin as (g & Hg & Hgkind & Hname).
      assert (g = f) as ->.
      { pose proof (find_file_NoDup l0 g Hnodup Hg) as H1.
        pose proof (find_file_NoDup l0 f Hnodup Hf) as H2. congruence. }
      destruct Hwhy; congruence.
  - exists n5, (now t w4). split; [exact Hn5 | exact Hn5data].
Qed.

Lemma delete_locally_removes_files_and_leaves_note_witness :
  let l0 := default [] (fs archived_world !! "/data/x") in
  let s3_dest := ":s3:bucket/archive/data/x" ++ Py.replace "/data/x" "/data/x" "" in
  let deleted := List.filter (fun n => negb (is_kept_by_delete n)) (walk_files l0) in
  exists w',
    delete_locally sample_archiver (sample_tools (fun _ => true)) "/data/x" archived_world
    = (Ok tt, w')
    /\ last (terminal w')
       = Some (Said (MsgDeletingCompleted "/data/x" s3_dest (List.length deleted)))
    /\ (forall f, f ∈ l0 -> is_dir_kind (fkind f) = false ->
          is_kept_by_delete (fname f) = false ->
          lookup_path w' "/data/x" (fname f) = None)
    /\ (forall f, f ∈ l0 ->
          is_dir_kind (fkind f) = true \/ is_kept_by_delete (fname f) = true ->
          fname f <> where_did_the_files_go_filename ->
          lookup_path w' "/data/x" (fname f) = Some f)
    /\ exists note date,
         lookup_path w' "/data/x" where_did_the_files_go_filename = Some note
         /\ fdata note
            = ReadmeFile
                [ArchiveLocation s3_dest; ArchiveProfile "default"; ArchiverUser "alice";
                 ArchiverEmail (email (cfg sample_archiver)); RestoreCommand "/data/x";
                 DeletionDate date; FirstFilesDeleted (firstn 10 deleted)].
Proof.
  eapply (delete_locally_removes_files_and_leaves_note sample_archiver
            (sample_tools (fun _ => true)) "/data/x" archived_world
            (default [] (fs archived_world !! "/data/x")) _
            "/data/x/.froster.md5sum" "/data/x" ":s3:bucket/archive/data/x"
            "default" "alice").
  - vm_compute. reflexivity.
  - vm_compute. reflexivity.
  - vm_compute. reflexivity.
  - vm_compute. reflexivity.
  - vm_compute. reflexivity.
  - vm_compute. reflexivity.
  - reflexivity.
  - vm_compute. reflexivity.
  - refine (bool_decide_unpack _ _). vm_compute. exact I.
  - intros f Hf. vm_compute in Hf. discriminate Hf.
Defined.

(* --------------------------------------------------------------------- *)
(** ** Batches touch the folders they are given                           *)
(* --------------------------------------------------------------------- *)

Lemma walker_roots_first_cases (w : world) (directory : string) :
  firstn 1 (_walker_roots w directory) = []
  \/ firstn 1 (_walker_roots w directory) = [directory].
Proof.
  unfold _walker_roots. destruct (size (fs w)); cbn [walk_roots firstn]; [now left|].
  destruct (fs w !! directory); [now right | now left].
Qed.

Lemma elsewhere_reset_folder (t : tools) (directory : string) :
  respects (same_elsewhere directory) (reset_folder t directory false).
Proof.
  intros w. unfold reset_folder. rewrite bind_get.
  destruct (walker_roots_first_cases w directory) as [-> | ->]; cbn [for_each].
  - apply same_elsewhere_refl.
  - apply (respects_bind _ (same_elsewhere_trans directory)).
    + apply elsewhere_reset_root.
    + intros _. apply (respects_ret _ (same_elsewhere_refl directory)).
Qed.

Lemma same_outside_refl (folders : list string) (w : world) : same_outside folders w w.
Proof. now intros other _. Qed.

Lemma same_outside_trans (folders : list string) (w1 w2 w3 : world) :
  same_outside folders w1 w2 -> same_outside folders w2 w3 -> same_outside folders w1 w3.
Proof. intros H1 H2 other Hne. now rewrite H2, H1. Qed.

Lemma same_outside_quiet (folders : list string) (w w' : world) :
  fs w' = fs w -> archive_json_file w' = archive_json_file w -> same_outside folders w w'.
Proof. intros H _ other _. now rewrite H. Qed.

Lemma outside_of_elsewhere {A} (folders : list string) (folder : string) (m : M A) :
  folder ∈ folders ->
  respects (same_elsewhere folder) m -> respects (same_outside folders) m.
Proof.
  intros Hin Hm w other Hother. apply Hm. intros ->. contradiction.
Qed.

Lemma quiet_archive_slurm (folders : list string) : quiet (_archive_slurm folders).
Proof. intros w. now split. Qed.

Lemma elsewhere_archive_locally
    (a : archiver) (t : tools) (folder_to_archive : string) (is_recursive : bool)
    (nih : list string) (is_subfolder is_tar is_force : bool) :
  respects (same_elsewhere folder_to_archive)
    (archive_locally a t folder_to_archive is_recursive nih is_subfolder is_tar is_force).
Proof.
  unfold archive_locally, rclone_copy, rclone_checksum, sys_exit.
  repeat first [ apply elsewhere_reset_folder | apply elsewhere_gen_allfiles_and_tar
               | apply elsewhere_gen_md5sums | elsewhere_step folder_to_archive ].
Qed.

Section Checks.

Variable R : world -> world -> Prop.
Hypothesis R_refl : forall w, R w w.
Hypothesis R_trans : forall w1 w2 w3, R w1 w2 -> R w2 w3 -> R w1 w3.

(** The permission check reads only. *)
Lemma respects_is_correct_files_folders_permissions (t : tools) (folders : list string)
    (is_recursive : bool) :
  respects R (_is_correct_files_folders_permissions t folders is_recursive).
Proof.
  induction folders as [|folder rest IH]; cbn [_is_correct_files_folders_permissions].
  - now apply respects_ret.
  - apply respects_bind; [exact R_trans | now apply respects_get | intros w0].
    destruct (fs w0 !! folder); [|now apply respects_raise].
    apply respects_bind; [exact R_trans | exact IH | intros others].
    now apply respects_ret.
Qed.

(** The checks that [archive] and [delete] make before any folder is
    processed. *)
Lemma respects_batch_checks (t : tools) (folders : list string) (is_recursive : bool)
    (k : M unit) :
  respects R k ->
  (forall m, respects R (say m)) ->
  respects R
    (bind (if is_recursive && _is_recursive_collision folders
           then bind (say MsgRecursiveCollision) (fun _ => sys_exit 1)
           else ret tt)
       (fun _ =>
          bind (_is_correct_files_folders_permissions t folders is_recursive)
            (fun permitted =>
               bind (if negb permitted
                     then bind (say MsgPermissions) (fun _ => sys_exit 1)
                     else ret tt)
                 (fun _ => k)))).
Proof.
  intros Hk Hsay. unfold sys_exit.
  apply respects_bind; [exact R_trans | | intros _].
  { destruct (_ && _); [|now apply respects_ret].
    apply respects_bind; [exact R_trans | apply Hsay | intros _; now apply respects_raise]. }
  apply respects_bind;
    [exact R_trans | apply respects_is_correct_files_folders_permissions | intros permitted].
  apply respects_bind; [exact R_trans | | intros _; exact Hk].
  destruct (negb permitted); [|now apply respects_ret].
  apply respects_bind; [exact R_trans | apply Hsay | intros _; now apply respects_raise].
Qed.

End Checks.

(** X12.  A [delete] batch never changes the registry,
    however it ends, and without the recursive switch it leaves every
    directory that is not one of the folders of the batch exactly as it
    was. *)
Theorem delete_touches_only_the_named_folders
    (a : archiver) (t : tools) (folders : list string) (w : world) :
  let w' := snd (delete a t folders w) in
  archive_json_file w' = archive_json_file w
  /\ (args_recursive (args a) = false ->
      forall other, other ∉ List.map (clean_path t) folders ->
        fs w' !! other = fs w !! other).
Proof.
  split.
  - revert w. change (respects same_registry (delete a t folders)). unfold delete.
    apply (respects_batch_checks _ same_registry_refl same_registry_trans).
    + apply (respects_for_each _ same_registry_refl same_registry_trans). intros folder.
      destruct (args_recursive (args a)); [|apply registry_delete_locally].
      apply (respects_bind _ same_registry_trans);
        [apply (respects_get _ same_registry_refl) | intros w0].
      apply (respects_for_each _ same_registry_refl same_registry_trans). intros root.
      apply registry_delete_locally.
    + intros m. apply (respects_quiet _ _ same_registry_quiet), quiet_say.
  - intros Hmode. revert w.
    change (respects (same_outside (List.map (clean_path t) folders)) (delete a t folders)).
    unfold delete. rewrite Hmode.
    set (S := List.map (clean_path t) folders).
    apply (respects_batch_checks _ (same_outside_refl S) (same_outside_trans S)).
    + assert (Hloop : forall l, (forall folder, folder ∈ l -> folder ∈ S) ->
                        respects (same_outside S) (for_each l (delete_locally a t))).
      { induction l as [|folder l IH]; intros Hl; cbn [for_each].
        - apply (respects_ret _ (same_outside_refl S)).
        - apply (respects_bind _ (same_outside_trans S)).
          + apply (outside_of_elsewhere S folder); [apply Hl; left|].
            apply elsewhere_delete_locally.
          + intros _. apply IH. intros f Hf. apply Hl. now right. }
      now apply Hloop.
    + intros m. apply (respects_quiet _ _ (same_outside_quiet S)), quiet_say.
Qed.

(** X13.  Without the recursive switch, an [archive]
    batch leaves every directory that is not one of the folders of the batch
    exactly as it was, however it ends. *)
Theorem archive_touches_only_the_named_folders
    (a : archiver) (t : tools) (folders : list string) (w : world) :
  args_recursive (args a) = false ->
  forall other, other ∉ List.map (clean_path t) folders ->
    fs (snd (archive a t folders w)) !! other = fs w !! other.
Proof.
  intros Hmode. revert w.
  change (respects (same_outside (List.map (clean_path t) folders)) (archive a t folders)).
  unfold archive. rewrite Hmode.
  set (S := List.map (clean_path t) folders).
  apply (respects_batch_checks _ (same_outside_refl S) (same_outside_trans S)).
  - destruct (which_sbatch t && negb (args_noslurm (args a)) && negb (slurm_job_id t)).
    + apply (respects_quiet _ _ (same_outside_quiet S)), quiet_archive_slurm.
    + unfold archive_folders.
      generalize (if is_nih (cfg a) || args_nih (args a) then nih_selection t else []).
      intros nih.
      assert (Hloop : forall l, (forall folder, folder ∈ l -> folder ∈ S) ->
                        respects (same_outside S)
                          (for_each l
                             (fun folder =>
                                archive_locally a t folder false nih false
                                  (negb (args_notar (args a))) (args_force (args a))))).
      { induction l as [|folder l IH]; intros Hl; cbn [for_each].
        - apply (respects_ret _ (same_outside_refl S)).
        - apply (respects_bind _ (same_outside_trans S)).
          + apply (outside_of_elsewhere S folder); [apply Hl; left|].
            apply elsewhere_archive_locally.
          + intros _. apply IH. intros f Hf. apply Hl. now right. }
      now apply Hloop.
  - intros m. apply (respects_quiet _ _ (same_outside_quiet S)), quiet_say.
Qed.

Lemma archive_touches_only_the_named_folders_witness :
  fs (snd (archive sample_archiver (sample_tools (fun _ => true)) ["/data/x/"] fresh_world))
    !! "/data/y"
  = fs fresh_world !! "/data/y".
Proof.
  apply (archive_touches_only_the_named_folders sample_archiver
           (sample_tools (fun _ => true)) ["/data/x/"] fresh_world).
  - reflexivity.
  - cbn [List.map]. intros H%list_elem_of_singleton. vm_compute in H. discriminate H.
Defined.

(* --------------------------------------------------------------------- *)
(** ** When a folder is registered                                        *)
(* --------------------------------------------------------------------- *)

Lemma Rclone_envrn_restored (c : config) :
  <["RCLONE_S3_STORAGE_CLASS" := storage_class c]>
    (<["RCLONE_S3_STORAGE_CLASS" := "INTELLIGENT_TIERING"]> (Rclone_envrn c))
  = Rclone_envrn c.
Proof.
  rewrite insert_insert_eq. apply insert_id. reflexivity.
Qed.

(** A run that ends without the completion notice and with the registry
    as it was. *)
Ltac failed_run Hreg :=
  left;
  cbn [caught say raise sys_exit ret snd fst is_Exception print_error terminal emit
       archive_json_file];
  split; [exact Hreg | rewrite last_snoc; discriminate].

(** How a run of [archive_locally] ends: either without the completion
    notice and with the registry as it was, or on the completion notice,
    right after the successful verification of the checksums and the
    registration of the folder. *)
Lemma archive_locally_outcome
    (a : archiver) (t : tools) (folder : string) (is_recursive : bool)
    (nih : list string) (is_subfolder is_tar is_force : bool) (w : world) :
  let s3_dest := archive_s3_dest (cfg a) folder in
  let hashfile := Py.os_path_join folder md5sum_filename in
  let w' := snd (archive_locally a t folder is_recursive nih is_subfolder
                   is_tar is_force w) in
  (archive_json_file w' = archive_json_file w
   /\ last (terminal w') <> Some (Said (MsgArchivingCompleted folder s3_dest)))
  \/ exists pre : world,
       archive_json_file pre = archive_json_file w
       /\ (exists before,
             terminal pre
             = (before ++ [RcloneRan (Rclone_envrn (cfg a))
                             (checksum_command hashfile s3_dest) true;
                           Said MsgDone])%list)
       /\ if is_subfolder
          then w' = emit (Said (MsgArchivingCompleted folder s3_dest)) pre
          else exists e,
                 new_entry a t pre folder s3_dest is_recursive nih = Ok e
                 /\ w' = emit (Said (MsgArchivingCompleted folder s3_dest))
                           (snd (_archive_json_add_entry (Py.rstrip Py.slash folder) e pre)).
Proof.
  intros s3_dest hashfile w'. subst w'.
  unfold archive_locally, try_except. rewrite bind_get.
  destruct (_is_folder_archived (archive_json_file w) (Py.rstrip Py.slash folder))
    as [[|]|e] eqn:Harch.
  - rewrite bind_lift_ok. cbv iota. rewrite bind_say. failed_run (eq_refl (archive_json_file w)).
  - rewrite bind_lift_ok. cbv iota.
    match goal with |- context [bind _ ?k w] => set (rest := k) end.
    assert (Hrest : forall w1,
               archive_json_file w1 = archive_json_file w ->
               let w' := snd (caught (fun e => print_error e) (rest tt w1)) in
               (archive_json_file w' = archive_json_file w
                /\ last (terminal w') <> Some (Said (MsgArchivingCompleted folder s3_dest)))
               \/ exists pre : world,
                    archive_json_file pre = archive_json_file w
                    /\ (exists before,
                          terminal pre
                          = (before ++ [RcloneRan (Rclone_envrn (cfg a))
                                          (checksum_command hashfile s3_dest) true;
                                        Said MsgDone])%list)
                    /\ if is_subfolder
                       then w' = emit (Said (MsgArchivingCompleted folder s3_dest)) pre
                       else exists e,
                              new_entry a t pre folder s3_dest is_recursive nih = Ok e
                              /\ w' = emit (Said (MsgArchivingCompleted folder s3_dest))
                                        (snd (_archive_json_add_entry
                                                (Py.rstrip Py.slash folder) e pre))).
    { subst rest. cbv beta zeta. clear Harch. intros w1 Hreg1.
      unfold rclone_copy, rclone_checksum. rewrite bind_get.
      destruct (fs w1 !! folder) as [[|x l]|]; [failed_run Hreg1 | | failed_run Hreg1].
      rewrite !bind_say.
      destruct (returns_gen_allfiles_and_tar a t folder (thresholdKB a) is_tar
                  (emit (Said (MsgGeneratingCatalog is_tar))
                     (emit (Said (MsgArchiving folder)) w1)))
        as (generated & w2 & Hgen).
      assert (Hreg2 : archive_json_file w2 = archive_json_file w).
      { pose proof (registry_gen_allfiles_and_tar a t folder (thresholdKB a) is_tar
                      (emit (Said (MsgGeneratingCatalog is_tar))
                         (emit (Said (MsgArchiving folder)) w1))) as H.
        rewrite Hgen in H. unfold same_registry in H. cbn [snd] in H. now rewrite H. }
      rewrite (bind_run _ _ _ _ _ Hgen).
      destruct generated; cbn [negb]; [|failed_run Hreg2].
      rewrite !bind_say.
      destruct (returns_gen_md5sums t folder md5sum_filename
                  (emit (Said MsgGeneratingChecksums) (emit (Said MsgDone) w2)))
        as (summed & w3 & Hsum).
      assert (Hreg3 : archive_json_file w3 = archive_json_file w).
      { pose proof (registry_gen_md5sums t folder md5sum_filename
                      (emit (Said MsgGeneratingChecksums) (emit (Said MsgDone) w2))) as H.
        rewrite Hsum in H. unfold same_registry in H. cbn [snd] in H. now rewrite H. }
      rewrite (bind_run _ _ _ _ _ Hsum).
      destruct summed; cbn [negb]; [|rewrite bind_say; failed_run Hreg3].
      rewrite !bind_say. rewrite bind_run_rclone_command.
      destruct_rclone_run; cbn [negb]; [|failed_run Hreg3].
      rewrite !bind_say. rewrite bind_run_rclone_command.
      destruct_rclone_run; cbn [negb]; [|failed_run Hreg3].
      rewrite !bind_say. rewrite bind_run_rclone_command.
      rewrite Rclone_envrn_restored.
      fold hashfile. fold (checksum_command hashfile s3_dest).
      destruct_rclone_run; cbn [negb]; [|failed_run Hreg3].
      rewrite !bind_say.
      match goal with
      | |- context [bind _ _ ?w9] => set (pre := w9)
      end.
      assert (Hpre : archive_json_file pre = archive_json_file w) by exact Hreg3.
      assert (Hterm : exists before,
                 terminal pre
                 = (before ++ [RcloneRan (Rclone_envrn (cfg a))
                                 (checksum_command hashfile s3_dest) true;
                               Said MsgDone])%list).
      { subst pre. cbn [terminal emit]. eexists. rewrite <- app_assoc. reflexivity. }
      destruct is_subfolder; cbn [negb].
      + rewrite bind_ret. right. exists pre. split; [exact Hpre|]. split; [exact Hterm|].
        reflexivity.
      + rewrite bind_assoc, bind_get, bind_assoc.
        match goal with
        | |- context [new_entry a t ?w8 folder ?dest is_recursive nih] =>
            destruct (new_entry a t w8 folder dest is_recursive nih)
              as [row|err] eqn:Hentry
        end.
        * rewrite bind_lift_ok. right. exists pre. split; [exact Hpre|].
          split; [exact Hterm|]. exists row. split; [exact Hentry|].
          unfold bind, _archive_json_add_entry.
          destruct (archive_json_file pre); reflexivity.
        * rewrite bind_lift_raised. cbn [caught].
          rewrite (new_entry_raises _ _ _ _ _ _ _ _ Hentry). failed_run Hpre. }
    destruct (os_path_isfile w folder ".froster.md5sum").
    + destruct is_force.
      * destruct (returns_reset_folder t folder false w) as ([] & w1 & Hreset).
        rewrite (bind_run _ _ _ _ _ Hreset). apply Hrest.
        pose proof (registry_reset_folder t folder false w) as H.
        now rewrite Hreset in H.
      * rewrite bind_assoc, bind_say. unfold sys_exit. rewrite bind_raise.
        failed_run (eq_refl (archive_json_file w)).
    + rewrite bind_ret. now apply Hrest.
  - rewrite bind_lift_raised. cbn [caught].
    rewrite (is_folder_archived_raises _ _ _ Harch).
    failed_run (eq_refl (archive_json_file w)).
Qed.

(** X14.  When [archive_locally] on a top folder
    ends on its completion notice, the registry has a row under the folder's
    key that records the folder, the destination, the configured storage
    class and the archive mode.  The one exception is a registry file that
    cannot be parsed: it stays as it is, and the notice is printed all the
    same. *)
Theorem archive_locally_completion_registers_folder
    (a : archiver) (t : tools) (folder : string) (is_recursive : bool)
    (nih : list string) (is_tar is_force : bool) (w : world) :
  let s3_dest := archive_s3_dest (cfg a) folder in
  let w' := snd (archive_locally a t folder is_recursive nih false is_tar is_force w) in
  last (terminal w') = Some (Said (MsgArchivingCompleted folder s3_dest)) ->
  match archive_json_file w with
  | JsonCorrupt => archive_json_file w' = JsonCorrupt
  | _ =>
      exists e,
        archive_json_get_row (archive_json_file w') (Py.rstrip Py.slash folder)
        = Ok (Some e)
        /\ e !! "local_folder" = Some folder
        /\ e !! "archive_folder" = Some s3_dest
        /\ e !! "s3_storage_class" = Some (storage_class (cfg a))
        /\ e !! "archive_mode" = Some (if is_recursive then "Recursive" else "Single")
  end.
Proof.
  intros s3_dest w' Hlast.
  destruct (archive_locally_outcome a t folder is_recursive nih false is_tar is_force w)
    as [[_ Hnot] | (pre & Hpre & _ & e & Hentry & Hw')]; [contradiction|].
  fold w' in Hw'. rewrite Hw'. cbn [archive_json_file emit].
  unfold _archive_json_add_entry. rewrite Hpre.
  destruct (archive_json_file w) as [| |data] eqn:Hreg;
    cbn [snd archive_json_file set_archive_json_file emit].
  - exists e. split; [|now apply (new_entry_fields a t pre folder s3_dest is_recursive nih)].
    cbn [archive_json_get_row]. now rewrite lookup_insert_eq.
  - exact Hpre.
  - exists e. split; [|now apply (new_entry_fields a t pre folder s3_dest is_recursive nih)].
    cbn [archive_json_get_row]. now rewrite lookup_insert_eq.
Qed.

Lemma archive_locally_completion_registers_folder_witness :
  exists e,
    archive_json_get_row
      (archive_json_file
         (snd (archive_locally sample_archiver (sample_tools (fun _ => true)) "/data/x"
                 false [] false true false fresh_world)))
      (Py.rstrip Py.slash "/data/x")
    = Ok (Some e)
    /\ e !! "local_folder" = Some "/data/x"
    /\ e !! "archive_folder" = Some (archive_s3_dest (cfg sample_archiver) "/data/x")
    /\ e !! "s3_storage_class" = Some (storage_class (cfg sample_archiver))
    /\ e !! "archive_mode" = Some "Single".
Proof.
  apply (archive_locally_completion_registers_folder sample_archiver
           (sample_tools (fun _ => true)) "/data/x" false [] true false fresh_world).
  vm_compute. reflexivity.
Defined.

(** X15.  [archive_locally] changes the
    registry only for a top folder, and only at the end of a run whose last
    three events are the successful checksum run against the destination,
    its [Done] and the completion notice. *)
Theorem archive_locally_registers_only_after_verification
    (a : archiver) (t : tools) (folder : string) (is_recursive : bool)
    (nih : list string) (is_subfolder is_tar is_force : bool) (w : world) :
  let s3_dest := archive_s3_dest (cfg a) folder in
  let hashfile := Py.os_path_join folder md5sum_filename in
  let w' := snd (archive_locally a t folder is_recursive nih is_subfolder
                   is_tar is_force w) in
  archive_json_file w' <> archive_json_file w ->
  is_subfolder = false
  /\ exists before,
       terminal w'
       = (before ++ [RcloneRan (Rclone_envrn (cfg a))
                       (checksum_command hashfile s3_dest) true;
                     Said MsgDone;
                     Said (MsgArchivingCompleted folder s3_dest)])%list.
Proof.
  intros s3_dest hashfile w' Hchanged.
  destruct (archive_locally_outcome a t folder is_recursive nih is_subfolder is_tar
              is_force w)
    as [[Hsame _] | (pre & Hpre & [before Hterm] & Hw')]; [contradiction|].
  fold w' in Hw'. destruct is_subfolder.
  - destruct Hchanged. now rewrite Hw'.
  - split; [reflexivity|]. destruct Hw' as (e & _ & Hw').
    exists before. rewrite Hw'. cbn [terminal emit].
    revert Hchanged. rewrite Hw'. cbn [archive_json_file emit].
    unfold _archive_json_add_entry.
    destruct (archive_json_file pre) eqn:Hreg;
      cbn [snd archive_json_file set_archive_json_file emit terminal]; intros Hchanged.
    + rewrite Hterm, <- app_assoc. reflexivity.
    + destruct Hchanged. congruence.
    + rewrite Hterm, <- app_assoc. reflexivity.
Qed.

Lemma archive_locally_registers_only_after_verification_witness :
  false = false
  /\ exists before,
       terminal (snd (archive_locally sample_archiver (sample_tools (fun _ => true))
                        "/data/x" false [] false true false fresh_world))
       = (before ++ [RcloneRan (Rclone_envrn (cfg sample_archiver))
                       (checksum_command (Py.os_path_join "/data/x" md5sum_filename)
                          (archive_s3_dest (cfg sample_archiver) "/data/x")) true;
                     Said MsgDone;
                     Said (MsgArchivingCompleted "/data/x"
                             (archive_s3_dest (cfg sample_archiver) "/data/x"))])%list.
Proof.
  apply (archive_locally_registers_only_after_verification sample_archiver
           (sample_tools (fun _ => true)) "/data/x" false [] false true false fresh_world).
  vm_compute. discriminate.
Defined.

(* --------------------------------------------------------------------- *)
(** ** A recursive batch                                                  *)
(* --------------------------------------------------------------------- *)

(** The first thing [archive_locally] does with an archived folder is to
    end the process. *)
Lemma archive_locally_archived_exits
    (a : archiver) (t : tools) (folder : string) (is_recursive : bool)
    (nih : list string) (is_subfolder is_tar is_force : bool) (w : world) :
  _is_folder_archived (archive_json_file w) (Py.rstrip Py.slash folder) = Ok true ->
  archive_locally a t folder is_recursive nih is_subfolder is_tar is_force w
  = (Raised (SystemExit 0), emit (Said (MsgAlreadyArchived folder)) w).
Proof.
  intros Harch. unfold archive_locally, try_except, caught.
  rewrite bind_get, Harch, bind_lift_ok. reflexivity.
Qed.

(** A folder right below one that is registered in Recursive mode counts
    as archived. *)
Lemma child_of_recursive_entry_is_archived
    (data : gmap string entry) (key : string) (e : entry) (sub : string) :
  data !! key = Some e ->
  e !! "archive_mode" = Some "Recursive" ->
  head (Py.parents sub) = Some key ->
  _is_folder_archived (JsonDict data) sub = Ok true.
Proof.
  intros Hkey Hmode Hparent. unfold _is_folder_archived, archive_json_get_row.
  destruct (data !! sub); [reflexivity|].
  destruct (Py.parents sub) as [|parent ps]; [discriminate|].
  injection Hparent as ->. cbn [first_recursive_parent]. rewrite Hkey.
  unfold getitem. rewrite Hmode. reflexivity.
Qed.

(** C7 (the code falls short of it).  [archive_locally] ends the process
    where its sibling paths return, and in a recursive batch it does so on
    its own work: once the top folder is archived and registered, in
    Recursive mode, the sub-folder the walk comes to next counts as
    archived, and the run ends there with exit status 0.  Nothing is done
    for the other sub-folders, nor for the other folders of the batch: the
    state is the one the top folder left, with the notice added. *)
Theorem recursive_batch_ends_at_first_subfolder
    (a : archiver) (t : tools) (folder : string) (rest : list string)
    (sub : string) (roots : list string) (w w1 : world) :
  let top := clean_path t folder in
  let folders := top :: List.map (clean_path t) rest in
  let nih := if is_nih (cfg a) || args_nih (args a) then nih_selection t else [] in
  args_recursive (args a) = true ->
  which_sbatch t && negb (args_noslurm (args a)) && negb (slurm_job_id t) = false ->
  _is_recursive_collision folders = false ->
  _is_correct_files_folders_permissions t folders true w = (Ok true, w) ->
  archive_json_file w <> JsonCorrupt ->
  _walker_roots w top = top :: sub :: roots ->
  head (Py.parents (Py.rstrip Py.slash sub)) = Some (Py.rstrip Py.slash top) ->
  archive_locally a t top true nih false (negb (args_notar (args a)))
    (args_force (args a)) w = (Ok tt, w1) ->
  last (terminal w1)
  = Some (Said (MsgArchivingCompleted top (archive_s3_dest (cfg a) top))) ->
  archive a t (folder :: rest) w
  = (Raised (SystemExit 0), emit (Said (MsgAlreadyArchived sub)) w1).
Proof.
  intros top folders nih Hrec Hslurm Hcollision Hperm Hreadable Hroots Hparent Hrun Hdone.
  (* the top folder is registered in Recursive mode *)
  assert (Hsub : _is_folder_archived (archive_json_file w1) (Py.rstrip Py.slash sub)
                 = Ok true).
  { pose proof (archive_locally_outcome a t top true nih false
                  (negb (args_notar (args a))) (args_force (args a)) w) as Hout.
    cbv zeta in Hout. rewrite Hrun in Hout. cbn [snd] in Hout.
    destruct Hout as [[_ Hnot] | (pre & Hpre & _ & e & Hentry & Hw1)];
      [now destruct Hnot|].
    destruct (new_entry_fields _ _ _ _ _ _ _ _ Hentry) as (_ & _ & _ & Hmode).
    rewrite Hw1. cbn [archive_json_file emit].
    unfold _archive_json_add_entry. rewrite Hpre.
    destruct (archive_json_file w) as [| |data]; [| now destruct Hreadable |];
      cbn [snd archive_json_file set_archive_json_file emit];
      apply (child_of_recursive_entry_is_archived _ (Py.rstrip Py.slash top) e);
      first [apply lookup_insert_eq | exact Hmode | exact Hparent]. }
  (* the batch *)
  unfold archive. cbn [List.map]. fold top. fold folders. rewrite Hrec.
  cbn [andb]. rewrite Hcollision. rewrite bind_ret.
  rewrite (bind_run _ _ _ _ _ Hperm). cbn [negb]. rewrite bind_ret.
  rewrite Hslurm. fold nih.
  unfold archive_folders, folders. cbn [for_each].
  apply bind_run_raised. rewrite bind_get, Hroots. cbn [for_each].
  rewrite String.eqb_refl. cbn [negb].
  rewrite (bind_run _ _ _ _ _ Hrun).
  apply bind_run_raised. now apply archive_locally_archived_exits.
Qed.

Lemma recursive_batch_ends_at_first_subfolder_witness :
  archive recursive_archiver (sample_tools (fun _ => true)) ["/data/x"; "/data/y"]
    two_trees_world
  = (Raised (SystemExit 0),
     emit (Said (MsgAlreadyArchived "/data/x/y"))
       (snd (archive_locally recursive_archiver (sample_tools (fun _ => true))
               "/data/x" true [] false true false two_trees_world))).
Proof.
  apply (recursive_batch_ends_at_first_subfolder recursive_archiver
           (sample_tools (fun _ => true)) "/data/x" ["/data/y"] "/data/x/y"
           ["/data/x/y/z"] two_trees_world).
  - reflexivity.
  - reflexivity.
  - vm_compute. reflexivity.
  - vm_compute. reflexivity.
  - discriminate.
  - vm_compute. reflexivity.
  - vm_compute. reflexivity.
  - vm_compute. reflexivity.
  - vm_compute. reflexivity.
Defined.

(** What that batch leaves: the top folder registered, its sub-folders
    and the second folder of the batch as they were, and the second folder
    not archived. *)
Example recursive_batch_leaves_the_rest :
  let w' := snd (archive recursive_archiver (sample_tools (fun _ => true))
                   ["/data/x"; "/data/y"] two_trees_world) in
  fs w' !! "/data/x/y" = fs two_trees_world !! "/data/x/y"
  /\ fs w' !! "/data/x/y/z" = fs two_trees_world !! "/data/x/y/z"
  /\ fs w' !! "/data/y" = fs two_trees_world !! "/data/y"
  /\ _is_folder_archived (archive_json_file w') "/data/x" = Ok true
  /\ _is_folder_archived (archive_json_file w') "/data/y" = Ok false
  /\ last (terminal w') = Some (Said (MsgAlreadyArchived "/data/x/y")).
Proof. vm_compute. repeat split; reflexivity. Qed.

(* --------------------------------------------------------------------- *)
(** ** What a batch registers                                             *)
(* --------------------------------------------------------------------- *)

Lemma same_entries_outside_refl (keys : list string) (w : world) :
  same_entries_outside keys w w.
Proof. now intros k _. Qed.

Lemma same_entries_outside_trans (keys : list string) (w1 w2 w3 : world) :
  same_entries_outside keys w1 w2 -> same_entries_outside keys w2 w3 ->
  same_entries_outside keys w1 w3.
Proof. intros H1 H2 k Hk. now rewrite H2, H1. Qed.

Lemma same_entries_outside_quiet (keys : list string) (w w' : world) :
  fs w' = fs w -> archive_json_file w' = archive_json_file w ->
  same_entries_outside keys w w'.
Proof. intros _ H k _. now rewrite H. Qed.

Lemma direct_entry_add_entry (key : string) (value : entry) (w : world) (k : string) :
  k <> key ->
  direct_entry (archive_json_file (snd (_archive_json_add_entry key value w))) k
  = direct_entry (archive_json_file w) k.
Proof.
  intros Hne. unfold _archive_json_add_entry.
  destruct (archive_json_file w) as [| |data] eqn:Hreg;
    cbn [snd archive_json_file set_archive_json_file emit direct_entry].
  - now rewrite lookup_insert_ne.
  - now rewrite Hreg.
  - now rewrite lookup_insert_ne.
Qed.

(** A run of [archive_locally] changes no entry but, for a top folder, the
    folder's own. *)
Lemma entries_archive_locally
    (a : archiver) (t : tools) (folder : string) (is_recursive : bool)
    (nih : list string) (is_subfolder is_tar is_force : bool) (keys : list string) :
  is_subfolder = true \/ Py.rstrip Py.slash folder ∈ keys ->
  respects (same_entries_outside keys)
    (archive_locally a t folder is_recursive nih is_subfolder is_tar is_force).
Proof.
  intros Hwhy w k Hk.
  destruct (archive_locally_outcome a t folder is_recursive nih is_subfolder is_tar
              is_force w)
    as [[Hsame _] | (pre & Hpre & _ & Hw')]; [now rewrite Hsame|].
  destruct is_subfolder.
  - rewrite Hw'. cbn [archive_json_file emit]. now rewrite Hpre.
  - destruct Hw' as (e & _ & ->). cbn [archive_json_file emit].
    rewrite direct_entry_add_entry, Hpre; [reflexivity|].
    intros ->. destruct Hwhy as [Hsub | Hin]; [discriminate | contradiction].
Qed.

(** X16.  An [archive] batch changes no registry entry
    but those stored under the folders of the batch (trailing slashes
    removed), however it ends and also with the recursive switch:
    sub-folders visited by the walker get no entry of their own. *)
Theorem archive_registers_only_the_named_folders
    (a : archiver) (t : tools) (folders : list string) (w : world) :
  forall key,
    key ∉ List.map (fun folder => Py.rstrip Py.slash (clean_path t folder)) folders ->
    direct_entry (archive_json_file (snd (archive a t folders w))) key
    = direct_entry (archive_json_file w) key.
Proof.
  revert w.
  set (S := List.map (fun folder => Py.rstrip Py.slash (clean_path t folder)) folders).
  change (respects (same_entries_outside S) (archive a t folders)).
  unfold archive.
  apply (respects_batch_checks _ (same_entries_outside_refl S)
           (same_entries_outside_trans S)).
  - destruct (which_sbatch t && negb (args_noslurm (args a)) && negb (slurm_job_id t)).
    + apply (respects_quiet _ _ (same_entries_outside_quiet S)), quiet_archive_slurm.
    + unfold archive_folders.
      generalize (if is_nih (cfg a) || args_nih (args a) then nih_selection t else []).
      intros nih.
      assert (Hloop : forall l,
                 (forall folder, folder ∈ l -> Py.rstrip Py.slash folder ∈ S) ->
                 respects (same_entries_outside S)
                   (for_each l
                      (fun folder =>
                         if args_recursive (args a)
                         then bind get (fun w0 =>
                                for_each (_walker_roots w0 folder)
                                  (fun root =>
                                     archive_locally a t root (args_recursive (args a)) nih
                                       (negb (String.eqb folder root))
                                       (negb (args_notar (args a)))
                                       (args_force (args a))))
                         else archive_locally a t folder (args_recursive (args a)) nih
                                false (negb (args_notar (args a)))
                                (args_force (args a))))).
      { induction l as [|folder l IH]; intros Hl; cbn [for_each].
        - apply (respects_ret _ (same_entries_outside_refl S)).
        - apply (respects_bind _ (same_entries_outside_trans S));
            [|intros _; apply IH; intros f Hf; apply Hl; now right].
          assert (Hfolder : Py.rstrip Py.slash folder ∈ S) by (apply Hl; left).
          destruct (args_recursive (args a)).
          + apply (respects_bind _ (same_entries_outside_trans S));
              [apply (respects_get _ (same_entries_outside_refl S)) | intros w0].
            apply (respects_for_each _ (same_entries_outside_refl S)
                     (same_entries_outside_trans S)).
            intros root. apply entries_archive_locally.
            destruct (String.eqb folder root) eqn:Heq; [|now left].
            apply String.eqb_eq in Heq. subst root. now right.
          + apply entries_archive_locally. now right. }
      apply Hloop. intros folder Hfolder. subst S.
      apply list_elem_of_In, in_map_iff in Hfolder as (f & <- & Hf).
      apply list_elem_of_In, in_map_iff. exists f. split; [reflexivity | exact Hf].
  - intros m. apply (respects_quiet _ _ (same_entries_outside_quiet S)), quiet_say.
Qed.

Lemma archive_registers_only_the_named_folders_witness :
  direct_entry
    (archive_json_file
       (snd (archive recursive_archiver (sample_tools (fun _ => true)) ["/data/x/"]
               tree_world)))
    "/data/x/y"
  = direct_entry (archive_json_file tree_world) "/data/x/y".
Proof.
  apply (archive_registers_only_the_named_folders recursive_archiver
           (sample_tools (fun _ => true)) ["/data/x/"] tree_world).
  cbn [List.map]. intros H%list_elem_of_singleton. vm_compute in H. discriminate H.
Defined.

(* --------------------------------------------------------------------- *)
(** ** Hotspot names, rclone options, nested folders, archived folders    *)
(* --------------------------------------------------------------------- *)

Lemma contains_char_app (c : ascii) (a b : string) :
  Py.contains (String c EmptyString) (a ++ b)
  = Py.contains (String c EmptyString) a || Py.contains (String c EmptyString) b.
Proof.
  induction a as [|x a IH].
  - rewrite string_app_nil. reflexivity.
  - rewrite string_app_cons. cbn [Py.contains String.prefix].
    rewrite IH, !prefix_empty. now rewrite orb_assoc.
Qed.

Lemma replace_slash_no_slash (s : string) :
  Py.contains "/" (Py.replace s "/" "+") = false.
Proof.
  unfold Py.replace. induction s as [|c s IH]; [reflexivity|].
  cbn [Py.replace_scan String.prefix String.length Nat.sub].
  rewrite prefix_empty.
  destruct (Ascii.ascii_dec "/"%char c) as [_|Hc].
  - change ("+" ++ Py.replace_scan "/" "+" 0 s)
      with (String "+"%char (Py.replace_scan "/" "+" 0 s)).
    cbn [Py.contains String.prefix]. exact IH.
  - cbn [Py.contains String.prefix].
    destruct (Ascii.ascii_dec "/"%char c); [contradiction|]. exact IH.
Qed.

Lemma hotspots_file_no_match (mountlist : list mount_info) (folder hsfile : string) :
  Forall (fun mnt => Py.startswith folder (mount_point mnt) = false) mountlist ->
  List.fold_left (hotspots_file_step folder) mountlist hsfile = hsfile.
Proof.
  induction 1 as [|mnt l Hmnt _ IH]; [reflexivity|].
  cbn [fold_left]. unfold hotspots_file_step at 2. now rewrite Hmnt.
Qed.

(** X17.  For a folder under no detected mount
    point, the hotspots file name is the folder with every [/] replaced by
    [+], followed by [.csv]: it contains no [/] and is four characters
    longer than the folder. *)
Theorem hotspots_file_outside_mounts_is_one_component
    (mountlist : list mount_info) (folder : string) :
  Forall (fun mnt => Py.startswith folder (mount_point mnt) = false) mountlist ->
  _get_hotspots_file mountlist folder = Py.replace folder "/" "+" ++ ".csv"
  /\ Py.contains "/" (_get_hotspots_file mountlist folder) = false
  /\ String.length (_get_hotspots_file mountlist folder) = String.length folder + 4.
Proof.
  intros Hno. unfold _get_hotspots_file. rewrite (hotspots_file_no_match _ _ _ Hno).
  split; [reflexivity|]. split.
  - rewrite contains_char_app, replace_slash_no_slash. reflexivity.
  - now rewrite string_length_app, replace_slash_length.
Qed.

Lemma hotspots_file_outside_mounts_is_one_component_witness :
  _get_hotspots_file [lab_mount] "/data/x/y" = Py.replace "/data/x/y" "/" "+" ++ ".csv"
  /\ Py.contains "/" (_get_hotspots_file [lab_mount] "/data/x/y") = false
  /\ String.length (_get_hotspots_file [lab_mount] "/data/x/y")
     = String.length "/data/x/y" + 4.
Proof.
  apply (hotspots_file_outside_mounts_is_one_component [lab_mount] "/data/x/y").
  repeat constructor.
Defined.

Lemma hotspots_file_bound_under_mount_witness :
  String.length (_get_hotspots_file [lab_mount] ("/mnt/lab" ++ long_local_folder)) <= 255.
Proof.
  apply (hotspots_file_bound_under_mount [lab_mount] ("/mnt/lab" ++ long_local_folder)).
  constructor. reflexivity.
Defined.

Lemma add_opt_spec (cmd : list string) (option : string) :
  _add_opt cmd option
  = (cmd ++ if existsb (String.eqb option) cmd then [] else [option])%list.
Proof. unfold _add_opt. destruct (existsb _ cmd); [now rewrite app_nil_r | reflexivity]. Qed.

Lemma existsb_eqb_elem_of (option : string) (cmd : list string) :
  existsb (String.eqb option) cmd = true <-> option ∈ cmd.
Proof.
  rewrite existsb_exists, list_elem_of_In. split.
  - intros (x & Hin & Heq). apply String.eqb_eq in Heq. now subst.
  - intros Hin. exists option. split; [exact Hin | apply String.eqb_refl].
Qed.

Lemma add_opt_elem_of (cmd : list string) (option x : string) :
  x ∈ _add_opt cmd option <-> x ∈ cmd \/ x = option.
Proof.
  rewrite add_opt_spec, elem_of_app.
  destruct (existsb (String.eqb option) cmd) eqn:Hin.
  - apply existsb_eqb_elem_of in Hin. split.
    + intros [H | H]; [now left | inversion H].
    + intros [H | ->]; now left.
  - now rewrite list_elem_of_singleton.
Qed.

Lemma add_opt_NoDup (cmd : list string) (option : string) :
  NoDup cmd -> NoDup (_add_opt cmd option).
Proof.
  intros Hnodup. rewrite add_opt_spec.
  destruct (existsb (String.eqb option) cmd) eqn:Hin; [now rewrite app_nil_r|].
  apply NoDup_app. split; [exact Hnodup|]. split; [|apply NoDup_singleton].
  intros x Hx Hx'. apply list_elem_of_singleton in Hx'. subst x.
  apply existsb_eqb_elem_of in Hx. congruence.
Qed.

Lemma add_opt_present (cmd : list string) (option : string) :
  option ∈ cmd -> _add_opt cmd option = cmd.
Proof. intros Hin. unfold _add_opt. now rewrite (proj2 (existsb_eqb_elem_of _ _) Hin). Qed.

(** X19.  The command line built by [_run_rclone_command]
    is the given command followed by those of [--verbose],
    [--use-json-log] and [--progress] it did not already hold: the three are
    always present, nothing of the command is lost, no duplicate is
    introduced, and building twice changes nothing. *)
Theorem rclone_argv_adds_each_option_once (command : list string) :
  (exists added,
     rclone_argv command = (command ++ added)%list
     /\ forall o, o ∈ added ->
          o ∈ ["--verbose"; "--use-json-log"; "--progress"] /\ o ∉ command)
  /\ (forall o, o ∈ ["--verbose"; "--use-json-log"; "--progress"] ->
        o ∈ rclone_argv command)
  /\ (forall x, x ∈ command -> x ∈ rclone_argv command)
  /\ (NoDup command -> NoDup (rclone_argv command))
  /\ rclone_argv (rclone_argv command) = rclone_argv command.
Proof.
  assert (Hin : forall x, x ∈ rclone_argv command
                          <-> x ∈ command
                              \/ x ∈ ["--verbose"; "--use-json-log"; "--progress"]).
  { intros x. unfold rclone_argv. rewrite !add_opt_elem_of, !elem_of_cons.
    rewrite elem_of_nil. tauto. }
  split; [|split; [|split; [|split]]].
  - unfold rclone_argv. rewrite !add_opt_spec, <- !app_assoc.
    eexists. split; [reflexivity|].
    intros o Ho. rewrite !elem_of_app in Ho.
    destruct Ho as [Ho | [Ho | Ho]];
      match type of Ho with
      | _ ∈ (if existsb (String.eqb ?opt) ?c then _ else _) =>
          destruct (existsb (String.eqb opt) c) eqn:Hex; [inversion Ho|];
          apply list_elem_of_singleton in Ho; subst o;
          apply not_true_iff_false in Hex; rewrite existsb_eqb_elem_of in Hex
      end.
    + split; [left | exact Hex].
    + split; [right; left|]. intros Hc. apply Hex. rewrite !elem_of_app. tauto.
    + split; [right; right; left|]. intros Hc. apply Hex. rewrite !elem_of_app. tauto.
  - intros o Ho. apply Hin. now right.
  - intros x Hx. apply Hin. now left.
  - intros Hnodup. unfold rclone_argv. now repeat apply add_opt_NoDup.
  - unfold rclone_argv at 1.
    rewrite (add_opt_present (rclone_argv command) "--verbose")
      by (apply Hin; right; left).
    rewrite (add_opt_present (rclone_argv command) "--use-json-log")
      by (apply Hin; right; right; left).
    apply add_opt_present. apply Hin. right. right. right. left.
Qed.

Lemma common_prefix_app (x rest : list string) :
  common_prefix x (x ++ rest) = x /\ common_prefix (x ++ rest) x = x.
Proof.
  induction x as [|c x [IH1 IH2]]; [split; [reflexivity | now destruct rest]|].
  cbn [app common_prefix]. rewrite String.eqb_refl, IH1, IH2. now split.
Qed.

Lemma collision_of_pair (before between after : list string) (x y : string) :
  collide x y = true ->
  _is_recursive_collision (before ++ x :: between ++ y :: after) = true.
Proof.
  intros Hxy. induction before as [|z before IH]; cbn [app _is_recursive_collision].
  - apply orb_true_iff. left. apply existsb_exists. exists y. split; [|exact Hxy].
    apply in_or_app. right. now left.
  - rewrite IH. apply orb_true_r.
Qed.

(** X20.  For two absolute folders of a batch, one
    in normal form and the other below it or equal to it, in either order and
    wherever they stand in the batch, [_is_recursive_collision] returns
    [True]. *)
Theorem recursive_collision_detects_nested_folders
    (before between after : list string) (parent child : string) (rest : list string) :
  Py.startswith parent "/" = true ->
  Py.startswith child "/" = true ->
  parent = "/" ++ Py.join "/" (Py.path_names parent) ->
  Py.path_names child = (Py.path_names parent ++ rest)%list ->
  _is_recursive_collision (before ++ parent :: between ++ child :: after) = true
  /\ _is_recursive_collision (before ++ child :: between ++ parent :: after) = true.
Proof.
  intros Hparent Hchild Hnormal Hunder.
  destruct (common_prefix_app (Py.path_names parent) rest) as [H1 H2].
  split; apply collision_of_pair; unfold collide, commonpath;
    rewrite Hparent, Hchild; cbn [Bool.eqb negb]; rewrite Hunder.
  - rewrite H1, <- Hnormal, String.eqb_refl. reflexivity.
  - rewrite H2, <- Hnormal, String.eqb_refl. apply orb_true_r.
Qed.

Lemma recursive_collision_detects_nested_folders_witness :
  _is_recursive_collision ([] ++ "/data/x" :: ["/scratch"] ++ "/data/x/y/z" :: []) = true
  /\ _is_recursive_collision ([] ++ "/data/x/y/z" :: ["/scratch"] ++ "/data/x" :: []) = true.
Proof.
  apply (recursive_collision_detects_nested_folders [] ["/scratch"] [] "/data/x"
           "/data/x/y/z" ["y"; "z"]); reflexivity.
Defined.

Lemma reset_root_archived (t : tools) (root : string) (w : world) :
  _is_folder_archived (archive_json_file w) (Py.rstrip Py.slash root) = Ok true ->
  reset_root t root w
  = (Ok tt, emit (Said (MsgNothingToReset root)) (emit (Said (MsgResetting root)) w)).
Proof.
  intros Harch. unfold reset_root, try_except. rewrite bind_say, bind_get.
  cbn [archive_json_file emit]. rewrite Harch, bind_lift_ok. reflexivity.
Qed.

(** X21.  When every folder [reset_folder] visits is archived (every root
    of the walk with the recursive switch, the first root alone without
    it), it returns without changing any directory or the registry. *)
Theorem reset_folder_leaves_archived_folders_alone
    (t : tools) (directory : string) (recursive : bool) (w : world) :
  (forall root,
     root ∈ (if recursive then _walker_roots w directory
             else firstn 1 (_walker_roots w directory)) ->
     _is_folder_archived (archive_json_file w) (Py.rstrip Py.slash root) = Ok true) ->
  exists w',
    reset_folder t directory recursive w = (Ok tt, w')
    /\ fs w' = fs w
    /\ archive_json_file w' = archive_json_file w.
Proof.
  intros Harch. unfold reset_folder. rewrite bind_get.
  assert (Hloop : forall roots w0,
             (forall root, root ∈ roots ->
                _is_folder_archived (archive_json_file w) (Py.rstrip Py.slash root)
                = Ok true) ->
             fs w0 = fs w -> archive_json_file w0 = archive_json_file w ->
             exists w',
               for_each roots (reset_root t) w0 = (Ok tt, w')
               /\ fs w' = fs w /\ archive_json_file w' = archive_json_file w).
  { induction roots as [|root roots IH]; intros w0 Hroots Hfs Hreg; cbn [for_each].
    - now exists w0.
    - rewrite (bind_run _ _ _ _ _ (reset_root_archived t root w0
                                     (ltac:(rewrite Hreg; apply Hroots; left)))).
      apply IH; [|exact Hfs | exact Hreg]. intros r Hr. apply Hroots. now right. }
  apply Hloop; [exact Harch | reflexivity | reflexivity].
Qed.

Lemma reset_folder_leaves_archived_folders_alone_witness :
  exists w',
    reset_folder (sample_tools (fun _ => true)) "/data/x" false single_tree_world
    = (Ok tt, w')
    /\ fs w' = fs single_tree_world
    /\ archive_json_file w' = archive_json_file single_tree_world.
Proof.
  apply (reset_folder_leaves_archived_folders_alone (sample_tools (fun _ => true))
           "/data/x" false single_tree_world).
  intros root Hroot.
  assert (Hroots : firstn 1 (_walker_roots single_tree_world "/data/x") = ["/data/x"])
    by (vm_compute; reflexivity).
  rewrite Hroots, elem_of_cons, elem_of_nil in Hroot.
  destruct Hroot as [-> | []]. vm_compute. reflexivity.
Defined.

(** In [single_tree_world] the sub-folder of the archived top is not
    archived itself; the reset without the recursive switch never comes to
    it. *)
Example single_tree_subfolder_not_archived :
  _is_folder_archived (archive_json_file single_tree_world) "/data/x/y" = Ok false.
Proof. vm_compute. reflexivity. Qed.

(** With the recursive switch, on a tree archived recursively from its
    top. *)
Example reset_folder_recursive_archived_tree :
  let w' := snd (reset_folder (sample_tools (fun _ => true)) "/data/x" true
                   archived_tree_world) in
  fs w' = fs archived_tree_world
  /\ archive_json_file w' = archive_json_file archived_tree_world.
Proof. vm_compute. split; reflexivity. Qed.
